(** * Canvas Completer: content normalisation and submission status

    A shallow embedding of the pure core of the Canvas Completer tool
    (filename sanitiser, HTML-to-markdown converter, caption parser,
    content-type classifier, PDF text extractor, module-item normaliser,
    detection-result cache and submission state machine), together with
    the properties its specification states about them.

    Python [str] values are sequences of Unicode code points; they are
    modelled as lists of [N].  The regular expressions of the source are
    run by a small backtracking matcher that follows the priorities of
    Python's [re] module (leftmost match, greedy and lazy repetition,
    alternatives in order). *)

From Stdlib Require Import ZArith NArith QArith List String Ascii Bool Lia.
From stdpp Require Import gmap strings list.

Local Open Scope N_scope.

(** ** Python strings *)

Module PyStr.

(** A literal of the source, written as a Rocq string of ASCII characters. *)
Definition py (s : string) : list N :=
  map N_of_ascii (list_ascii_of_string s).

Definition str_eqb (a b : list N) : bool := bool_decide (a = b).

(** [c in chars], for a string used as a set of characters. *)
Definition mem (c : N) (chars : list N) : bool := existsb (N.eqb c) chars.

Definition in_range (lo hi c : N) : bool := (lo <=? c) && (c <=? hi).

(** [str.isspace] on one code point, which is also what [\s] matches in a
    [str] pattern: the characters of bidirectional class WS, B or S and of
    category Zs. *)
Definition is_space (c : N) : bool :=
  in_range 9 13 c || in_range 28 32 c || (c =? 133) || (c =? 160)
  || (c =? 5760) || in_range 8192 8202 c || (c =? 8232) || (c =? 8233)
  || (c =? 8239) || (c =? 8287) || (c =? 12288).

(** First code points of the runs of ten decimal digits (category Nd) of
    Unicode 14; the mathematical digits U+1D7CE..U+1D7FF form one run of
    fifty. *)
Definition decimal_runs : list N :=
  [ 48; 1632; 1776; 1984; 2406; 2534; 2662; 2790; 2918; 3046; 3174; 3302;
    3430; 3558; 3664; 3792; 3872; 4160; 4240; 6112; 6160; 6470; 6608; 6784;
    6800; 6992; 7088; 7232; 7248; 42528; 43216; 43264; 43472; 43504; 43600;
    44016; 65296; 66720; 68912; 69734; 69872; 69942; 70096; 70384; 70736;
    70864; 71248; 71360; 71472; 71904; 72016; 72784; 73040; 73120; 92768;
    92864; 93008; 123200; 123632; 125264; 130032 ].

(** What [\d] matches in a [str] pattern. *)
Definition is_decimal (c : N) : bool :=
  existsb (fun lo => in_range lo (lo + 9) c) decimal_runs
  || in_range 120782 120831 c.

Fixpoint startswith (p s : list N) : bool :=
  match p, s with
  | [], _ => true
  | a :: p', b :: s' => (a =? b) && startswith p' s'
  | _ :: _, [] => false
  end.

Definition endswith (p s : list N) : bool := startswith (rev p) (rev s).

(** [needle in s] on strings. *)
Fixpoint contains (needle s : list N) : bool :=
  startswith needle s ||
  match s with
  | [] => false
  | _ :: s' => contains needle s'
  end.

Fixpoint dropwhile (p : N -> bool) (s : list N) : list N :=
  match s with
  | [] => []
  | c :: s' => if p c then dropwhile p s' else s
  end.

Definition lstrip_by (p : N -> bool) (s : list N) : list N := dropwhile p s.
Definition rstrip_by (p : N -> bool) (s : list N) : list N :=
  rev (dropwhile p (rev s)).
Definition strip_by (p : N -> bool) (s : list N) : list N :=
  rstrip_by p (lstrip_by p s).

(** [s.strip()] and [s.strip(chars)]. *)
Definition strip (s : list N) : list N := strip_by is_space s.
Definition strip_chars (chars s : list N) : list N :=
  strip_by (fun c => mem c chars) s.

(** [s.split(sep)] for a one-character separator: the pieces between the
    separators, at least one piece. *)
Fixpoint split_on (sep : N) (cur : list N) (s : list N) : list (list N) :=
  match s with
  | [] => [rev cur]
  | c :: s' =>
      if c =? sep then rev cur :: split_on sep [] s'
      else split_on sep (c :: cur) s'
  end.

Definition split (sep : N) (s : list N) : list (list N) := split_on sep [] s.

(** [sep.join(parts)]. *)
Fixpoint join (sep : list N) (parts : list (list N)) : list N :=
  match parts with
  | [] => []
  | [p] => p
  | p :: rest => p ++ sep ++ join sep rest
  end.

(** [s.lower()] on the ASCII letters; it agrees with Python on every
    string of ASCII characters. *)
Definition ascii_lower_char (c : N) : N :=
  if in_range 65 90 c then c + 32 else c.
Definition ascii_lower (s : list N) : list N := map ascii_lower_char s.

(** [s.replace(old, new)]; an empty [old] matches between the characters. *)
Fixpoint replace_go (old new : list N) (skip : nat) (s : list N) : list N :=
  match s with
  | [] => []
  | c :: s' =>
      match skip with
      | S n => replace_go old new n s'
      | O =>
          if startswith old s
          then new ++ replace_go old new (length old - 1) s'
          else c :: replace_go old new O s'
      end
  end.

Definition replace (old new s : list N) : list N :=
  match old with
  | [] => new ++ flat_map (fun c => c :: new) s
  | _ :: _ => replace_go old new O s
  end.

End PyStr.
Export PyStr.

(** ** Regular expressions, as Python's [re] runs them *)

Module Re.

Inductive regex : Type :=
| Eps
| Chr (p : N -> bool)
| Seq (r1 r2 : regex)
| Alt (r1 r2 : regex)
| Rep (greedy : bool) (lo : nat) (hi : option nat) (p : N -> bool)
| Grp (i : nat) (r : regex)
| Bol
| Eol.

(** Captured groups, most recent binding first. *)
Definition caps : Type := list (nat * list N).

Definition cont (A : Type) : Type := nat -> list N -> caps -> option A.

Definition or_else {A} (a : option A) (b : option A) : option A :=
  match a with
  | Some x => Some x
  | None => b
  end.

Definition hi_zero (hi : option nat) : bool :=
  match hi with
  | Some O => true
  | _ => false
  end.

Definition hi_pred (hi : option nat) : option nat :=
  match hi with
  | Some n => Some (Nat.pred n)
  | None => None
  end.

Definition stop_here {A} (lo : nat) (k : cont A) pos s c : option A :=
  match lo with
  | O => k pos s c
  | S _ => None
  end.

(** Greedy repetition of a one-character class: take as many as allowed,
    give back one at a time. *)
Fixpoint rep_greedy {A} (p : N -> bool) (lo : nat) (hi : option nat)
    (k : cont A) (pos : nat) (s : list N) (c : caps) : option A :=
  if hi_zero hi then stop_here lo k pos s c
  else
    match s with
    | x :: s' =>
        if p x
        then or_else (rep_greedy p (Nat.pred lo) (hi_pred hi) k (S pos) s' c)
                     (stop_here lo k pos s c)
        else stop_here lo k pos s c
    | [] => stop_here lo k pos s c
    end.

(** Lazy repetition: take as few as allowed, one more on failure. *)
Fixpoint rep_lazy {A} (p : N -> bool) (lo : nat) (hi : option nat)
    (k : cont A) (pos : nat) (s : list N) (c : caps) : option A :=
  or_else (stop_here lo k pos s c)
    (if hi_zero hi then None
     else
       match s with
       | x :: s' =>
           if p x
           then rep_lazy p (Nat.pred lo) (hi_pred hi) k (S pos) s' c
           else None
       | [] => None
       end).

(** [$] without MULTILINE: at the end, or before a final newline. *)
Definition at_eol (s : list N) : bool :=
  match s with
  | [] => true
  | [10] => true
  | _ => false
  end.

(** The matcher, in continuation-passing style: [k] is what remains to be
    matched after [r]; a failure of [k] makes [r] try its next choice. *)
Fixpoint mt {A} (r : regex) (k : cont A) (pos : nat) (s : list N)
    (c : caps) : option A :=
  match r with
  | Eps => k pos s c
  | Chr p =>
      match s with
      | x :: s' => if p x then k (S pos) s' c else None
      | [] => None
      end
  | Seq r1 r2 => mt r1 (mt r2 k) pos s c
  | Alt r1 r2 => or_else (mt r1 k pos s c) (mt r2 k pos s c)
  | Rep g lo hi p =>
      if g then rep_greedy p lo hi k pos s c else rep_lazy p lo hi k pos s c
  | Grp i r =>
      mt r (fun pos' s' c' => k pos' s' ((i, take (pos' - pos) s) :: c'))
         pos s c
  | Bol => if Nat.eqb pos 0 then k pos s c else None
  | Eol => if at_eol s then k pos s c else None
  end.

(** A match starting at [pos], where [s] is the input from [pos] on: the
    end position and the groups.  With [must_advance] an empty match is
    refused. *)
Definition match_at (must_advance : bool) (r : regex) (pos : nat)
    (s : list N) : option (nat * caps) :=
  mt r (fun pos' _ c' =>
          if must_advance && Nat.eqb pos' pos then None else Some (pos', c'))
     pos s [].

(** [re.match(r, s)] as a truth value. *)
Definition re_match (r : regex) (s : list N) : bool :=
  match match_at false r O s with
  | Some _ => true
  | None => false
  end.

(** Replacement templates: literal text and group references [\i]. *)
Inductive tpl_item : Type :=
| TLit (s : list N)
| TRef (i : nat).

Fixpoint group (i : nat) (c : caps) : list N :=
  match c with
  | [] => []
  | (j, g) :: c' => if Nat.eqb i j then g else group i c'
  end.

Definition expand (t : list tpl_item) (c : caps) : list N :=
  flat_map (fun it => match it with
                      | TLit s => s
                      | TRef i => group i c
                      end) t.

(** [re.sub(r, repl, s)]: replace the non-overlapping matches from left to
    right.  [skip] counts the characters of the current match still to be
    passed over.  An empty match is replaced, and the search is then
    repeated at the same place for a match that advances (Python 3.7). *)
Fixpoint sub_go (r : regex) (repl : caps -> list N) (pos skip : nat)
    (s : list N) : list N :=
  match s with
  | [] =>
      match skip with
      | S _ => []
      | O =>
          match match_at false r pos [] with
          | Some (_, c) => repl c
          | None => []
          end
      end
  | x :: s' =>
      match skip with
      | S n => sub_go r repl (S pos) n s'
      | O =>
          match match_at false r pos s with
          | Some (e, c) =>
              if Nat.eqb e pos
              then
                repl c ++
                match match_at true r pos s with
                | Some (e2, c2) =>
                    repl c2 ++ sub_go r repl (S pos) (e2 - pos - 1) s'
                | None => x :: sub_go r repl (S pos) O s'
                end
              else repl c ++ sub_go r repl (S pos) (e - pos - 1) s'
          | None => x :: sub_go r repl (S pos) O s'
          end
      end
  end.

Definition re_sub (r : regex) (t : list tpl_item) (s : list N) : list N :=
  sub_go r (expand t) O O s.

(** Pattern builders. *)
Definition lit1 (c : N) : regex := Chr (N.eqb c).

Fixpoint lit (s : list N) : regex :=
  match s with
  | [] => Eps
  | [c] => lit1 c
  | c :: s' => Seq (lit1 c) (lit s')
  end.

Fixpoint seqs (rs : list regex) : regex :=
  match rs with
  | [] => Eps
  | [r] => r
  | r :: rs' => Seq r (seqs rs')
  end.

Definition any_char : N -> bool := fun _ => true.        (* [.] with DOTALL *)
Definition not_char (c : N) : N -> bool := fun x => negb (x =? c).
Definition star (p : N -> bool) : regex := Rep true 0 None p.
Definition plus (p : N -> bool) : regex := Rep true 1 None p.
Definition lazy_star (p : N -> bool) : regex := Rep false 0 None p.
Definition opt (c : N) : regex := Rep true 0 (Some 1%nat) (N.eqb c).

End Re.
Export Re.

(** ** Filename sanitiser ([canvas_browser.sanitize_filename]) *)

(** The characters of the class removed first: less-than, greater-than,
    colon, double quote, slash, backslash, bar, question mark, star. *)
Definition forbidden_chars : list N := py "<>:" ++ [34] ++ py "/\|?*".

Definition is_forbidden (c : N) : bool := mem c forbidden_chars.

Definition sanitize_filename (name : list N) : list N :=
  let name := re_sub (Chr is_forbidden) [] name in
  let name := re_sub (plus is_space) [TLit (py "_")] name in
  let name := strip_chars (py "._") name in
  take 100 name.

(** ** Caption parser ([content_extractor.parse_caption_file]) *)

(** [^\d+$] *)
Definition re_cue_number : regex := seqs [Bol; plus is_decimal; Eol].

(** The class [[a-f0-9-]]. *)
Definition is_cue_id_char (c : N) : bool :=
  in_range 97 102 c || in_range 48 57 c || (c =? 45).

(** [^[a-f0-9-]+$] *)
Definition re_cue_id : regex := seqs [Bol; plus is_cue_id_char; Eol].

(** [<[^>]+>] *)
Definition re_tag : regex := seqs [lit1 60; plus (not_char 62); lit1 62].

Definition is_empty (s : list N) : bool :=
  match s with
  | [] => true
  | _ :: _ => false
  end.

(** One turn of the loop over the lines: the text appended to [text_lines],
    or [None] when the line is skipped. *)
Definition caption_line (line : list N) : option (list N) :=
  let line := strip line in
  if startswith (py "WEBVTT") line || startswith (py "NOTE") line then None
  else if contains (py "-->") line then None
  else if re_match re_cue_number line || re_match re_cue_id line then None
  else if is_empty line then None
  else
    let line := re_sub re_tag [] line in
    if is_empty line then None else Some line.

Definition caption_step (text_lines : list (list N)) (line : list N)
  : list (list N) :=
  match caption_line line with
  | Some l => text_lines ++ [l]
  | None => text_lines
  end.

Definition parse_caption_file (content : list N) : list N :=
  let lines := split 10 content in
  let text_lines := fold_left caption_step lines [] in
  join (py " ") text_lines.

(** ** [html.unescape] of the Python library

    The table of the 2231 named references ([html.entities.html5]) is a
    parameter; the numeric references are decoded as the library does.  The
    conversion of the digits is total here (the interpreter refuses decimal
    numerals beyond its configured length limit). *)

Module Html.

Definition invalid_charrefs : list (N * N) :=
  [ (0, 65533); (13, 13); (128, 8364); (129, 129); (130, 8218); (131, 402);
    (132, 8222); (133, 8230); (134, 8224); (135, 8225); (136, 710);
    (137, 8240); (138, 352); (139, 8249); (140, 338); (141, 141); (142, 381);
    (143, 143); (144, 144); (145, 8216); (146, 8217); (147, 8220);
    (148, 8221); (149, 8226); (150, 8211); (151, 8212); (152, 732);
    (153, 8482); (154, 353); (155, 8250); (156, 339); (157, 157); (158, 382);
    (159, 376) ].

Definition invalid_codepoints : list (N * N) :=
  [ (1, 8); (11, 11); (14, 31); (127, 159); (64976, 65007); (65534, 65535);
    (131070, 131071); (196606, 196607); (262142, 262143); (327678, 327679);
    (393214, 393215); (458750, 458751); (524286, 524287); (589822, 589823);
    (655358, 655359); (720894, 720895); (786430, 786431); (851966, 851967);
    (917502, 917503); (983038, 983039); (1048574, 1048575);
    (1114110, 1114111) ].

Definition is_ascii_digit (c : N) : bool := in_range 48 57 c.
Definition is_hex_digit (c : N) : bool :=
  in_range 48 57 c || in_range 97 102 c || in_range 65 70 c.

Definition digit_value (c : N) : N :=
  if in_range 48 57 c then c - 48
  else if in_range 97 102 c then c - 87
  else c - 55.

(** [int(s, base)] on a string of digits of that base. *)
Definition int_of (base : N) (s : list N) : N :=
  fold_left (fun acc c => acc * base + digit_value c) s 0.

(** The class [[^\t\n\f <&#;]]. *)
Definition is_name_char (c : N) : bool := negb (mem c [9; 10; 12; 32; 60; 38; 35; 59]).

(** [&(#[0-9]+;?|#[xX][0-9a-fA-F]+;?|[^\t\n\f <&#;]{1,32};?)] *)
Definition re_charref : regex :=
  Seq (lit1 38)
    (Grp 1
       (Alt (seqs [lit1 35; plus is_ascii_digit; opt 59])
          (Alt (seqs [lit1 35; Chr (fun c => mem c (py "xX"));
                      plus is_hex_digit; opt 59])
             (seqs [Rep true 1 (Some 32%nat) is_name_char; opt 59])))).

Fixpoint assoc_N (k : N) (l : list (N * N)) : option N :=
  match l with
  | [] => None
  | (k', v) :: l' => if k =? k' then Some v else assoc_N k l'
  end.

Definition numeric_charref (num : N) : list N :=
  match assoc_N num invalid_charrefs with
  | Some c => [c]
  | None =>
      if in_range 55296 57343 num || (1114111 <? num) then [65533]
      else if existsb (fun r => in_range (fst r) (snd r) num) invalid_codepoints
      then []
      else [num]
  end.

Section Named.

Variable html5 : list N -> option (list N).

(** [for x in range(len(s)-1, 1, -1)]: the longest proper prefix of at least
    two characters that is a name of the table. *)
Fixpoint longest_prefix (s : list N) (x : nat) : option (list N) :=
  match x with
  | O => None
  | S x' =>
      if Nat.leb x 1 then None
      else
        match html5 (take x s) with
        | Some v => Some (v ++ drop x s)
        | None => longest_prefix s x'
        end
  end.

Definition replace_charref (c : caps) : list N :=
  let s := group 1 c in
  match s with
  | [] => [38]
  | c0 :: rest =>
      if c0 =? 35 then
        match rest with
        | [] => [38; 35]
        | c1 :: digits =>
            if mem c1 (py "xX")
            then numeric_charref (int_of 16 (rstrip_by (N.eqb 59) digits))
            else numeric_charref (int_of 10 (rstrip_by (N.eqb 59) rest))
        end
      else
        match html5 s with
        | Some v => v
        | None =>
            match longest_prefix s (length s - 1) with
            | Some v => v
            | None => 38 :: s
            end
        end
  end.

Definition unescape (s : list N) : list N :=
  if mem 38 s then sub_go re_charref replace_charref O O s else s.

End Named.

(** The entries of [html.entities.html5] for the references of XML and the
    no-break space, with and without the final semicolon as the table has
    them. *)
Definition html5_basic (name : list N) : option (list N) :=
  if str_eqb name (py "amp;") || str_eqb name (py "amp") then Some [38]
  else if str_eqb name (py "lt;") || str_eqb name (py "lt") then Some [60]
  else if str_eqb name (py "gt;") || str_eqb name (py "gt") then Some [62]
  else if str_eqb name (py "quot;") || str_eqb name (py "quot") then Some [34]
  else if str_eqb name (py "apos;") then Some [39]
  else if str_eqb name (py "nbsp;") || str_eqb name (py "nbsp") then Some [160]
  else None.

End Html.

(** ** HTML-to-markdown converter ([canvas_browser.html_to_markdown]) *)

(** [<name[^>]*>(.*?)</name>] with DOTALL. *)
Definition re_element (name : string) : regex :=
  seqs [ lit (py "<" ++ py name); star (not_char 62); lit1 62;
         Grp 1 (lazy_star any_char); lit (py "</" ++ py name ++ py ">") ].

(** The link pattern: an anchor whose attributes hold [href=] followed by
    a double-quoted target (group 1), and its text (group 2). *)
Definition re_link : regex :=
  seqs [ lit (py "<a"); star (not_char 62); lit (py "href=" ++ [34]);
         Grp 1 (star (not_char 34)); lit1 34; star (not_char 62); lit1 62;
         Grp 2 (lazy_star any_char); lit (py "</a>") ].

(** [</?[ou]l[^>]*>] *)
Definition re_list_tag : regex :=
  seqs [ lit1 60; opt 47; Chr (fun c => mem c (py "ou")); lit1 108;
         star (not_char 62); lit1 62 ].

(** [<br\s*/?>] *)
Definition re_br : regex := seqs [ lit (py "<br"); star is_space; opt 47; lit1 62 ].

(** [</?div[^>]*>] *)
Definition re_div : regex :=
  seqs [ lit1 60; opt 47; lit (py "div"); star (not_char 62); lit1 62 ].

(** [\n{3,}] *)
Definition re_blank_lines : regex := Rep true 3 None (N.eqb 10).

Definition nl : list N := [10].

Definition html_to_markdown (html5 : list N -> option (list N))
    (html : list N) : list N :=
  if is_empty html then []
  else
    let text := html in
    (* Headers *)
    let text := re_sub (re_element "h1") [TLit (py "# "); TRef 1; TLit nl] text in
    let text := re_sub (re_element "h2") [TLit (py "## "); TRef 1; TLit nl] text in
    let text := re_sub (re_element "h3") [TLit (py "### "); TRef 1; TLit nl] text in
    let text := re_sub (re_element "h4") [TLit (py "#### "); TRef 1; TLit nl] text in
    (* Bold and italic *)
    let text := re_sub (re_element "strong") [TLit (py "**"); TRef 1; TLit (py "**")] text in
    let text := re_sub (re_element "b") [TLit (py "**"); TRef 1; TLit (py "**")] text in
    let text := re_sub (re_element "em") [TLit (py "*"); TRef 1; TLit (py "*")] text in
    let text := re_sub (re_element "i") [TLit (py "*"); TRef 1; TLit (py "*")] text in
    (* Links *)
    let text := re_sub re_link [TLit (py "["); TRef 2; TLit (py "]("); TRef 1; TLit (py ")")] text in
    (* Lists *)
    let text := re_sub (re_element "li") [TLit (py "- "); TRef 1; TLit nl] text in
    let text := re_sub re_list_tag [TLit nl] text in
    (* Paragraphs and breaks *)
    let text := re_sub (re_element "p") [TRef 1; TLit (nl ++ nl)] text in
    let text := re_sub re_br [TLit nl] text in
    let text := re_sub re_div [TLit nl] text in
    (* Remove remaining HTML tags *)
    let text := re_sub re_tag [] text in
    (* Decode HTML entities *)
    let text := Html.unescape html5 text in
    (* Clean up whitespace *)
    let text := re_sub re_blank_lines [TLit (nl ++ nl)] text in
    strip text.

(** ** Notions used to state the properties of the converter *)

(** Length of the run of newlines at the head of a string. *)
Fixpoint lead (s : list N) : nat :=
  match s with
  | [] => O
  | x :: t => if 10 =? x then S (lead t) else O
  end.

(** No three newlines in a row. *)
Fixpoint runs_ok (s : list N) : Prop :=
  match s with
  | [] => True
  | _ :: t => (lead s < 3)%nat /\ runs_ok t
  end.

(** Every run of newlines cut down to two at most; [n] newlines of the
    current run are already out. *)
Fixpoint squeeze (n : nat) (s : list N) : list N :=
  match s with
  | [] => []
  | x :: t =>
      if 10 =? x
      then if Nat.ltb n 2 then x :: squeeze (S n) t else squeeze n t
      else x :: squeeze O t
  end.

(** No tag in the sense of the converter: the pattern that removes the
    remaining tags matches at no place of the string. *)
Definition tag_free (x : list N) : Prop :=
  forall pre suf, x = pre ++ suf -> re_match re_tag suf = false.

(** The same, read off the characters: a less-than sign is the last
    character, or stands before a greater-than sign, or has none after it. *)
Fixpoint no_tag (s : list N) : Prop :=
  match s with
  | [] => True
  | x :: t =>
      (x = 60 -> t = [] \/ hd_error t = Some 62 \/ ~ In 62 t) /\ no_tag t
  end.

(** A pattern that matches only where a tag starts. *)
Definition tag_like (r : regex) : Prop :=
  forall (k : cont (nat * caps)) pos s c,
    mt r k pos s c <> None ->
    exists t, s = 60 :: t /\ hd_error t <> Some 62 /\ In 62 t.

(** The rests of a string, the whole string first. *)
Fixpoint tails (s : list N) : list (list N) :=
  s :: match s with
       | [] => []
       | _ :: t => tails t
       end.

Definition tag_freeb (x : list N) : bool :=
  forallb (fun suf => negb (re_match re_tag suf)) (tails x).

(** ** Exceptions *)

Inductive exn : Type :=
| AttributeError
| TypeError
| ValueError
| KeyError
| OSError
| NotADirectoryError
| UnicodeEncodeError.

Inductive result (A : Type) : Type :=
| Ok (a : A)
| Raise (e : exn).

Arguments Ok {A} a.
Arguments Raise {A} e.

Definition bind {A B} (r : result A) (f : A -> result B) : result B :=
  match r with
  | Ok a => f a
  | Raise e => Raise e
  end.

Notation "'do' x '<-' r ';' k" := (bind r (fun x => k))
  (at level 10, x name, r at level 100, k at level 200).

(** ** JSON documents, as [json.load] returns them *)

Module Json.

#[local] Set Warnings "-register-all".

(** A number of a document: an [int], or a [float] by its value. *)
Inductive number : Type :=
| NInt (z : Z)
| NFloat (q : Q)
| NNaN
| NInf (negative : bool).

Inductive json : Type :=
| JNull
| JBool (b : bool)
| JNum (n : number)
| JStr (s : list N)
| JList (l : list json)
| JDict (kvs : list (list N * json)).

(** The value under a key of a [dict] (keys are unique). *)
Fixpoint dict_get (k : list N) (kvs : list (list N * json)) : option json :=
  match kvs with
  | [] => None
  | (k', v) :: rest => if str_eqb k k' then Some v else dict_get k rest
  end.

(** [d.get(k, default)] *)
Definition get_or (k : list N) (default : json) (kvs : list (list N * json)) : json :=
  match dict_get k kvs with
  | Some v => v
  | None => default
  end.

(** [d.get(k)], [None] being [JNull]. *)
Definition get (k : list N) (kvs : list (list N * json)) : json := get_or k JNull kvs.

Definition number_is_zero (n : number) : bool :=
  match n with
  | NInt z => Z.eqb z 0
  | NFloat q => Qeq_bool q 0
  | NNaN => false
  | NInf _ => false
  end.

(** Truth value of an object. *)
Definition truthy (j : json) : bool :=
  match j with
  | JNull => false
  | JBool b => b
  | JNum n => negb (number_is_zero n)
  | JStr s => negb (is_empty s)
  | JList l => match l with [] => false | _ => true end
  | JDict kvs => match kvs with [] => false | _ => true end
  end.

Definition is_none (j : json) : bool :=
  match j with
  | JNull => true
  | _ => false
  end.

(** [x == s] for a string [s]. *)
Definition eq_str (j : json) (s : list N) : bool :=
  match j with
  | JStr s' => str_eqb s' s
  | _ => false
  end.

(** [x < 30]; comparing a string, a list or a dict with a number raises. *)
Definition number_lt (n : number) (bound : Z) : bool :=
  match n with
  | NInt z => Z.ltb z bound
  | NFloat q => negb (Qle_bool (inject_Z bound) q)
  | NNaN => false
  | NInf negative => negative
  end.

Definition lt_int (j : json) (bound : Z) : result bool :=
  match j with
  | JBool b => Ok (Z.ltb (if b then 1 else 0) bound)
  | JNum n => Ok (number_lt n bound)
  | _ => Raise TypeError
  end.

End Json.
Export Json.

(** ** MD5 and [get_text_hash] *)

Module MD5.

Local Open Scope Z_scope.

Definition mask32 (x : Z) : Z := Z.land x 4294967295.
Definition add32 (x y : Z) : Z := mask32 (x + y).
Definition not32 (x : Z) : Z := Z.lxor x 4294967295.
Definition rotl32 (x c : Z) : Z :=
  mask32 (Z.lor (Z.shiftl x c) (Z.shiftr x (32 - c))).

Definition shifts : list Z :=
  [ 7; 12; 17; 22; 7; 12; 17; 22; 7; 12; 17; 22; 7; 12; 17; 22;
    5; 9; 14; 20; 5; 9; 14; 20; 5; 9; 14; 20; 5; 9; 14; 20;
    4; 11; 16; 23; 4; 11; 16; 23; 4; 11; 16; 23; 4; 11; 16; 23;
    6; 10; 15; 21; 6; 10; 15; 21; 6; 10; 15; 21; 6; 10; 15; 21 ].

Definition sines : list Z :=
  [ 0xd76aa478; 0xe8c7b756; 0x242070db; 0xc1bdceee; 0xf57c0faf; 0x4787c62a;
    0xa8304613; 0xfd469501; 0x698098d8; 0x8b44f7af; 0xffff5bb1; 0x895cd7be;
    0x6b901122; 0xfd987193; 0xa679438e; 0x49b40821; 0xf61e2562; 0xc040b340;
    0x265e5a51; 0xe9b6c7aa; 0xd62f105d; 0x02441453; 0xd8a1e681; 0xe7d3fbc8;
    0x21e1cde6; 0xc33707d6; 0xf4d50d87; 0x455a14ed; 0xa9e3e905; 0xfcefa3f8;
    0x676f02d9; 0x8d2a4c8a; 0xfffa3942; 0x8771f681; 0x6d9d6122; 0xfde5380c;
    0xa4beea44; 0x4bdecfa9; 0xf6bb4b60; 0xbebfbc70; 0x289b7ec6; 0xeaa127fa;
    0xd4ef3085; 0x04881d05; 0xd9d4d039; 0xe6db99e5; 0x1fa27cf8; 0xc4ac5665;
    0xf4292244; 0x432aff97; 0xab9423a7; 0xfc93a039; 0x655b59c3; 0x8f0ccc92;
    0xffeff47d; 0x85845dd1; 0x6fa87e4f; 0xfe2ce6e0; 0xa3014314; 0x4e0811a1;
    0xf7537e82; 0xbd3af235; 0x2ad7d2bb; 0xeb86d391 ].

(** The [n] low bytes of [x], least significant first. *)
Fixpoint le_bytes (n : nat) (x : Z) : list Z :=
  match n with
  | O => []
  | S n' => Z.land x 255 :: le_bytes n' (Z.shiftr x 8)
  end.

Fixpoint le_word (bytes : list Z) : Z :=
  match bytes with
  | [] => 0
  | b :: rest => Z.lor b (Z.shiftl (le_word rest) 8)
  end.

Definition pad (msg : list Z) : list Z :=
  let len := Z.of_nat (length msg) in
  msg ++ [128] ++ repeat 0 (Z.to_nat ((55 - len) mod 64))
      ++ le_bytes 8 (len * 8).

(** Pieces of [n] elements; [fuel] bounds the number of pieces. *)
Fixpoint chunks {A} (fuel n : nat) (l : list A) : list (list A) :=
  match fuel with
  | O => []
  | S fuel' =>
      match l with
      | [] => []
      | _ => take n l :: chunks fuel' n (drop n l)
      end
  end.

Definition state : Type := (Z * Z * Z * Z)%type.

Definition step (M : list Z) (st : state) (i : nat) : state :=
  let '(a, b, c, d) := st in
  let iz := Z.of_nat i in
  let '(f, g) :=
    if iz <? 16 then (Z.lor (Z.land b c) (Z.land (not32 b) d), iz)
    else if iz <? 32 then (Z.lor (Z.land d b) (Z.land (not32 d) c), (5 * iz + 1) mod 16)
    else if iz <? 48 then (Z.lxor b (Z.lxor c d), (3 * iz + 5) mod 16)
    else (Z.lxor c (Z.lor b (not32 d)), (7 * iz) mod 16) in
  let f := add32 (add32 (add32 f a) (nth i sines 0)) (nth (Z.to_nat g) M 0) in
  (d, add32 b (rotl32 f (nth i shifts 0)), b, c).

Definition block (st : state) (chunk : list Z) : state :=
  let M := map le_word (chunks 16 4 chunk) in
  let '(a0, b0, c0, d0) := st in
  let '(a, b, c, d) := fold_left (step M) (seq 0 64) st in
  (add32 a0 a, add32 b0 b, add32 c0 c, add32 d0 d).

Definition init : state := (0x67452301, 0xefcdab89, 0x98badcfe, 0x10325476).

Definition digest (msg : list Z) : list Z :=
  let padded := pad msg in
  let '(a, b, c, d) := fold_left block (chunks (length padded) 64 padded) init in
  le_bytes 4 a ++ le_bytes 4 b ++ le_bytes 4 c ++ le_bytes 4 d.

Definition hex_digit (x : Z) : N :=
  if x <? 10 then Z.to_N (48 + x) else Z.to_N (87 + x).

Definition hexdigest (msg : list Z) : list N :=
  flat_map (fun b => [hex_digit (Z.shiftr b 4); hex_digit (Z.land b 15)])
           (digest msg).

End MD5.

(** [str.encode()]: UTF-8; a surrogate cannot be encoded. *)
Definition utf8_char (c : N) : option (list Z) :=
  let z := Z.of_N c in
  if (c <? 128) then Some [z]
  else if (c <? 2048) then
    Some [Z.lor 192 (Z.shiftr z 6); Z.lor 128 (Z.land z 63)]
  else if in_range 55296 57343 c then None
  else if (c <? 65536) then
    Some [Z.lor 224 (Z.shiftr z 12); Z.lor 128 (Z.land (Z.shiftr z 6) 63);
          Z.lor 128 (Z.land z 63)]
  else if (c <? 1114112) then
    Some [Z.lor 240 (Z.shiftr z 18); Z.lor 128 (Z.land (Z.shiftr z 12) 63);
          Z.lor 128 (Z.land (Z.shiftr z 6) 63); Z.lor 128 (Z.land z 63)]
  else None.

Fixpoint encode (s : list N) : option (list Z) :=
  match s with
  | [] => Some []
  | c :: rest =>
      match utf8_char c, encode rest with
      | Some b, Some bs => Some (b ++ bs)
      | _, _ => None
      end
  end.

(** [ai_detector.get_text_hash] *)
Definition get_text_hash (text : list N) : result (list N) :=
  match encode text with
  | Some bytes => Ok (MD5.hexdigest bytes)
  | None => Raise UnicodeEncodeError
  end.

(** ** The submission directory and the detection cache ([ai_detector]) *)

(** What a name of the submission directory holds: a text file, or something
    that cannot be opened and read as text (a directory, a file without read
    permission, bytes that are no text). *)
Inductive entry : Type :=
| File (text : list N)
| Unreadable.

(** The path of the submission directory: absent, taken by a file, or a
    directory with its entries by name. *)
Inductive dir_state : Type :=
| Missing
| NotDir
| Dir (files : gmap (list N) entry).

(** The entry at [submission_dir / name], if it exists. *)
Definition lookup_path (d : dir_state) (name : list N) : option entry :=
  match d with
  | Dir files => files !! name
  | Missing | NotDir => None
  end.

Definition exists_in (files : gmap (list N) entry) (name : list N) : bool :=
  match files !! name with
  | Some _ => true
  | None => false
  end.

(** [list(submission_dir.iterdir())], by name. *)
Definition listing (files : gmap (list N) entry) : list (list N) :=
  (map_to_list files).*1.

Section Cache.

(** [json.load] on the text of a file: the document, or [None] when the text
    is no JSON. *)
Variable json_load : list N -> option json.

(** Opening a file and loading it, any exception caught: [JNull] stands for
    Python's [None]. *)
Definition read_json (e : entry) : json :=
  match e with
  | File text =>
      match json_load text with
      | Some doc => doc
      | None => JNull
      end
  | Unreadable => JNull
  end.

Definition load_cached_results (d : dir_state) : json :=
  match lookup_path d (py "ai_check.json") with
  | Some e => read_json e
  | None => JNull
  end.

(** [cached.get("file_hashes", {}).get(filename)] *)
Definition stored_hash (cached : json) (filename : list N) : result json :=
  match cached with
  | JDict kvs =>
      match get_or (py "file_hashes") (JDict []) kvs with
      | JDict hashes => Ok (get filename hashes)
      | _ => Raise AttributeError
      end
  | _ => Raise AttributeError
  end.

(** The loop over [["draft.md", "final.md"]]. *)
Fixpoint check_files (cached : json) (d : dir_state) (names : list (list N))
  : result bool :=
  match names with
  | [] => Ok false
  | filename :: rest =>
      match lookup_path d filename with
      | None => check_files cached d rest
      | Some Unreadable => Raise OSError
      | Some (File text) =>
          do current_hash <- get_text_hash text;
          do cached_hash <- stored_hash cached filename;
          if negb (eq_str cached_hash current_hash) then Ok true
          else check_files cached d rest
      end
  end.

Definition needs_recheck (d : dir_state) : result bool :=
  let cached := load_cached_results d in
  if negb (truthy cached) then Ok true
  else check_files cached d [py "draft.md"; py "final.md"].

(** ** Submission state machine ([main.get_submission_status]) *)

Inductive status : Type :=
| not_started
| work_started
| draft_in_progress
| final_ready
| ai_high
| ready_to_submit.

(** The loop over the services of a cache: the first score that is not
    [None].  A service that is no dict raises, and the exception is caught
    around the loop: no score. *)
Fixpoint first_score (services : list (list N * json)) : option json :=
  match services with
  | [] => None
  | (_, JDict data) :: rest =>
      if is_none (get (py "score") data) then first_score rest
      else Some (get (py "score") data)
  | (_, _) :: _ => None
  end.

Definition cached_score (cached : json) : option json :=
  match cached with
  | JDict kvs =>
      match get_or (py "services") (JDict []) kvs with
      | JDict services => first_score services
      | _ => None
      end
  | _ => None
  end.

Definition read_score (e : entry) : option json := cached_score (read_json e).

(** [f"ai_check_{humanized_name.replace('.md', '')}.json"] *)
Definition humanized_cache_name (humanized_name : list N) : list N :=
  py "ai_check_" ++ replace (py ".md") [] humanized_name ++ py ".json".

(** The loop over the names of the humanized variants, left at the first one
    that is in the directory.  The [json] module is imported inside the
    function, where the main cache is read: [json_bound] tells whether that
    import has run, and without it the load raises and no score is read. *)
Fixpoint humanized_score_of (json_bound : bool) (files : gmap (list N) entry)
    (names : list (list N)) : option json :=
  match names with
  | [] => None
  | humanized_name :: rest =>
      if exists_in files humanized_name then
        match files !! humanized_cache_name humanized_name with
        | Some e => if json_bound then read_score e else None
        | None => None
        end
      else humanized_score_of json_bound files rest
  end.

Record scores : Type := { ai_score : option json; humanized_score : option json }.

Definition by_score (score : json) : result status :=
  do low <- lt_int score 30;
  Ok (if low then ready_to_submit else ai_high).

Definition get_submission_status (d : dir_state)
  : result (status * option (list (list N)) * option scores) :=
  match d with
  | Missing => Ok (not_started, None, None)
  | NotDir => Raise NotADirectoryError
  | Dir files =>
      let names := listing files in
      if negb (exists_in files (py "final.md")) then
        if exists_in files (py "draft.md")
        then Ok (draft_in_progress, Some names, None)
        else if negb (bool_decide (names = []))
        then Ok (work_started, Some names, None)
        else Ok (not_started, None, None)
      else
        let ai :=
          match files !! py "ai_check.json" with
          | Some e => read_score e
          | None => None
          end in
        let humanized :=
          humanized_score_of (exists_in files (py "ai_check.json")) files
            [py "final_humanized.md"; py "draft_humanized.md"] in
        let sc := {| ai_score := ai; humanized_score := humanized |} in
        match ai with
        | None => Ok (final_ready, Some names, Some sc)
        | Some a =>
            match humanized with
            | Some h => do st <- by_score h; Ok (st, Some names, Some sc)
            | None => do st <- by_score a; Ok (st, Some names, Some sc)
            end
        end
  end.

End Cache.

(** A small cache document for examples, with the keys the functions here
    read and one service.  The caches the program writes carry more:
    [text_hash], [text_length] and the [details] of the service in
    [ai_check.json], and no [file_hashes] in the cache of a humanized file
    (see [detection_cache] and [humanized_cache] below). *)
Definition cache_doc (checked_at : list N) (hashes : list (list N * json))
    (service : list N) (score : json) (state : list N) : json :=
  JDict [ (py "checked_at", JStr checked_at);
          (py "file_hashes", JDict hashes);
          (py "services",
           JDict [(service, JDict [(py "score", score);
                                   (py "status", JStr state)])]) ].

(** ** Assignment metadata ([canvas_browser.save_assignment_data]) *)

Record metadata : Type := {
  md_id : json;
  md_name : json;
  md_course : list N;
  md_due_at : json;
  md_due_at_formatted : option (list N);
  md_points_possible : json;
  md_submission_types : json;
  md_allowed_extensions : json;
  md_url : json;
  md_has_submitted : bool;
  md_is_graded : bool;
  md_workflow_state : json;
  md_submitted_at : json;
  md_score : json;
  md_grade : json;
  md_fetched_at : list N
}.

Definition as_dict (j : json) : result (list (list N * json)) :=
  match j with
  | JDict kvs => Ok kvs
  | _ => Raise AttributeError
  end.

Section Assignment.

(** [datetime.fromisoformat] followed by [strftime]: [None] when the text is
    no ISO date. *)
Variable format_iso : list N -> option (list N).
(** [datetime.now().isoformat()] *)
Variable now : list N.

(** The metadata written to [assignment.json]; the directory and the file
    are taken to be writable. *)
Definition save_assignment_data (assignment : json) (course_name : list N)
  : result metadata :=
  do a <- as_dict assignment;
  do assignment_name <-
    match get_or (py "name") (JStr (py "unknown")) a with
    | JStr name => Ok (sanitize_filename name)
    | _ => Raise TypeError
    end;
  (* Parse due date *)
  let due_at := get (py "due_at") a in
  let due_date :=
    if truthy due_at then
      match due_at with
      | JStr s => format_iso (replace (py "Z") (py "+00:00") s)
      | _ => None
      end
    else None in
  (* Extract submission info *)
  let submission :=
    let s := get_or (py "submission") (JDict []) a in
    if truthy s then s else JDict [] in
  do sub <- as_dict submission;
  let workflow_state := get_or (py "workflow_state") (JStr (py "unsubmitted")) sub in
  (* Determine submission status *)
  let has_submitted :=
    eq_str workflow_state (py "submitted") || eq_str workflow_state (py "graded")
    || eq_str workflow_state (py "pending_review") in
  let is_graded := eq_str workflow_state (py "graded") in
  Ok {| md_id := get (py "id") a;
        md_name := get (py "name") a;
        md_course := course_name;
        md_due_at := due_at;
        md_due_at_formatted := due_date;
        md_points_possible := get (py "points_possible") a;
        md_submission_types := get_or (py "submission_types") (JList []) a;
        md_allowed_extensions := get_or (py "allowed_extensions") (JList []) a;
        md_url := get (py "html_url") a;
        md_has_submitted := has_submitted;
        md_is_graded := is_graded;
        md_workflow_state := workflow_state;
        md_submitted_at := get (py "submitted_at") sub;
        md_score := get (py "score") sub;
        md_grade := get (py "grade") sub;
        md_fetched_at := now |}.

End Assignment.

(** ** Notions used to state the properties of the cache and the state machine *)

Definition status_of {B C} (r : result (status * B * C)) : result status :=
  do x <- r; Ok (fst (fst x)).

(** The score the state machine reads for [final.md]. *)
Definition main_score (json_load : list N -> option json)
    (files : gmap (list N) entry) : option json :=
  match files !! py "ai_check.json" with
  | Some e => read_score json_load e
  | None => None
  end.

(** The file [name] is there, and the hash the cache records under its name
    is not the hash of its text. *)
Definition file_changed (json_load : list N -> option json) (d : dir_state)
    (name : list N) : Prop :=
  exists text h stored,
    lookup_path d name = Some (File text) /\
    get_text_hash text = Ok h /\
    stored_hash (load_cached_results json_load d) name = Ok stored /\
    stored <> JStr h.

(** The source file the specification calls active: [final.md] if present,
    else [draft.md]. *)
Definition active_source (d : dir_state) : list N :=
  match lookup_path d (py "final.md") with
  | Some _ => py "final.md"
  | None => py "draft.md"
  end.

(** The staleness rule in the words of the specification: no cache file, or
    the hash recorded for the active source file differs from the hash of
    its content. *)
Definition stale_by_active_file (json_load : list N -> option json)
    (d : dir_state) : Prop :=
  lookup_path d (py "ai_check.json") = None \/
  file_changed json_load d (active_source d).

(** A loader for examples: the documents of a table, by their text. *)
Fixpoint load_from (table : list (list N * json)) (text : list N) : option json :=
  match table with
  | [] => None
  | (t, doc) :: rest => if str_eqb text t then Some doc else load_from rest text
  end.

(** Example cache files: the text and the document it holds. *)
Definition quoted (s : string) : list N := [34] ++ py s ++ [34].

Definition hashes_text (hashes : list (string * string)) : list N :=
  join (py ", ")
    (map (fun fh => quoted (fst fh) ++ py ": " ++ quoted (snd fh)) hashes).

Definition sample_text (hashes : list (string * string)) (score : string) : list N :=
  py "{" ++ quoted "checked_at" ++ py ": " ++ quoted "2025-01-01T00:00:00"
     ++ py ", " ++ quoted "file_hashes" ++ py ": {" ++ hashes_text hashes
     ++ py "}, " ++ quoted "services" ++ py ": {" ++ quoted "zerogpt"
     ++ py ": {" ++ quoted "score" ++ py ": " ++ py score ++ py ", "
     ++ quoted "status" ++ py ": " ++ quoted "success" ++ py "}}}".

Definition sample_doc (hashes : list (string * string)) (score : Z) : json :=
  cache_doc (py "2025-01-01T00:00:00")
    (map (fun fh => (py (fst fh), JStr (py (snd fh)))) hashes)
    (py "zerogpt") (JNum (NInt score)) (py "success").

(** The MD5 digests of the texts [final text], [draft one] and [old text]. *)
Definition md5_final_text : string := "bc084d666a3bea32c63dfe7f2ab1df66".
Definition md5_draft_one : string := "fedfffb4f154e91a1b00720d80b11387".
Definition md5_old_text : string := "bc077a5fc2053d51e43efc7e11a7b0e3".

Definition hashes_final : list (string * string) := [("final.md", md5_final_text)].
Definition hashes_both : list (string * string) :=
  [("draft.md", md5_draft_one); ("final.md", md5_final_text)].
Definition hashes_old : list (string * string) := [("final.md", md5_old_text)].
Definition hashes_humanized : list (string * string) :=
  [("final_humanized.md", md5_final_text)].

Definition sample_table : list (list N * json) :=
  [ (sample_text hashes_final "45", sample_doc hashes_final 45);
    (sample_text hashes_final "10", sample_doc hashes_final 10);
    (sample_text hashes_humanized "15", sample_doc hashes_humanized 15);
    (sample_text hashes_both "45", sample_doc hashes_both 45);
    (sample_text hashes_old "45", sample_doc hashes_old 45) ].

Definition sample_load : list N -> option json := load_from sample_table.

(** Example directories. *)
Definition dir_checked (score : string) : gmap (list N) entry :=
  {[ py "final.md" := File (py "final text");
     py "ai_check.json" := File (sample_text hashes_final score) ]}.

(** [final.md] as it was checked, [draft.md] edited since. *)
Definition dir_draft_edited : dir_state :=
  Dir {[ py "final.md" := File (py "final text");
         py "draft.md" := File (py "draft two");
         py "ai_check.json" := File (sample_text hashes_both "45") ]}.

(** [final.md] edited since the check. *)
Definition dir_final_edited : dir_state :=
  Dir {[ py "final.md" := File (py "new text");
         py "ai_check.json" := File (sample_text hashes_old "45") ]}.

(** The name before the cut at 100 characters. *)
Definition sanitize_uncut (name : list N) : list N :=
  let name := re_sub (Chr is_forbidden) [] name in
  let name := re_sub (plus is_space) [TLit (py "_")] name in
  strip_chars (py "._") name.

(** An assignment title of 116 characters. *)
Definition long_title : list N :=
  py "Week 12 Group Project Deliverable 3: Written Report and Presentation Slides for the Capstone Designs Lab (Section B)".

(** ** The world outside: libraries, network and disk *)

(** An exception caught in the source, with the text [str(e)] gives. *)
Inductive attempt (A : Type) : Type :=
| Done (a : A)
| Failed (e : exn) (msg : list N).

Arguments Done {A} a.
Arguments Failed {A} e msg.

Definition and_then {A B} (r : attempt A) (f : A -> attempt B) : attempt B :=
  match r with
  | Done a => f a
  | Failed e msg => Failed e msg
  end.

Notation "'try' x '<-' r ';' k" := (and_then r (fun x => k))
  (at level 10, x name, r at level 100, k at level 200).

(** An HTTP response, as far as the source looks at it; [reason] is the text
    of the exception [raise_for_status] raises when [ok] is false. *)
Record response : Type := {
  ok : bool;
  status_code : list N;
  reason : list N;
  text : list N;
  json_body : option json;
  body : list N
}.

(** What a request gives: a response, or an exception of the HTTP library. *)
Definition http_outcome : Type := attempt response.

(** A PDF, given as bytes or as a path. *)
Inductive pdf_source : Type :=
| PdfBytes (bytes : list N)
| PdfPath (path : list N).

(** What [page.extract_text()] does on one page. *)
Inductive page_outcome : Type :=
| Extracted (text : list N)
| PageFails (msg : list N).

(** What the PDF library does on a document: it raises, or it gives the
    pages in order. *)
Inductive pdf_outcome : Type :=
| ReaderFails (msg : list N)
| Pages (pages : list page_outcome).

(** What unpacking an archive gives: the two lists the loop over its entries
    builds, or an exception. *)
Inductive zip_outcome : Type :=
| BadZipFile
| ZipFails (msg : list N)
| Unpacked (files_list : list (list N)) (extracted_content : list (list N)).

(** The capability passed as [page]. *)
Inductive page_cap : Type :=
| NoPage
| Playwright
| Headless.

Record world : Type := {
  (** [str.lower] *)
  str_lower : list N -> list N;
  (** The library's checks of a network location beyond the balance of its
      brackets (bracketed host syntax, NFKC normalisation). *)
  netloc_ok : list N -> bool;
  (** [parse_qs(query).get(key, [None])[0]] *)
  query_first : list N -> list N -> option (list N);
  (** The table of named character references. *)
  html5 : list N -> option (list N);
  (** [str(x)] of a value that is no string. *)
  str_other : json -> list N;
  (** [str(e)] of an exception the interpreter raises. *)
  exn_text : exn -> list N;
  (** [requests.get(url, params=...)] *)
  requests_get : list N -> list (list N * list N) -> http_outcome;
  (** [page.request.get(url)] of a browser page. *)
  page_get : list N -> http_outcome;
  (** [page.get(path)] and [page.get_raw(url)] of the headless client. *)
  headless_get : list N -> attempt json;
  headless_get_raw : list N -> http_outcome;
  (** [get_canvas_url()] *)
  canvas_url : list N;
  (** [YouTubeTranscriptApi.get_transcript]: the texts of the segments. *)
  youtube_segments : list N -> attempt (list (list N));
  (** The PDF library. *)
  pdf_reader : pdf_source -> pdf_outcome;
  (** The archive library and the files it unpacks. *)
  unzip : list N -> list N -> zip_outcome;
  (** [path.write_bytes(bytes)]: the message of the exception, if any. *)
  write_bytes : list N -> list N -> option (list N);
  (** [Path(dir).mkdir(parents=True, exist_ok=True)]: the exception and its
      message, if any. *)
  make_dir : list N -> option (exn * list N)
}.

(** [f"{x}"] *)
Definition fmt (w : world) (x : json) : list N :=
  match x with
  | JStr s => s
  | _ => str_other w x
  end.

Definition py_fail {A} (w : world) (e : exn) : attempt A := Failed e (exn_text w e).

(** [x.attr] on a value that must be a dict or a string. *)
Definition dict_of {A} (w : world) (x : json) (k : list (list N * json) -> attempt A)
  : attempt A :=
  match x with
  | JDict kvs => k kvs
  | _ => py_fail w AttributeError
  end.

Definition str_of {A} (w : world) (x : json) (k : list N -> attempt A) : attempt A :=
  match x with
  | JStr s => k s
  | _ => py_fail w AttributeError
  end.

(** [a or b] *)
Definition py_or (a b : json) : json := if truthy a then a else b.

(** The segments of a text that count in a path: the empty ones and the
    single dots are dropped. *)
Definition path_segments (name : list N) : list (list N) :=
  List.filter (fun x => negb (is_empty x) && negb (str_eqb x (py ".")))
    (split 47 name).

(** [str(path / name)] of [pathlib] on a POSIX system, for [dir] the text of
    a path.  An absolute [name] replaces the path (two leading slashes are
    kept, one, three or more give one).  Of a relative [name] the empty
    segments and the single dots are dropped, and the other segments, the
    double dot among them, are added as they are; when none is left the path
    is [dir] itself. *)
Definition path_join (dir name : list N) : list N :=
  let segments := path_segments name in
  if startswith (py "/") name then
    (if startswith (py "//") name && negb (startswith (py "///") name)
     then py "//" else py "/")
    ++ join (py "/") segments
  else
    match segments with
    | [] => dir
    | _ :: _ =>
        (if str_eqb dir (py ".") then []
         else if endswith (py "/") dir then dir
         else dir ++ py "/")
        ++ join (py "/") segments
    end.

(** Decimal numeral of a length. *)
Fixpoint digits (fuel : nat) (n : N) (acc : list N) : list N :=
  match fuel with
  | O => acc
  | S fuel' =>
      let acc' := (48 + n mod 10) :: acc in
      if n <? 10 then acc' else digits fuel' (n / 10) acc'
  end.

Definition decimal (n : nat) : list N := digits (S n) (N.of_nat n) [].

(** ** [urllib.parse.urlparse] of the Python library (version 3.11) *)

Module Url.

Record parsed : Type := {
  scheme : list N;
  netloc : list N;
  path : list N;
  params : list N;
  query : list N;
  fragment : list N
}.

Definition is_c0_or_space (c : N) : bool := c <=? 32.
Definition is_unsafe (c : N) : bool := (c =? 9) || (c =? 13) || (c =? 10).
Definition is_ascii_alpha (c : N) : bool := in_range 65 90 c || in_range 97 122 c.
Definition is_scheme_char (c : N) : bool :=
  is_ascii_alpha c || in_range 48 57 c || mem c (py "+-.").

(** The text before the first character of a class, and the text from it. *)
Fixpoint break (p : N -> bool) (s : list N) : list N * list N :=
  match s with
  | [] => ([], [])
  | c :: t =>
      if p c then ([], s)
      else let '(a, b) := break p t in (c :: a, b)
  end.

(** [s.split(c, 1)] when [c] is in [s]. *)
Definition split_first (c : N) (s : list N) : list N * list N :=
  let '(a, b) := break (N.eqb c) s in (a, drop 1 b).

Definition split_scheme (url : list N) : list N * list N :=
  let '(pre, rest) := break (N.eqb 58) url in
  match rest, pre with
  | _ :: after, c0 :: _ =>
      if is_ascii_alpha c0 && forallb is_scheme_char pre
      then (ascii_lower pre, after)
      else ([], url)
  | _, _ => ([], url)
  end.

Definition unbalanced (netloc : list N) : bool :=
  (mem 91 netloc && negb (mem 93 netloc)) || (mem 93 netloc && negb (mem 91 netloc)).

Definition urlsplit (w : world) (url : list N) : result parsed :=
  let url := dropwhile is_c0_or_space url in
  let url := List.filter (fun c => negb (is_unsafe c)) url in
  let '(scheme, url) := split_scheme url in
  do located <-
    (if startswith (py "//") url then
       let '(netloc, rest) := break (fun c => mem c (py "/?#")) (drop 2 url) in
       if unbalanced netloc then Raise ValueError   (* Invalid IPv6 URL *)
       else Ok (netloc, rest)
     else Ok ([], url));
  let '(netloc, url) := located in
  let '(url, fragment) := if mem 35 url then split_first 35 url else (url, []) in
  let '(url, query) := if mem 63 url then split_first 63 url else (url, []) in
  if negb (netloc_ok w netloc) then Raise ValueError
  else Ok {| scheme := scheme; netloc := netloc; path := url; params := [];
             query := query; fragment := fragment |}.

Definition uses_params : list (list N) :=
  map py [ ""; "ftp"; "hdl"; "prospero"; "http"; "imap"; "https"; "shttp";
           "rtsp"; "rtspu"; "sip"; "sips"; "mms"; "sftp"; "tel" ]%string.

(** Length of the text before the last occurrence of [c]. *)
Definition rfind (c : N) (s : list N) : nat :=
  length s - S (length (fst (break (N.eqb c) (rev s)))).

Definition splitparams (url : list N) : list N * list N :=
  let from := if mem 47 url then rfind 47 url else O in
  let '(pre, rest) := break (N.eqb 59) (drop from url) in
  match rest with
  | [] => (url, [])
  | _ :: after => (take from url ++ pre, after)
  end.

Definition urlparse (w : world) (url : list N) : result parsed :=
  do r <- urlsplit w url;
  if existsb (str_eqb (scheme r)) uses_params && mem 59 (path r) then
    let '(url', params') := splitparams (path r) in
    Ok {| scheme := scheme r; netloc := netloc r; path := url';
          params := params'; query := query r; fragment := fragment r |}
  else Ok r.

End Url.

(** ** Content-type classifier ([content_extractor.identify_content_type]) *)

Inductive content_type : Type :=
| youtube
| vimeo
| panopto
| pdf
| word
| powerpoint
| webpage.

Definition identify_content_type (w : world) (url : list N) : result content_type :=
  let url_lower := str_lower w url in
  do parsed <- Url.urlparse w url;
  (* Video platforms *)
  if contains (py "youtube.com") url_lower || contains (py "youtu.be") url_lower
  then Ok youtube
  else if contains (py "vimeo.com") url_lower then Ok vimeo
  else if contains (py "panopto") url_lower then Ok panopto
  (* Documents *)
  else if endswith (py ".pdf") url_lower then Ok pdf
  else if endswith (py ".doc") url_lower || endswith (py ".docx") url_lower
  then Ok word
  else if endswith (py ".ppt") url_lower || endswith (py ".pptx") url_lower
  then Ok powerpoint
  (* Default to webpage *)
  else Ok webpage.

(** ** PDF text extractor ([content_extractor.extract_pdf_text]) *)

Definition looks_like_html (bytes : list N) : bool :=
  let head := ascii_lower (take 1000 bytes) in
  contains (py "<html") head || contains (py "<!doctype") head.

Definition pdf_failure (msg : list N) : list N :=
  py "[Could not extract PDF text: " ++ msg ++ py "]".

(** The loop over the pages: an exception of a page leaves the loop and is
    caught by the handler around the whole function. *)
Fixpoint collect_pages (pages : list page_outcome) (text_parts : list (list N))
  : attempt (list (list N)) :=
  match pages with
  | [] => Done text_parts
  | Extracted text :: rest =>
      if is_empty text then collect_pages rest text_parts
      else collect_pages rest (text_parts ++ [text])
  | PageFails msg :: _ => Failed OSError msg
  end.

Definition read_pdf (w : world) (src : pdf_source) : list N :=
  match pdf_reader w src with
  | ReaderFails msg => pdf_failure msg
  | Pages pages =>
      match collect_pages pages [] with
      | Done text_parts => join (nl ++ nl) text_parts
      | Failed _ msg => pdf_failure msg
      end
  end.

Definition extract_pdf_text (w : world) (src : pdf_source) : list N :=
  match src with
  | PdfBytes bytes =>
      if negb (startswith (py "%PDF") bytes) then
        if looks_like_html bytes
        then py "[Could not extract PDF: received HTML instead of PDF - authentication may have failed]"
        else py "[Could not extract PDF: file does not appear to be a valid PDF]"
      else read_pdf w src
  | PdfPath _ => read_pdf w src
  end.

(** ** Video identifiers and transcripts ([content_extractor]) *)

(** [extract_youtube_id]: the identifier, or [None]. *)
Definition extract_youtube_id (w : world) (url : list N) : result (option (list N)) :=
  do parsed <- Url.urlparse w url;
  if contains (py "youtube.com") (Url.netloc parsed) then
    if str_eqb (Url.path parsed) (py "/watch")
    then Ok (query_first w (py "v") (Url.query parsed))
    else if startswith (py "/embed/") (Url.path parsed)
    then Ok (nth_error (split 47 (Url.path parsed)) 2)
    else Ok None
  else if contains (py "youtu.be") (Url.netloc parsed)
  then Ok (Some (drop 1 (Url.path parsed)))
  else Ok None.

(** [extract_panopto_id]: the identifier and the host, or nothing. *)
Definition extract_panopto_id (w : world) (url : list N)
  : result (option (list N * list N)) :=
  do parsed <- Url.urlparse w url;
  if contains (py "panopto") (str_lower w (Url.netloc parsed)) then
    match query_first w (py "id") (Url.query parsed) with
    | Some video_id =>
        if is_empty video_id then Ok None
        else Ok (Some (video_id, Url.netloc parsed))
    | None => Ok None
    end
  else Ok None.

(** [for x in value]: the elements of a list, the keys of a dict, the
    characters of a string. *)
Definition py_iter (w : world) (value : json) : attempt (list json) :=
  match value with
  | JList l => Done l
  | JDict kvs => Done (map (fun kv => JStr (fst kv)) kvs)
  | JStr s => Done (map (fun c => JStr [c]) s)
  | _ => py_fail w TypeError
  end.

(** The loop over the caption tracks: the transcript of the first track
    that has a link and is served, if any. *)
Fixpoint first_caption (w : world) (captions : list json)
  : attempt (option (list N)) :=
  match captions with
  | [] => Done None
  | caption :: rest =>
      dict_of w caption (fun c =>
        let caption_url := get (py "Url") c in
        if truthy caption_url then
          try cap_response <- requests_get w (fmt w caption_url) [];
          if ok cap_response
          then Done (Some (parse_caption_file (text cap_response)))
          else first_caption w rest
        else first_caption w rest)
  end.

(** The loop over the podcast streams, which only looks at them. *)
Fixpoint look_at_streams (w : world) (streams : list json) : attempt unit :=
  match streams with
  | [] => Done tt
  | stream :: rest => dict_of w stream (fun _ => look_at_streams w rest)
  end.

Definition captions_unavailable (w : world) (title : json) : list N :=
  py "[Panopto Video: " ++ fmt w title ++ py "]" ++ nl
     ++ py "[Captions not available or require authentication]".

(** The body of the inner [try] of [get_panopto_transcript], after the
    delivery information is decoded. *)
Definition panopto_delivery (w : world) (data : json) : attempt (list N) :=
  dict_of w data (fun d =>
    dict_of w (get_or (py "Delivery") (JDict []) d) (fun delivery =>
      let captions := get_or (py "Captions") (JList []) delivery in
      try found <-
        (if truthy captions
         then try tracks <- py_iter w captions; first_caption w tracks
         else Done None);
      match found with
      | Some transcript => Done transcript
      | None =>
          try streams <- py_iter w (get_or (py "PodcastStreams") (JList []) delivery);
          try _u <- look_at_streams w streams;
          let title := get_or (py "SessionName") (JStr (py "Panopto Video")) delivery in
          Done (captions_unavailable w title)
      end)).

Definition panopto_could_not : list N :=
  py "[Panopto video - could not extract transcript]".

Definition is_value_or_key_error (e : exn) : bool :=
  match e with
  | ValueError | KeyError => true
  | _ => false
  end.

Definition get_panopto_transcript (w : world) (video_id panopto_host : list N)
  : list N :=
  let captions_url :=
    py "https://" ++ panopto_host ++ py "/Panopto/Pages/Viewer/DeliveryInfo.aspx" in
  let params := [(py "deliveryId", video_id); (py "responseType", py "json")] in
  match requests_get w captions_url params with
  | Failed _ msg => py "[Panopto video - error: " ++ msg ++ py "]"
  | Done r =>
      if ok r then
        match json_body r with
        | None => panopto_could_not
        | Some data =>
            match panopto_delivery w data with
            | Done transcript => transcript
            | Failed e msg =>
                if is_value_or_key_error e then panopto_could_not
                else py "[Panopto video - error: " ++ msg ++ py "]"
            end
        end
      else panopto_could_not
  end.

Definition get_youtube_transcript (w : world) (video_id : list N) : list N :=
  match youtube_segments w video_id with
  | Done full_text => join (py " ") full_text
  | Failed _ msg => py "[Could not extract transcript: " ++ msg ++ py "]"
  end.

(** ** Archive extractor ([content_extractor.extract_zip_contents]) *)

Definition zip_summary (files_list extracted_content : list (list N))
    (extract_dir : list N) : list N :=
  py "**Extracted " ++ decimal (length files_list) ++ py " files:**" ++ nl
    ++ concat (map (fun f => py "- " ++ f ++ nl) (take 20 files_list))
    ++ (if Nat.ltb 20 (length files_list)
        then py "- ... and " ++ decimal (length files_list - 20) ++ py " more files" ++ nl
        else [])
    ++ nl ++ py "**Location:** " ++ extract_dir ++ nl
    ++ (match extracted_content with
        | [] => []
        | _ => nl ++ py "---" ++ nl ++ nl
                 ++ join (nl ++ nl ++ py "---" ++ nl ++ nl) extracted_content
        end).

Definition extract_zip_contents (w : world) (zip_bytes extract_dir : list N)
  : list N :=
  if negb (startswith (py "PK") zip_bytes) then
    if looks_like_html zip_bytes
    then py "[Could not extract zip: received HTML instead of zip file - authentication may have failed]"
    else py "[Could not extract zip: file does not appear to be a valid zip file]"
  else
    match unzip w zip_bytes extract_dir with
    | BadZipFile => py "[Could not extract: Invalid zip file]"
    | ZipFails msg => py "[Could not extract zip: " ++ msg ++ py "]"
    | Unpacked files_list extracted_content =>
        zip_summary files_list extracted_content extract_dir
    end.

(** ** Webpage text ([content_extractor.extract_webpage_content]) *)

(** A letter of a pattern under IGNORECASE: its two cases, and the letters
    of other scripts that fold to it. *)
Definition fold_case (x : N) : N :=
  if in_range 65 90 x then x + 32
  else if (x =? 304) || (x =? 305) then 105
  else if x =? 383 then 115
  else if x =? 8490 then 107
  else x.

Definition ci1 (c : N) : regex := Chr (fun x => fold_case x =? c).

Fixpoint lit_ci (s : list N) : regex :=
  match s with
  | [] => Eps
  | [c] => ci1 c
  | c :: s' => Seq (ci1 c) (lit_ci s')
  end.

(** [<name[^>]*>.*?</name>] with DOTALL and IGNORECASE, the text in group 1. *)
Definition re_block (name : string) : regex :=
  seqs [ lit_ci (py "<" ++ py name); star (not_char 62); lit1 62;
         Grp 1 (lazy_star any_char); lit_ci (py "</" ++ py name ++ py ">") ].

(** [<h[1-6][^>]*>(.*?)</h[1-6]>] *)
Definition re_heading : regex :=
  seqs [ lit_ci (py "<h"); Chr (in_range 49 54); star (not_char 62); lit1 62;
         Grp 1 (lazy_star any_char); lit_ci (py "</h"); Chr (in_range 49 54);
         lit1 62 ].

(** [<br\s*/?>] with IGNORECASE. *)
Definition re_br_ci : regex :=
  seqs [ lit_ci (py "<br"); star is_space; opt 47; lit1 62 ].

(** [ {2,}] *)
Definition re_spaces : regex := Rep true 2 None (N.eqb 32).

Definition html_to_text (w : world) (html : list N) : list N :=
  (* Remove script and style tags *)
  let html := re_sub (re_block "script") [] html in
  let html := re_sub (re_block "style") [] html in
  (* Convert common elements *)
  let html := re_sub re_heading [TLit (nl ++ nl ++ py "## "); TRef 1; TLit (nl ++ nl)] html in
  let html := re_sub (re_block "p") [TRef 1; TLit (nl ++ nl)] html in
  let html := re_sub re_br_ci [TLit nl] html in
  let html := re_sub (re_block "li") [TLit [8226; 32]; TRef 1; TLit nl] html in
  (* Remove remaining tags *)
  let text := re_sub re_tag [] html in
  (* Decode HTML entities *)
  let text := Html.unescape (html5 w) text in
  (* Clean up whitespace *)
  let text := re_sub re_blank_lines [TLit (nl ++ nl)] text in
  let text := re_sub re_spaces [TLit (py " ")] text in
  strip text.

Definition extract_webpage_content (w : world) (url : list N) (page : page_cap)
  : list N :=
  let failure msg := py "[Could not extract webpage content: " ++ msg ++ py "]" in
  match page with
  | Playwright =>
      match page_get w url with
      | Done r =>
          if ok r then html_to_text w (text r)
          else py "[Could not fetch page: " ++ status_code r ++ py "]"
      | Failed _ msg => failure msg
      end
  | Headless => failure (exn_text w AttributeError)
  | NoPage =>
      match requests_get w url [] with
      | Done r =>
          if ok r then html_to_text w (text r)
          else failure (reason r)
      | Failed _ msg => failure msg
      end
  end.

(** ** Module-item normaliser ([content_extractor.process_module_item]) *)

Record content : Type := {
  c_title : json;
  c_type : list N;
  c_url : json;
  c_content : json;
  c_extracted : bool;
  c_video_id : option (list N);
  c_local_path : option (list N);
  c_extracted_to : option (list N)
}.

Definition set_content (c : content) (value : json) : content :=
  {| c_title := c_title c; c_type := c_type c; c_url := c_url c;
     c_content := value; c_extracted := c_extracted c;
     c_video_id := c_video_id c; c_local_path := c_local_path c;
     c_extracted_to := c_extracted_to c |}.

Definition set_extracted (c : content) (flag : bool) : content :=
  {| c_title := c_title c; c_type := c_type c; c_url := c_url c;
     c_content := c_content c; c_extracted := flag;
     c_video_id := c_video_id c; c_local_path := c_local_path c;
     c_extracted_to := c_extracted_to c |}.

Definition set_url (c : content) (url : json) : content :=
  {| c_title := c_title c; c_type := c_type c; c_url := url;
     c_content := c_content c; c_extracted := c_extracted c;
     c_video_id := c_video_id c; c_local_path := c_local_path c;
     c_extracted_to := c_extracted_to c |}.

Definition set_video_id (c : content) (video_id : list N) : content :=
  {| c_title := c_title c; c_type := c_type c; c_url := c_url c;
     c_content := c_content c; c_extracted := c_extracted c;
     c_video_id := Some video_id; c_local_path := c_local_path c;
     c_extracted_to := c_extracted_to c |}.

Definition set_local_path (c : content) (path : list N) : content :=
  {| c_title := c_title c; c_type := c_type c; c_url := c_url c;
     c_content := c_content c; c_extracted := c_extracted c;
     c_video_id := c_video_id c; c_local_path := Some path;
     c_extracted_to := c_extracted_to c |}.

Definition set_extracted_to (c : content) (path : list N) : content :=
  {| c_title := c_title c; c_type := c_type c; c_url := c_url c;
     c_content := c_content c; c_extracted := c_extracted c;
     c_video_id := c_video_id c; c_local_path := c_local_path c;
     c_extracted_to := Some path |}.

(** [content['content'] = text] followed by
    [content['extracted'] = not content['content'].startswith(prefix)]. *)
Definition set_checked (c : content) (prefix : string) (value : list N) : content :=
  set_extracted (set_content c (JStr value)) (negb (startswith (py prefix) value)).

(** The branch of an external link to a PDF. *)
Definition external_pdf (w : world) (c : content) (title : json)
    (external_url : list N) (download_dir : option (list N)) : content :=
  let failure msg := JStr (py "[Could not download PDF: " ++ msg ++ py "]") in
  match requests_get w external_url [] with
  | Failed _ msg => set_content c (failure msg)
  | Done r =>
      if negb (ok r) then set_content c (failure (reason r))
      else
        let pdf_bytes := body r in
        let c := set_checked c "[Could not" (extract_pdf_text w (PdfBytes pdf_bytes)) in
        (* Save locally if download_dir provided *)
        match download_dir with
        | None => c
        | Some dir =>
            match make_dir w dir with
            | Some (_, msg) => set_content c (failure msg)
            | None =>
                (* Extract filename from URL or use title *)
                let pdf_filename :=
                  hd [] (split 63 (List.last (split 47 external_url) [])) in
                let pdf_filename :=
                  if negb (endswith (py ".pdf") pdf_filename)
                  then fmt w title ++ py ".pdf"
                  else pdf_filename in
                let pdf_path := path_join dir pdf_filename in
                match write_bytes w pdf_path pdf_bytes with
                | Some msg => set_content c (failure msg)
                | None => set_local_path c pdf_path
                end
            end
        end
  end.

(** The branch of an external link. *)
Definition external_url_item (w : world) (c : content) (title : json)
    (external_url : list N) (page : page_cap) (download_dir : option (list N))
  : result content :=
  let c := set_url c (JStr external_url) in
  do content_type <- identify_content_type w external_url;
  match content_type with
  | youtube =>
      do video_id <- extract_youtube_id w external_url;
      match video_id with
      | Some v =>
          if is_empty v then Ok c
          else Ok (set_video_id
                     (set_checked c "[Could not" (get_youtube_transcript w v)) v)
      | None => Ok c
      end
  | panopto =>
      do found <- extract_panopto_id w external_url;
      match found with
      | Some (video_id, panopto_host) =>
          if is_empty panopto_host
          then Ok (set_content c (JStr (py "[Panopto video: " ++ external_url ++ py "]")))
          else Ok (set_video_id
                     (set_checked c "[Panopto video"
                        (get_panopto_transcript w video_id panopto_host))
                     video_id)
      | None =>
          Ok (set_content c (JStr (py "[Panopto video: " ++ external_url ++ py "]")))
      end
  | pdf => Ok (external_pdf w c title external_url download_dir)
  | vimeo | word | powerpoint | webpage =>
      Ok (set_checked c "[Could not" (extract_webpage_content w external_url page))
  end.

(** The download link and the name of a file, looked up through the
    capability when the item does not carry the link. *)
Definition resolve_download (w : world) (page : page_cap)
    (file_url filename download_url : json) : attempt (json * json) :=
  if negb (truthy download_url) && truthy file_url then
    match page with
    | NoPage => Done (download_url, filename)
    | Playwright =>
        try file_response <- page_get w (fmt w file_url);
        if ok file_response then
          match json_body file_response with
          | None => py_fail w ValueError
          | Some file_data =>
              dict_of w file_data (fun fd =>
                Done (get (py "url") fd, get_or (py "filename") filename fd))
          end
        else Done (download_url, filename)
    | Headless =>
        str_of w file_url (fun u =>
          try file_data <- headless_get w (replace (canvas_url w) [] u);
          dict_of w file_data (fun fd =>
            Done (get (py "url") fd, get_or (py "filename") filename fd)))
    end
  else Done (download_url, filename).

Definition download (w : world) (page : page_cap) (download_url : list N)
  : attempt (list N) :=
  match page with
  | Headless =>
      try dl_response <- headless_get_raw w download_url;
      Done (body dl_response)
  | Playwright =>
      try dl_response <- page_get w download_url;
      if ok dl_response then Done (body dl_response)
      else Failed OSError (py "Download failed: " ++ status_code dl_response)
  | NoPage =>
      try dl_response <- requests_get w download_url [];
      if ok dl_response then Done (body dl_response)
      else Failed OSError (reason dl_response)
  end.

(** The body of the [try] of the file branch. *)
Definition file_item_try (w : world) (c : content) (page : page_cap)
    (dir : list N) (file_url filename download_url : json) : attempt content :=
  try resolved <- resolve_download w page file_url filename download_url;
  let '(download_url, filename) := resolved in
  if truthy download_url then
    try file_bytes <- download w page (fmt w download_url);
    (* Save file locally *)
    match filename with
    | JStr name =>
        let file_path := path_join dir name in
        match write_bytes w file_path file_bytes with
        | Some msg => Failed OSError msg
        | None =>
            let c := set_local_path c file_path in
            (* Process based on file type *)
            if endswith (py ".pdf") (str_lower w name) then
              Done (set_checked c "[Could not"
                      (extract_pdf_text w (PdfBytes file_bytes)))
            else if endswith (py ".zip") (str_lower w name) then
              let zip_extract_dir := path_join dir (replace (py ".zip") [] name) in
              Done (set_extracted_to
                      (set_checked c "[Could not"
                         (extract_zip_contents w file_bytes zip_extract_dir))
                      zip_extract_dir)
            else
              Done (set_extracted
                      (set_content c (JStr (py "[File saved: " ++ name ++ py "]")))
                      true)
        end
    | _ => py_fail w TypeError
    end
  else
    Done (set_content c
            (JStr (py "[File: " ++ fmt w filename ++ py " - could not get download URL]"))).

(** The branch of a file.  The download directory is made before the [try]:
    an exception of [mkdir] is raised to the caller. *)
Definition file_item (w : world) (c : content) (page : page_cap)
    (download_dir : option (list N)) (file_url filename download_url : json)
  : result content :=
  match download_dir with
  | Some dir =>
      (* Ensure download directory exists *)
      match make_dir w dir with
      | Some (e, _) => Raise e
      | None =>
          match file_item_try w c page dir file_url filename download_url with
          | Done c' => Ok c'
          | Failed _ msg =>
              Ok (set_content c
                    (JStr (py "[Could not download file: " ++ msg ++ py "]")))
          end
      end
  | None =>
      Ok (set_content c
            (JStr (py "[File: " ++ fmt w filename
                     ++ py " - sync with browser to download]")))
  end.

(** The branch of an external tool. *)
Definition external_tool_item (w : world) (c : content) (title : json)
    (tool_url : list N) : result content :=
  let tool_lower := str_lower w tool_url in
  if contains (py "panopto") tool_lower then
    do found <- extract_panopto_id w tool_url;
    match found with
    | Some (video_id, panopto_host) =>
        if is_empty panopto_host
        then Ok (set_content c
                   (JStr (py "[Panopto video: " ++ fmt w title ++ py "]" ++ nl
                            ++ py "URL: " ++ tool_url ++ nl
                            ++ py "[Open in Canvas to view]")))
        else Ok (set_url
                   (set_video_id
                      (set_checked c "[Panopto video"
                         (get_panopto_transcript w video_id panopto_host))
                      video_id)
                   (JStr tool_url))
    | None =>
        Ok (set_content c
              (JStr (py "[Panopto video: " ++ fmt w title ++ py "]" ++ nl
                       ++ py "URL: " ++ tool_url ++ nl
                       ++ py "[Open in Canvas to view]")))
    end
  else if contains (py "kaltura") tool_lower then
    Ok (set_content c
          (JStr (py "[Kaltura video: " ++ fmt w title ++ py "]" ++ nl
                   ++ py "[Video transcripts not supported - open in Canvas to view]")))
  else
    let c := set_content c
               (JStr (py "[External tool: " ++ fmt w title ++ py "]" ++ nl
                        ++ py "[May require manual access in Canvas]")) in
    Ok (if is_empty tool_url then c else set_url c (JStr tool_url)).

Definition as_str (x : json) : result (list N) :=
  match x with
  | JStr s => Ok s
  | _ => Raise AttributeError
  end.

Definition process_module_item (w : world) (item : json) (page : page_cap)
    (download_dir : option (list N)) : result content :=
  do it <- as_dict item;
  do type_name <- as_str (get_or (py "type") (JStr []) it);
  let item_type := str_lower w type_name in
  let c := {| c_title := get_or (py "title") (JStr (py "Untitled")) it;
              c_type := item_type;
              c_url := py_or (get (py "url") it)
                         (py_or (get (py "html_url") it) (get (py "external_url") it));
              c_content := JNull;
              c_extracted := false;
              c_video_id := None;
              c_local_path := None;
              c_extracted_to := None |} in
  if str_eqb item_type (py "page") then
    (* Canvas page - content should be fetched separately *)
    Ok (set_extracted
          (set_content c (get_or (py "body") (JStr (py "[Page content not loaded]")) it))
          (truthy (get (py "body") it)))
  else if str_eqb item_type (py "externalurl") then
    do external_url <- as_str (get_or (py "external_url") (JStr []) it);
    external_url_item w c (get_or (py "title") (JStr (py "document")) it)
      external_url page download_dir
  else if str_eqb item_type (py "file") then
    file_item w c page download_dir
      (get_or (py "url") (JStr []) it)
      (py_or (get_or (py "filename") (JStr []) it)
             (get_or (py "title") (JStr (py "unknown")) it))
      (get (py "download_url") it)
  else if str_eqb item_type (py "externaltool") then
    do tool_url <-
      as_str (py_or (get (py "external_url") it)
                (py_or (get (py "url") it) (JStr [])));
    external_tool_item w c (get_or (py "title") (JStr (py "External Tool")) it) tool_url
  else Ok c.

(** ** Notions and examples used to state the properties of the extractors *)

(** The texts of the pages in the words of the specification: the pages in
    order, a page whose extraction fails or gives no text skipped. *)
Fixpoint texts_skipping_failures (pages : list page_outcome) : list (list N) :=
  match pages with
  | [] => []
  | Extracted text :: rest =>
      if is_empty text then texts_skipping_failures rest
      else text :: texts_skipping_failures rest
  | PageFails _ :: rest => texts_skipping_failures rest
  end.

(** The message of the first page whose extraction fails. *)
Fixpoint first_failure (pages : list page_outcome) : option (list N) :=
  match pages with
  | [] => None
  | Extracted _ :: rest => first_failure rest
  | PageFails msg :: _ => Some msg
  end.

(** The first value of a key in a query of plain [key=value] pairs joined by
    ampersands, which is what [parse_qs] gives on such a query. *)
Definition simple_query_first (key query : list N) : option (list N) :=
  let pairs := map (Url.split_first 61) (split 38 query) in
  match List.find (fun kv => str_eqb (fst kv) key && negb (is_empty (snd kv))) pairs with
  | Some kv => Some (snd kv)
  | None => None
  end.

Definition refused {A} : attempt A := Failed OSError (py "connection refused").

(** A world for examples, given its network and its PDF library. *)
Definition sample_world (get : list N -> list (list N * list N) -> http_outcome)
    (reader : pdf_source -> pdf_outcome) (write : list N -> list N -> option (list N))
  : world :=
  {| str_lower := ascii_lower;
     netloc_ok := fun _ => true;
     query_first := simple_query_first;
     html5 := Html.html5_basic;
     str_other := fun _ => py "None";
     exn_text := fun _ => py "error";
     requests_get := get;
     page_get := fun _ => refused;
     headless_get := fun _ => refused;
     headless_get_raw := fun _ => refused;
     canvas_url := py "https://canvas.example.edu";
     youtube_segments := fun _ => refused;
     pdf_reader := reader;
     unzip := fun _ _ => BadZipFile;
     write_bytes := write;
     make_dir := fun _ => None |}.

Definition ok_response (doc : option json) (bytes : list N) : response :=
  {| ok := true; status_code := py "200"; reason := []; text := [];
     json_body := doc; body := bytes |}.

(** A video host that answers the delivery request for a session without
    caption tracks. *)
Definition panopto_get (url : list N) (params : list (list N * list N))
  : http_outcome :=
  if str_eqb url (py "https://nu.hosted.panopto.com/Panopto/Pages/Viewer/DeliveryInfo.aspx")
  then Done (ok_response
               (Some (JDict [(py "Delivery",
                              JDict [(py "SessionName", JStr (py "Lecture 3"));
                                     (py "Captions", JList [])])]))
               [])
  else refused.

Definition panopto_world : world :=
  sample_world panopto_get (fun _ => ReaderFails (py "no reader")) (fun _ _ => None).

Definition panopto_item : json :=
  JDict [ (py "type", JStr (py "ExternalUrl"));
          (py "title", JStr (py "Lecture 3 recording"));
          (py "external_url",
           JStr (py "https://nu.hosted.panopto.com/Panopto/Pages/Viewer.aspx?id=abc123")) ].

(** A PDF of three pages, the second of which cannot be read. *)
Definition three_pages : list page_outcome :=
  [ Extracted (py "Page one"); PageFails (py "boom"); Extracted (py "Page three") ].

Definition broken_page_world : world :=
  sample_world (fun _ _ => refused) (fun _ => Pages three_pages) (fun _ _ => None).

(** A PDF of three pages, the second of which is blank. *)
Definition blank_page_world : world :=
  sample_world (fun _ _ => refused)
    (fun _ => Pages [Extracted (py "Page one"); Extracted []; Extracted (py "Page three")])
    (fun _ _ => None).

(** ** Notions used in the proofs *)

(** No forbidden character. *)
Definition clean (s : list N) : Prop := Forall (fun c => is_forbidden c = false) s.

(** What follows a pattern fails on every rest of the input. *)
Definition dead_after {A} (k : cont A) (s : list N) : Prop :=
  forall pos' s' c', (exists l, s = l ++ s') -> k pos' s' c' = None.

(** The pattern reads the character [c] at some place of every match. *)
Inductive reads (c : N) : regex -> Prop :=
| reads_chr : reads c (Chr (N.eqb c))
| reads_seq_l r1 r2 : reads c r1 -> reads c (Seq r1 r2)
| reads_seq_r r1 r2 : reads c r2 -> reads c (Seq r1 r2)
| reads_alt r1 r2 : reads c r1 -> reads c r2 -> reads c (Alt r1 r2)
| reads_grp i r : reads c r -> reads c (Grp i r).

(** The pattern reads the character [c] first. *)
Inductive starts (c : N) : regex -> Prop :=
| starts_chr : starts c (Chr (N.eqb c))
| starts_seq r1 r2 : starts c r1 -> starts c (Seq r1 r2)
| starts_alt r1 r2 : starts c r1 -> starts c r2 -> starts c (Alt r1 r2)
| starts_grp i r : starts c r -> starts c (Grp i r).

(** A score of a cache, written as an integer or as a float. *)
Definition int_or_float (z : Z) (score : json) : Prop :=
  score = JNum (NInt z) \/ score = JNum (NFloat (inject_Z z)).

(** The hashes [ai_detector.run_detection_for_submission] records in the
    cache: the one of the first file there is, [final.md] before [draft.md]
    (the loop is left after one file). *)
Fixpoint recorded_hashes (d : dir_state) (names : list (list N))
  : result (list (list N * json)) :=
  match names with
  | [] => Ok []
  | filename :: rest =>
      match lookup_path d filename with
      | None => recorded_hashes d rest
      | Some Unreadable => Raise OSError
      | Some (File content) =>
          do h <- get_text_hash content;
          Ok [(filename, JStr h)]
      end
  end.

Definition run_file_hashes (d : dir_state) : result (list (list N * json)) :=
  recorded_hashes d [py "final.md"; py "draft.md"].

(** A directory with both files, and the cache of a detection run on it:
    nothing was edited since. *)
Definition dir_both_files : dir_state :=
  Dir {[ py "final.md" := File (py "final text");
         py "draft.md" := File (py "draft one");
         py "ai_check.json" := File (sample_text hashes_final "45") ]}.

(** ** Module files ([content_extractor.save_module_content]) *)

(** The name of the directory of a module: the forbidden characters removed,
    the runs of whitespace replaced, the first 50 characters kept. *)
Definition module_dir_name (name : list N) : list N :=
  let module_name := re_sub (Chr is_forbidden) [] name in
  take 50 (re_sub (plus is_space) [TLit (py "_")] module_name).

(** [len(x)] *)
Definition py_len (x : json) : result nat :=
  match x with
  | JList l => Ok (length l)
  | JDict kvs => Ok (length kvs)
  | JStr s => Ok (length s)
  | _ => Raise TypeError
  end.

(** [for x in value], an exception being raised to the caller. *)
Definition iterate (value : json) : result (list json) :=
  match value with
  | JList l => Ok l
  | JDict kvs => Ok (map (fun kv => JStr (fst kv)) kvs)
  | JStr s => Ok (map (fun c => JStr [c]) s)
  | _ => Raise TypeError
  end.

(** The lines one item adds to [md_content]. *)
Definition item_lines (w : world) (item : json) : result (list (list N)) :=
  do it <- as_dict item;
  let title := get_or (py "title") (JStr (py "Untitled")) it in
  let item_type := get_or (py "type") (JStr (py "unknown")) it in
  Ok ([ nl ++ py "## " ++ fmt w title ++ nl;
        py "*Type: " ++ fmt w item_type ++ py "*" ++ nl ]
      ++ (if truthy (get (py "content") it)
          then [nl ++ fmt w (get (py "content") it) ++ nl] else [])
      ++ (if truthy (get (py "url") it)
          then [nl ++ py "Source: " ++ fmt w (get (py "url") it) ++ nl] else [])
      ++ [nl ++ py "---" ++ nl]).

Fixpoint items_lines (w : world) (items : list json) : result (list (list N)) :=
  match items with
  | [] => Ok []
  | item :: rest =>
      do first <- item_lines w item;
      do others <- items_lines w rest;
      Ok (first ++ others)
  end.

(** What [save_module_content] writes and returns: the directory of the
    module, the fields of [module.json] and the text of [content.md].  The
    directories and files are taken to be writable. *)
Record saved_module : Type := {
  module_dir : list N;
  module_id : json;
  module_name : json;
  module_position : json;
  module_items_count : nat;
  content_md : list N
}.

Definition save_module_content (w : world) (module_data : json)
    (course_dir : list N) : result saved_module :=
  do m <- as_dict module_data;
  let modules_dir := path_join course_dir (py "modules") in
  (* Sanitize module name for filename *)
  do dir_name <-
    match get_or (py "name") (JStr (py "Unknown")) m with
    | JStr name => Ok (module_dir_name name)
    | _ => Raise TypeError
    end;
  (* Save module metadata *)
  do items_count <- py_len (get_or (py "items") (JList []) m);
  (* Save content as markdown *)
  let heading := py "# " ++ fmt w (get_or (py "name") (JStr (py "Module")) m) ++ nl in
  do items <- iterate (get_or (py "items") (JList []) m);
  do lines <- items_lines w items;
  Ok {| module_dir := path_join modules_dir dir_name;
        module_id := get (py "id") m;
        module_name := get (py "name") m;
        module_position := get (py "position") m;
        module_items_count := items_count;
        content_md := join nl (heading :: lines) |}.

(** ** More notions used in the proofs *)

(** Length of the run of characters of a class at the head of a string. *)
Fixpoint run_len (p : N -> bool) (s : list N) : nat :=
  match s with
  | [] => O
  | x :: t => if p x then S (run_len p t) else O
  end.

Definition no_space (s : list N) : Prop := Forall (fun c => is_space c = false) s.

(** A world without network, PDF library or archives, and a module as the
    service describes it, for examples. *)
Definition plain_world : world :=
  sample_world (fun _ _ => refused) (fun _ => ReaderFails (py "no reader"))
    (fun _ _ => None).


(** ** Detection run for a submission ([ai_detector.run_detection_for_submission]) *)

(** [d[k] = v] *)
Fixpoint dict_set (k : list N) (v : json) (kvs : list (list N * json))
  : list (list N * json) :=
  match kvs with
  | [] => [(k, v)]
  | (k', v') :: rest =>
      if str_eqb k k' then (k', v) :: rest else (k', v') :: dict_set k v rest
  end.


Section Detection.

Variable json_load : list N -> option json.

(** [json.dump]: the text written for a document. *)
Variable json_dump : json -> list N.

(** [run_ai_detection], which asks the detection service: the dict of its
    results. *)
Variable run_ai_detection : list N -> result (list (list N * json)).



End Detection.








(** The record of an item is sound: it is marked as extracted only with
    some content, and it names a local file only where one was written. *)
Definition content_ok (c : content) : Prop :=
  c_extracted c = true -> c_content c <> JNull.

Definition saved_ok (w : world) (c : content) : Prop :=
  forall path, c_local_path c = Some path ->
  exists bytes, write_bytes w path bytes = None.

(** A module item of type [File] with its download link, and a world in
    which the link answers with a text file. *)
Definition notes_item : json :=
  JDict [ (py "type", JStr (py "File"));
          (py "title", JStr (py "Lecture notes"));
          (py "filename", JStr (py "notes.txt"));
          (py "download_url", JStr (py "https://canvas.example.edu/files/7/download")) ].

Definition notes_world : world :=
  sample_world (fun _ _ => Done (ok_response None (py "Week 1 notes")))
    (fun _ => ReaderFails (py "no reader")) (fun _ _ => None).

(** ** Workflow display ([main.get_workflow_display]) *)


(** The exceptions of [f"{x:.0f}"]. *)
Inductive format_error : Type :=
| FormatTypeError
| FormatValueError
| FormatOverflowError.

(** The check mark, the black circle, the white circle and the arrow of the
    progress bar. *)
Definition check_mark : list N := [10003].
Definition black_circle : list N := [9679].
Definition white_circle : list N := [9675].
Definition arrow : list N := py " " ++ [8594] ++ py " ".

Definition stages : list (list N * list N * list N) :=
  [ (py "not_started", py "Start", white_circle);
    (py "draft", py "Draft", white_circle);
    (py "final", py "Final", white_circle);
    (py "ai_check", py "AI Check", white_circle);
    (py "submit", py "Submit", white_circle) ].

(** [x in l] for a list of strings. *)
Definition in_list (x : list N) (l : list (list N)) : bool := existsb (str_eqb x) l.

(** One turn of the loop that builds the progress bar. *)
Definition stage_part (completed : list (list N)) (current : option (list N))
    (stage : list N * list N * list N) : list N :=
  let '(stage_id, stage_name, symbol) := stage in
  if in_list stage_id completed
  then py "[green]" ++ check_mark ++ py " " ++ stage_name ++ py "[/green]"
  else if match current with
          | Some c => str_eqb stage_id c
          | None => false
          end
  then py "[yellow]" ++ black_circle ++ py " " ++ stage_name ++ py "[/yellow]"
  else py "[dim]" ++ white_circle ++ py " " ++ stage_name ++ py "[/dim]".

Section Workflow.

(** [format(x, ".0f")] of a number: the numeral, or [None] for an integer too
    large for a float. *)
Variable float_format : number -> option (list N).

Definition format_0f (x : json) : format_error + list N :=
  let numeral n :=
    match float_format n with
    | Some s => inr s
    | None => inl FormatOverflowError
    end in
  match x with
  | JNum n => numeral n
  | JBool b => numeral (NInt (if b then 1 else 0))
  | JStr _ => inl FormatValueError
  | JNull | JList _ | JDict _ => inl FormatTypeError
  end.

(** [scores.get("ai_score", 0) if scores else 0], for the dict of the two
    scores [get_submission_status] returns, or [None]. *)
Definition shown_score (sc : option scores) : json :=
  match sc with
  | Some s =>
      match ai_score s with
      | Some score => score
      | None => JNull
      end
  | None => JNum (NInt 0)
  end.

(** The progress line and the next action. *)
Definition get_workflow_display (sub_status : list N) (sc : option scores)
    (submitted_to_canvas : bool) : format_error + (list N * option (list N)) :=
  let show (completed : list (list N)) (current : option (list N))
           (next_action : option (list N)) :=
    inr (join arrow (map (stage_part completed current) stages), next_action) in
  (* Determine which stage we're at and what's complete *)
  if submitted_to_canvas then
    show [py "not_started"; py "draft"; py "final"; py "ai_check"; py "submit"]
      None None
  else if str_eqb sub_status (py "not_started") then
    show [] (Some (py "not_started")) (Some (py "Open in Claude Code to start writing"))
  else if in_list sub_status [py "work_started"; py "draft_in_progress"] then
    show [py "not_started"] (Some (py "draft"))
      (Some (py "Continue writing and save as final.md when done"))
  else if str_eqb sub_status (py "final_ready") then
    show [py "not_started"; py "draft"; py "final"] (Some (py "ai_check"))
      (Some (py "Run AI detection to check your writing"))
  else if str_eqb sub_status (py "ai_high") then
    match format_0f (shown_score sc) with
    | inl e => inl e
    | inr ai_score =>
        show [py "not_started"; py "draft"; py "final"] (Some (py "ai_check"))
          (Some (py "AI score is " ++ ai_score ++ py "% - consider humanizing"))
    end
  else if str_eqb sub_status (py "ready_to_submit") then
    show [py "not_started"; py "draft"; py "final"; py "ai_check"] (Some (py "submit"))
      (Some (py "Ready! Submit to Canvas"))
  else
    show [] (Some (py "not_started")) (Some (py "Open in Claude Code to start writing")).

End Workflow.

(** The progress bar with the first [k] stages done and the next one
    current. *)
Definition progress_line (k : nat) : list N :=
  join arrow
    (imap (fun i name =>
             if Nat.ltb i k
             then py "[green]" ++ check_mark ++ py " " ++ name ++ py "[/green]"
             else if Nat.eqb i k
             then py "[yellow]" ++ black_circle ++ py " " ++ name ++ py "[/yellow]"
             else py "[dim]" ++ white_circle ++ py " " ++ name ++ py "[/dim]")
       [py "Start"; py "Draft"; py "Final"; py "AI Check"; py "Submit"]).

(** The numerals of the small integers, for examples. *)
Definition small_format (n : number) : option (list N) :=
  match n with
  | NInt z => if (0 <=? z)%Z then Some (decimal (Z.to_nat z)) else None
  | _ => None
  end.

(** ** Modules of a course ([content_extractor.fetch_and_process_modules]) *)

(** The dict [process_module_item] returns, for the functions that read it;
    the keys set in some branches only come last here. *)
Definition content_dict (c : content) : list (list N * json) :=
  [ (py "title", c_title c);
    (py "type", JStr (c_type c));
    (py "url", c_url c);
    (py "content", c_content c);
    (py "extracted", JBool (c_extracted c)) ]
  ++ match c_video_id c with
     | Some v => [(py "video_id", JStr v)]
     | None => []
     end
  ++ match c_local_path c with
     | Some p => [(py "local_path", JStr p)]
     | None => []
     end
  ++ match c_extracted_to c with
     | Some p => [(py "extracted_to", JStr p)]
     | None => []
     end.

(** For pages, the full content is fetched first and stored in the item;
    whatever goes wrong on the way is passed over. *)
Definition fetch_page_body (w : world) (it : list (list N * json))
  : list (list N * json) :=
  if eq_str (get (py "type") it) (py "Page") then
    let page_url := get (py "url") it in
    if truthy page_url then
      match page_url with
      | JStr u =>
          match page_get w u with
          | Done page_response =>
              if ok page_response then
                match json_body page_response with
                | Some (JDict page_data) =>
                    dict_set (py "body") (get_or (py "body") (JStr []) page_data) it
                | _ => it
                end
              else it
          | Failed _ _ => it
          end
      | _ => it
      end
    else it
  else it.

(** The loop over the items of a module. *)
Fixpoint process_items (w : world) (files_dir : list N) (items : list json)
  : result (list content) :=
  match items with
  | [] => Ok []
  | item :: rest =>
      do it <- as_dict item;
      do processed <-
        process_module_item w (JDict (fetch_page_body w it)) Playwright (Some files_dir);
      do others <- process_items w files_dir rest;
      Ok (processed :: others)
  end.

Record module_summary : Type := {
  sum_name : json;
  sum_path : list N;
  sum_items_count : nat;
  sum_extracted_count : nat
}.

(** One turn of the loop over the modules. *)
Definition process_module (w : world) (course_dir : list N) (module : json)
  : result module_summary :=
  do m <- as_dict module;
  let module_name := get_or (py "name") (JStr (py "Unknown Module")) m in
  let items := get_or (py "items") (JList []) m in
  do printed <- py_len items;
  do items <- iterate items;
  do processed_items <- process_items w (path_join course_dir (py "files")) items;
  let module :=
    JDict (dict_set (py "items")
             (JList (map (fun c => JDict (content_dict c)) processed_items)) m) in
  (* Save module content *)
  do saved <- save_module_content w module course_dir;
  (* Count extracted items *)
  let extracted_count := length (List.filter c_extracted processed_items) in
  Ok {| sum_name := module_name;
        sum_path := module_dir saved;
        sum_items_count := length processed_items;
        sum_extracted_count := extracted_count |}.

Fixpoint process_modules (w : world) (course_dir : list N) (modules : list json)
  : result (list module_summary) :=
  match modules with
  | [] => Ok []
  | module :: rest =>
      do summary <- process_module w course_dir module;
      do others <- process_modules w course_dir rest;
      Ok (summary :: others)
  end.

Definition modules_url (w : world) (course_id : json) : list N :=
  canvas_url w ++ py "/api/v1/courses/" ++ fmt w course_id
    ++ py "/modules?include[]=items&per_page=50".

(** The directory [files] of the course is taken to be there or to be
    created without error. *)
Definition fetch_and_process_modules (w : world) (course_id : json)
    (course_dir : list N) : result (list module_summary) :=
  (* Fetch modules with items *)
  match page_get w (modules_url w course_id) with
  | Failed e _ => Raise e
  | Done response =>
      if negb (ok response) then Ok []
      else
        match json_body response with
        | None => Raise ValueError
        | Some modules =>
            do modules <- iterate modules;
            process_modules w course_dir modules
        end
  end.

(** A course whose service answers the request for the modules with the
    given document, every other request being refused. *)
Definition course_world (modules : json) : world :=
  {| str_lower := ascii_lower;
     netloc_ok := fun _ => true;
     query_first := simple_query_first;
     html5 := Html.html5_basic;
     str_other := fun _ => py "101";
     exn_text := fun _ => py "error";
     requests_get := fun _ _ => refused;
     page_get := fun url =>
       if str_eqb url
            (py "https://canvas.example.edu/api/v1/courses/101/modules?include[]=items&per_page=50")
       then Done (ok_response (Some modules) [])
       else refused;
     headless_get := fun _ => refused;
     headless_get_raw := fun _ => refused;
     canvas_url := py "https://canvas.example.edu";
     youtube_segments := fun _ => refused;
     pdf_reader := fun _ => ReaderFails (py "no reader");
     unzip := fun _ _ => BadZipFile;
     write_bytes := fun _ _ => None;
     make_dir := fun _ => None |}.

Definition page_item : json :=
  JDict [ (py "title", JStr (py "Syllabus"));
          (py "type", JStr (py "Page"));
          (py "url", JStr (py "https://canvas.example.edu/api/v1/courses/101/pages/syllabus")) ].

Definition bracket_item : json :=
  JDict [ (py "title", JStr (py "Reading"));
          (py "type", JStr (py "ExternalUrl"));
          (py "external_url", JStr (py "http://[")) ].

Definition week_one (items : list json) : json :=
  JDict [ (py "id", JNum (NInt 7));
          (py "name", JStr (py "Week 1: Intro / Overview"));
          (py "position", JNum (NInt 1));
          (py "items", JList items) ].

(** The text of the path [course_dir / "modules"], for [course_dir] the
    text of a path: the text of the current directory is a single dot, and
    only the text of a root ends with a slash. *)
Definition modules_path (course_dir : list N) : list N :=
  if str_eqb course_dir (py ".") then py "modules"
  else if endswith (py "/") course_dir then course_dir ++ py "modules"
  else course_dir ++ py "/modules".

(** What one summary says of its module. *)
Definition summary_of (course_dir : list N) (module : json) (s : module_summary)
  : Prop :=
  exists m items name,
    as_dict module = Ok m
    /\ iterate (get_or (py "items") (JList []) m) = Ok items
    /\ sum_name s = get_or (py "name") (JStr (py "Unknown Module")) m
    /\ sum_items_count s = length items
    /\ (sum_extracted_count s <= sum_items_count s)%nat
    /\ (length name <= 50)%nat
    /\ no_space name /\ ~ In 47 name /\ ~ In 92 name
    /\ (name <> [] -> name <> py "." ->
        sum_path s = modules_path course_dir ++ py "/" ++ name)
    /\ (name = [] \/ name = py "." -> sum_path s = modules_path course_dir).

(** A link to a page, and a link to a PDF in a folder named after the
    video host. *)
Definition article_item : json :=
  JDict [ (py "type", JStr (py "ExternalUrl"));
          (py "title", JStr (py "Background reading"));
          (py "external_url", JStr (py "https://example.edu/articles/intro")) ].

Definition guide_url : list N := py "https://example.edu/files/panopto-guide.pdf".

Definition guide_item : json :=
  JDict [ (py "type", JStr (py "ExternalUrl"));
          (py "title", JStr (py "Recording guide"));
          (py "external_url", JStr guide_url) ].

(** The text [re.sub(r' {2,}', ' ', s)] returns: of every run of spaces the
    first one is kept. *)
Fixpoint single_spaces (after_space : bool) (s : list N) : list N :=
  match s with
  | [] => []
  | x :: t =>
      if 32 =? x
      then if after_space then single_spaces true t else x :: single_spaces true t
      else x :: single_spaces false t
  end.

(** ** Display name of a course ([main.parse_course_display_name]) *)

Definition is_upper (c : N) : bool := in_range 65 90 c.      (* [[A-Z]] *)

(** [^\d{4}[A-Z]{2}_[A-Z]+_\d+-[A-Z]+_SEC\d+\s+(.+)$]; the dot matches every
    character but the line feed. *)
Definition re_course_name : regex :=
  seqs [ Bol; Rep true 4 (Some 4%nat) is_decimal; Rep true 2 (Some 2%nat) is_upper;
         lit1 95; plus is_upper; lit1 95; plus is_decimal; lit1 45; plus is_upper;
         lit (py "_SEC"); plus is_decimal; plus is_space;
         Grp 1 (plus (not_char 10)); Eol ].

Definition parse_course_display_name (name : list N) : list N :=
  match match_at false re_course_name O name with
  | Some (_, c) => group 1 c
  | None => name
  end.

(** A page that answers every request, for examples. *)
Definition article_response : response :=
  {| ok := true; status_code := py "200"; reason := [];
     text := py "<h1>Intro</h1><p>Hello   world</p>   <p>Bye</p>";
     json_body := None; body := [] |}.

Definition article_world : world :=
  sample_world (fun _ _ => Done article_response)
    (fun _ => ReaderFails (py "no reader")) (fun _ _ => None).


(** A character that the URL parser keeps inside a path: no tab, carriage
    return or line feed (which it removes), and no question mark, hash or
    semicolon (which end the path). *)
Definition is_path_char (c : N) : bool :=
  negb (Url.is_unsafe c) && negb (mem c (py "?#;")).

(** ** Detection line ([ai_detector.format_detection_results]) *)

(** What the display functions raise: an exception of the interpreter, or
    one of a format. *)
Inductive display_error : Type :=
| DisplayRaise (e : exn)
| DisplayFormat (e : format_error).

Section Display.

Variable float_format : number -> option (list N).

(** The age of a timestamp at the time of the call ([3d ago], [2h ago],
    [5m ago], [just now]), or [unknown] for a text that is no ISO date. *)
Variable time_ago_of : list N -> list N.

Definition colored (color service shown : list N) : list N :=
  py "[" ++ color ++ py "]" ++ service ++ py " " ++ shown ++ py "%[/" ++ color ++ py "]".

(** One turn of the loop over the services. *)
Definition service_part (service : list N) (data : json) : display_error + list N :=
  match data with
  | JDict d =>
      let score := get (py "score") d in
      if negb (is_none score) then
        (* Color based on score *)
        match lt_int score 20 with
        | Raise e => inl (DisplayRaise e)
        | Ok below_20 =>
            let color :=
              if below_20 then py "green"
              else match lt_int score 50 with
                   | Ok true => py "yellow"
                   | _ => py "red"
                   end in
            match format_0f float_format score with
            | inl e => inl (DisplayFormat e)
            | inr shown => inr (colored color service shown)
            end
        end
      else inr (py "[dim]" ++ service ++ py " --[/dim]")
  | _ => inl (DisplayRaise AttributeError)
  end.

Fixpoint service_parts (services : list (list N * json))
  : display_error + list (list N) :=
  match services with
  | [] => inr []
  | (service, data) :: rest =>
      match service_part service data with
      | inl e => inl e
      | inr part =>
          match service_parts rest with
          | inl e => inl e
          | inr parts => inr (part :: parts)
          end
      end
  end.

(** The status line and the age, or [None] and a message. *)
Definition format_detection_results (results : json)
  : display_error + (option (list N) * json) :=
  match results with
  | JDict r =>
      if negb (truthy results) || truthy (get (py "error") r)
      then inr (None, get_or (py "error") (JStr (py "No results")) r)
      else
        let services := get_or (py "services") (JDict []) r in
        if negb (truthy services)
        then inr (None, JStr (py "No detection services ran"))
        else
          match services with
          | JDict svs =>
              match service_parts svs with
              | inl e => inl e
              | inr parts =>
                  (* Format timestamp *)
                  let checked_at := get (py "checked_at") r in
                  let time_ago :=
                    if truthy checked_at then
                      match checked_at with
                      | JStr s => time_ago_of s
                      | _ => py "unknown"
                      end
                    else py "unknown" in
                  inr (Some (join (py " | ") parts), JStr time_ago)
              end
          | _ => inl (DisplayRaise AttributeError)
          end
  | _ => inl (DisplayRaise AttributeError)
  end.

End Display.

(** ** The scores of a submission, read off the cache documents

    The notions below say in terms of the documents what the state machine
    reads; the theorems relate them to the functions of the code. *)

(** A service without a score: an object whose [score] is absent or null. *)
Definition scoreless (service : list N * json) : Prop :=
  exists data, snd service = JDict data /\ get (py "score") data = JNull.

(** [score] is the first score of the services of [doc] that is not null:
    [doc] is an object, its [services] are an object, the services in front
    are objects without a score, and the next one is an object with the
    score [score]. *)
Definition first_service_score (doc score : json) : Prop :=
  exists kvs services before name data after,
    doc = JDict kvs
    /\ get_or (py "services") (JDict []) kvs = JDict services
    /\ services = before ++ (name, JDict data) :: after
    /\ Forall scoreless before
    /\ get (py "score") data = score
    /\ score <> JNull.

(** The main score: the first score of the document [ai_check.json] holds. *)
Definition main_score_is (json_load : list N -> option json)
    (files : gmap (list N) entry) (score : json) : Prop :=
  exists text doc,
    files !! py "ai_check.json" = Some (File text)
    /\ json_load text = Some doc
    /\ first_service_score doc score.

(** The humanized score: the first score of the cache of the humanized
    variant, which is [final_humanized.md] if it is in the directory and
    [draft_humanized.md] otherwise. *)
Definition humanized_score_is (json_load : list N -> option json)
    (files : gmap (list N) entry) (score : json) : Prop :=
  exists cache_name text doc,
    ((exists_in files (py "final_humanized.md") = true
      /\ cache_name = py "ai_check_final_humanized.json")
     \/ (exists_in files (py "final_humanized.md") = false
         /\ exists_in files (py "draft_humanized.md") = true
         /\ cache_name = py "ai_check_draft_humanized.json"))
    /\ files !! cache_name = Some (File text)
    /\ json_load text = Some doc
    /\ first_service_score doc score.

(** [n < bound] for a number of a document and an integer bound. *)
Definition below (n : number) (bound : Z) : Prop :=
  match n with
  | NInt z => (z < bound)%Z
  | NFloat q => (q < inject_Z bound)%Q
  | NNaN => False
  | NInf negative => negative = true
  end.

(** ** Caches as the program writes them, for examples *)

(** The result of [check_zerogpt_api] for a text that was scored. *)
Definition service_fields (score : json) (is_human : Z) (feedback : string)
  : list (list N * json) :=
  [ (py "score", score);
    (py "status", JStr (py "success"));
    (py "details",
     JDict [ (py "is_human", JNum (NInt is_human));
             (py "feedback", JStr (py feedback)) ]) ].

(** The document [run_detection_for_submission] saves in [ai_check.json]
    for a check of [final.md] by the one default service: the keys of
    [run_ai_detection], the result of [check_zerogpt_api] with its
    [details], and the hash of the file. *)
Definition detection_fields (hash : string) (score : json)
  : list (list N * json) :=
  [ (py "checked_at", JStr (py "2025-01-01T00:00:00"));
    (py "text_hash", JStr (py hash));
    (py "text_length", JNum (NInt 10));
    (py "services",
     JDict [(py "zerogpt",
             JDict (service_fields score 0 "Most of Your Text is AI/GPT Generated"))]);
    (py "file_hashes", JDict [(py "final.md", JStr (py hash))]) ].

Definition detection_cache (hash : string) (score : json) : json :=
  JDict (detection_fields hash score).

(** The document saved beside a humanized file: no hashes. *)
Definition humanized_cache (score : json) : json :=
  JDict [ (py "checked_at", JStr (py "2025-01-02T00:00:00"));
          (py "services",
           JDict [(py "zerogpt",
                   JDict (service_fields score 1 "Your Text is Human written"))]) ].

Definition service_text (score : list N) (is_human feedback : string) : list N :=
  py "{" ++ quoted "zerogpt" ++ py ": {" ++ quoted "score" ++ py ": " ++ score
    ++ py ", " ++ quoted "status" ++ py ": " ++ quoted "success"
    ++ py ", " ++ quoted "details" ++ py ": {" ++ quoted "is_human" ++ py ": "
    ++ py is_human ++ py ", " ++ quoted "feedback" ++ py ": " ++ quoted feedback
    ++ py "}}}".

Definition detection_text (hash : string) (score : list N) : list N :=
  py "{" ++ quoted "checked_at" ++ py ": " ++ quoted "2025-01-01T00:00:00"
    ++ py ", " ++ quoted "text_hash" ++ py ": " ++ quoted hash
    ++ py ", " ++ quoted "text_length" ++ py ": 10"
    ++ py ", " ++ quoted "services" ++ py ": "
    ++ service_text score "0" "Most of Your Text is AI/GPT Generated"
    ++ py ", " ++ quoted "file_hashes" ++ py ": {" ++ quoted "final.md" ++ py ": "
    ++ quoted hash ++ py "}}".

Definition humanized_text (score : list N) : list N :=
  py "{" ++ quoted "checked_at" ++ py ": " ++ quoted "2025-01-02T00:00:00"
    ++ py ", " ++ quoted "services" ++ py ": "
    ++ service_text score "1" "Your Text is Human written" ++ py "}".

(** The float [z.0]. *)
Definition float_of (z : Z) : json := JNum (NFloat (inject_Z z)).

Definition cache_table : list (list N * json) :=
  [ (detection_text md5_final_text (py "45.0"),
     detection_cache md5_final_text (float_of 45));
    (detection_text md5_final_text (py "10.0"),
     detection_cache md5_final_text (float_of 10));
    (detection_text md5_final_text (py "30.0"),
     detection_cache md5_final_text (float_of 30));
    (detection_text md5_final_text (py "25.0"),
     detection_cache md5_final_text (float_of 25));
    (detection_text md5_old_text (py "45.0"),
     detection_cache md5_old_text (float_of 45));
    (detection_text md5_final_text (quoted "45"),
     detection_cache md5_final_text (JStr (py "45")));
    (humanized_text (py "15.0"), humanized_cache (float_of 15));
    (humanized_text (py "45.0"), humanized_cache (float_of 45)) ].

Definition cache_load : list N -> option json := load_from cache_table.

(** [final.md] and the cache of its check. *)
Definition dir_scored (score : list N) : gmap (list N) entry :=
  {[ py "final.md" := File (py "final text");
     py "ai_check.json" := File (detection_text md5_final_text score) ]}.

(** The same with a humanized final and the cache of its check. *)
Definition dir_scored_humanized (score humanized : list N)
  : gmap (list N) entry :=
  <[ py "final_humanized.md" := File (py "rewritten text") ]>
    (<[ py "ai_check_final_humanized.json" := File (humanized_text humanized) ]>
       (dir_scored score)).

(** [final.md] edited after its check: the cache records the hash of the
    older text. *)
Definition dir_stale : gmap (list N) entry :=
  {[ py "final.md" := File (py "new text");
     py "ai_check.json" := File (detection_text md5_old_text (py "45.0")) ]}.

(** A humanized final whose check gave no score (no cache was written for
    it), beside a humanized draft checked at 15. *)
Definition dir_shadowed : gmap (list N) entry :=
  <[ py "final_humanized.md" := File (py "rewritten text") ]>
    (<[ py "draft_humanized.md" := File (py "rewritten draft") ]>
       (<[ py "ai_check_draft_humanized.json" := File (humanized_text (py "15.0")) ]>
          (dir_scored (py "45.0")))).

(** The numerals [format(x, ".0f")] gives for the small integers and the
    floats without a fraction. *)
Definition whole_format (n : number) : option (list N) :=
  match n with
  | NInt z => if (0 <=? z)%Z then Some (decimal (Z.to_nat z)) else None
  | NFloat q =>
      if ((0 <=? Qnum q)%Z && Pos.eqb (Qden q) 1)%bool
      then Some (decimal (Z.to_nat (Qnum q))) else None
  | _ => None
  end.

(* ================================================================== *)
(** * Properties *)
(* ================================================================== *)

(** ** Strings *)

Section StringFacts.

Context (Q : N -> Prop).

Lemma Forall_dropwhile p (s : list N) : Forall Q s -> Forall Q (dropwhile p s).
Proof.
  induction 1 as [|x s Hx Hs IH]; simpl; [constructor|].
  destruct (p x); [exact IH | constructor; assumption].
Qed.

Lemma Forall_rev_N (s : list N) : Forall Q s -> Forall Q (rev s).
Proof.
  intros H. apply List.Forall_forall. intros x Hx.
  apply List.in_rev in Hx. revert x Hx. apply List.Forall_forall. exact H.
Qed.

Lemma Forall_strip_by p (s : list N) : Forall Q s -> Forall Q (strip_by p s).
Proof.
  intros H. unfold strip_by, rstrip_by, lstrip_by.
  apply Forall_rev_N, Forall_dropwhile, Forall_rev_N, Forall_dropwhile, H.
Qed.

Lemma Forall_sub_go r repl (s : list N) :
  (forall c, Forall Q (repl c)) -> Forall Q s ->
  forall pos skip, Forall Q (sub_go r repl pos skip s).
Proof.
  intros Hrepl Hs. induction Hs as [|x s Hx Hs IH]; intros pos skip; simpl.
  - destruct skip; [|constructor].
    destruct (match_at false r pos []) as [[e c]|]; [apply Hrepl|constructor].
  - destruct skip as [|n]; [|apply IH].
    destruct (match_at false r pos (x :: s)) as [[e c]|].
    + destruct (Nat.eqb e pos).
      * apply Forall_app; split; [apply Hrepl|].
        destruct (match_at true r pos (x :: s)) as [[e2 c2]|].
        -- apply Forall_app; split; [apply Hrepl|apply IH].
        -- constructor; [exact Hx|apply IH].
      * apply Forall_app; split; [apply Hrepl|apply IH].
    + constructor; [exact Hx|apply IH].
Qed.

End StringFacts.

Lemma dropwhile_head p (s : list N) x t : dropwhile p s = x :: t -> p x = false.
Proof.
  induction s as [|y s IH]; simpl; [discriminate|].
  destruct (p y) eqn:E; [exact IH|].
  intros [= -> _]. exact E.
Qed.

(** What [rstrip] removes is a suffix. *)
Lemma rstrip_by_prefix p (s : list N) : exists d, s = rstrip_by p s ++ d.
Proof.
  unfold rstrip_by.
  assert (H : forall l : list N, exists d, l = d ++ dropwhile p l).
  { induction l as [|y l [d IH]]; simpl; [exists []; reflexivity|].
    destruct (p y); [|exists []; reflexivity].
    exists (y :: d). simpl. f_equal. exact IH. }
  destruct (H (rev s)) as [d Hd]. exists (rev d).
  rewrite <- rev_app_distr, <- Hd, rev_involutive. reflexivity.
Qed.

Lemma rstrip_by_last p (s : list N) t x : rstrip_by p s = t ++ [x] -> p x = false.
Proof.
  unfold rstrip_by. intros H.
  apply (f_equal (@rev N)) in H. rewrite rev_involutive, rev_app_distr in H.
  simpl in H. eapply dropwhile_head, H.
Qed.

Lemma strip_by_head p (s : list N) x t : strip_by p s = x :: t -> p x = false.
Proof.
  unfold strip_by, lstrip_by. intros H.
  destruct (rstrip_by_prefix p (dropwhile p s)) as [d Hd].
  rewrite H in Hd. simpl in Hd. eapply dropwhile_head, Hd.
Qed.

Lemma strip_by_last p (s : list N) t x : strip_by p s = t ++ [x] -> p x = false.
Proof. unfold strip_by. apply rstrip_by_last. Qed.

(** ** Filename sanitiser *)

Example sanitize_ex1 :
  sanitize_filename (py "  Essay 1: What/Why?  ") = py "Essay_1_WhatWhy".
Proof. vm_compute. reflexivity. Qed.

Lemma succ_eqb_false (n : nat) : Nat.eqb (S n) n = false.
Proof. apply Nat.eqb_neq. lia. Qed.

Lemma match_at_chr b p pos x (s : list N) :
  match_at b (Chr p) pos (x :: s) = if p x then Some (S pos, []) else None.
Proof.
  unfold match_at. cbn [mt]. destruct (p x); [|reflexivity].
  rewrite succ_eqb_false, andb_false_r. reflexivity.
Qed.

Lemma sub_go_cons r repl pos x (s : list N) :
  sub_go r repl pos O (x :: s) =
  match match_at false r pos (x :: s) with
  | Some (e, c) =>
      if Nat.eqb e pos
      then repl c ++
           match match_at true r pos (x :: s) with
           | Some (e2, c2) => repl c2 ++ sub_go r repl (S pos) (e2 - pos - 1) s
           | None => x :: sub_go r repl (S pos) O s
           end
      else repl c ++ sub_go r repl (S pos) (e - pos - 1) s
  | None => x :: sub_go r repl (S pos) O s
  end.
Proof. reflexivity. Qed.

(** Removing one class of characters is a filter. *)
Lemma sub_go_class_delete p (s : list N) pos :
  sub_go (Chr p) (fun _ => []) pos O s = List.filter (fun c => negb (p c)) s.
Proof.
  revert pos. induction s as [|x s IH]; intros pos; [reflexivity|].
  rewrite sub_go_cons, match_at_chr. cbn [List.filter].
  destruct (p x) eqn:E; cbn [negb].
  - rewrite succ_eqb_false.
    replace (S pos - pos - 1)%nat with O by lia. apply IH.
  - f_equal. apply IH.
Qed.

Lemma sanitize_filename_clean (s : list N) : clean (sanitize_filename s).
Proof.
  unfold sanitize_filename, clean, strip_chars.
  apply Forall_take, Forall_strip_by. unfold re_sub.
  apply Forall_sub_go.
  - intros c. simpl. repeat constructor.
  - rewrite sub_go_class_delete. apply List.Forall_forall. intros x Hx.
    apply List.filter_In in Hx. destruct Hx as [_ Hx].
    apply negb_true_iff in Hx. exact Hx.
Qed.

Lemma sanitize_filename_length (s : list N) : (length (sanitize_filename s) <= 100)%nat.
Proof. unfold sanitize_filename. rewrite length_take. lia. Qed.

Lemma sanitize_filename_leading (s : list N) c t :
  sanitize_filename s = c :: t -> mem c (py "._") = false.
Proof.
  unfold sanitize_filename, strip_chars.
  set (u := strip_by _ _). intros H.
  destruct u as [|y u'] eqn:E; [discriminate|].
  simpl in H. injection H as -> _.
  exact (strip_by_head _ _ _ _ E).
Qed.

Lemma sanitize_filename_trailing (s : list N) t c :
  (length (sanitize_uncut s) <= 100)%nat ->
  sanitize_filename s = t ++ [c] -> mem c (py "._") = false.
Proof.
  intros Hlen. change (sanitize_filename s) with (take 100 (sanitize_uncut s)).
  rewrite take_ge by exact Hlen.
  unfold sanitize_uncut, strip_chars. apply strip_by_last.
Qed.

(** What holds of every sanitised name: none of the forbidden characters, at
    most 100 characters, no dot or underscore in front, and none at the end
    when nothing had to be cut. *)
Lemma sanitize_filename_safe (s : list N) :
  clean (sanitize_filename s)
  /\ (length (sanitize_filename s) <= 100)%nat
  /\ (forall c t, sanitize_filename s = c :: t -> mem c (py "._") = false)
  /\ ((length (sanitize_uncut s) <= 100)%nat ->
      forall t c, sanitize_filename s = t ++ [c] -> mem c (py "._") = false).
Proof.
  split; [apply sanitize_filename_clean|].
  split; [apply sanitize_filename_length|].
  split; [apply sanitize_filename_leading|].
  intros H t c. apply sanitize_filename_trailing, H.
Qed.

(** C5 at a title that is cut inside a run of words: the dot and underscore
    were stripped before the cut at 100 characters, so the name that is
    returned ends with the underscore the cut lays bare. *)
Theorem sanitize_filename_cut_leaves_underscore :
  length long_title = 116%nat
  /\ sanitize_filename long_title =
     py "Week_12_Group_Project_Deliverable_3_Written_Report_and_Presentation_Slides_for_the_Capstone_Designs_"
  /\ List.last (sanitize_filename long_title) 0 = 95
  /\ mem (List.last (sanitize_filename long_title) 0) (py "._") = true.
Proof. repeat split; vm_compute; reflexivity. Qed.

(** ** The matcher *)

Section MatcherFacts.

Context {A : Type}.

(** A greedy repetition over a string of the class alone runs to the end. *)
Lemma rep_greedy_all p (k : cont A) (s : list N) :
  forall lo pos c r,
    forallb p s = true -> (lo <= length s)%nat ->
    k (pos + length s)%nat [] c = Some r ->
    rep_greedy p lo None k pos s c = Some r.
Proof.
  induction s as [|x s IH]; intros lo pos c r Hall Hlo Hk.
  - simpl in *. replace lo with O by lia. simpl.
    rewrite Nat.add_0_r in Hk. exact Hk.
  - simpl in Hall. apply andb_true_iff in Hall as [Hx Hs].
    cbn [rep_greedy hi_zero hi_pred]. rewrite Hx.
    rewrite (IH (Nat.pred lo) (S pos) c r); [reflexivity|exact Hs| |].
    + simpl in Hlo. lia.
    + simpl in Hk. rewrite <- Hk. f_equal. lia.
Qed.

(** A greedy repetition stops in front of the first character outside the
    class, when what follows matches there. *)
Lemma rep_greedy_upto p (k : cont A) (a : list N) y (b : list N) :
  forall lo pos c r,
    forallb p a = true -> p y = false -> (lo <= length a)%nat ->
    k (pos + length a)%nat (y :: b) c = Some r ->
    rep_greedy p lo None k pos (a ++ y :: b) c = Some r.
Proof.
  induction a as [|x a IH]; intros lo pos c r Hall Hy Hlo Hk.
  - simpl in *. replace lo with O by lia. rewrite Hy. simpl.
    rewrite Nat.add_0_r in Hk. exact Hk.
  - simpl in Hall. apply andb_true_iff in Hall as [Hx Hs].
    cbn [rep_greedy hi_zero hi_pred app]. rewrite Hx.
    rewrite (IH (Nat.pred lo) (S pos) c r); [reflexivity|exact Hs|exact Hy| |].
    + simpl in Hlo. lia.
    + simpl in Hk. rewrite <- Hk. f_equal. lia.
Qed.

End MatcherFacts.

(** [^p+$] accepts the non-empty strings of the class. *)
Lemma re_match_anchored_class p (s : list N) :
  s <> [] -> forallb p s = true ->
  re_match (seqs [Bol; plus p; Eol]) s = true.
Proof.
  intros Hne Hall. unfold re_match, match_at. cbn [seqs mt plus Nat.eqb].
  erewrite rep_greedy_all; [reflexivity|exact Hall| |reflexivity].
  destruct s; [congruence|simpl; lia].
Qed.

(** ** Caption parser *)

Example caption_ex1 :
  parse_caption_file (py "WEBVTT" ++ [10;10] ++ py "1" ++ [10] ++ py "00:00:00.000 --> 00:00:02.000"
                      ++ [10] ++ py "Hello <b>world</b>" ++ [10]) = py "Hello world".
Proof. vm_compute. reflexivity. Qed.

Lemma caption_line_cue_id (line : list N) :
  strip line <> [] -> forallb is_cue_id_char (strip line) = true ->
  caption_line line = None.
Proof.
  intros Hne Hall. unfold caption_line.
  destruct (startswith _ _ || startswith _ _); [reflexivity|].
  destruct (contains _ _); [reflexivity|].
  unfold re_cue_id. rewrite (re_match_anchored_class _ _ Hne Hall).
  rewrite orb_true_r. reflexivity.
Qed.

Lemma split_on_app_nosep sep (l : list N) :
  ~ In sep l -> forall cur rest,
  split_on sep cur (l ++ rest) = split_on sep (rev l ++ cur) rest.
Proof.
  induction l as [|c l IH]; intros Hn cur rest; [reflexivity|].
  simpl. destruct (N.eqb_spec c sep) as [->|Hc].
  - exfalso. apply Hn. left. reflexivity.
  - rewrite IH by (intros H; apply Hn; right; exact H).
    rewrite <- app_assoc. reflexivity.
Qed.

Lemma split_on_join sep (ls : list (list N)) :
  forall l cur, Forall (fun l => ~ In sep l) (l :: ls) ->
  split_on sep cur (join [sep] (l :: ls)) = (rev cur ++ l) :: ls.
Proof.
  induction ls as [|l2 ls IH]; intros l cur H.
  - inversion H; subst. cbn [join].
    rewrite <- (app_nil_r l) at 1. rewrite split_on_app_nosep by assumption.
    simpl. rewrite rev_app_distr, rev_involutive. reflexivity.
  - inversion H as [|? ? Hl Hrest]; subst.
    change (join [sep] (l :: l2 :: ls)) with (l ++ [sep] ++ join [sep] (l2 :: ls)).
    rewrite split_on_app_nosep by assumption.
    cbn [app split_on]. rewrite N.eqb_refl.
    rewrite (IH l2 [] Hrest). simpl.
    rewrite rev_app_distr, rev_involutive. reflexivity.
Qed.

Lemma split_join sep (ls : list (list N)) :
  ls <> [] -> Forall (fun l => ~ In sep l) ls -> split sep (join [sep] ls) = ls.
Proof.
  intros Hne H. destruct ls as [|l ls]; [congruence|].
  unfold split. rewrite split_on_join by exact H. reflexivity.
Qed.

Lemma fold_caption_step_skip pre line post acc :
  caption_line line = None ->
  fold_left caption_step (pre ++ line :: post) acc =
  fold_left caption_step (pre ++ post) acc.
Proof.
  intros H. rewrite !fold_left_app. cbn [fold_left].
  unfold caption_step at 2. rewrite H. reflexivity.
Qed.

(** C10: a non-blank line made only of the characters a-f, 0-9 and the hyphen
    is skipped by [parse_caption_file]; the transcript is the one of the input
    without that line.  The words face, added, dead and a, each alone on its
    line, are among them. *)
Theorem parse_caption_file_drops_cue_id_lines :
  (forall line pre post,
      strip line <> [] -> forallb is_cue_id_char (strip line) = true ->
      Forall (fun l => ~ In 10 l) (pre ++ line :: post) ->
      caption_line line = None /\
      parse_caption_file (join nl (pre ++ line :: post)) =
      parse_caption_file (join nl (pre ++ post)))
  /\ parse_caption_file (py "face") = []
  /\ parse_caption_file (py "added") = []
  /\ parse_caption_file (py "dead") = []
  /\ parse_caption_file (py "a") = []
  /\ parse_caption_file (py "We saw a" ++ nl ++ py "face" ++ nl ++ py "in the crowd")
     = py "We saw a in the crowd".
Proof.
  split; [|repeat split; vm_compute; reflexivity].
  intros line pre post Hne Hall Hnl.
  pose proof (caption_line_cue_id line Hne Hall) as Hskip.
  split; [exact Hskip|].
  unfold parse_caption_file, nl.
  rewrite (split_join 10 (pre ++ line :: post)) by (try exact Hnl; destruct pre; discriminate).
  rewrite fold_caption_step_skip by exact Hskip.
  destruct (pre ++ post) as [|l0 ls] eqn:E.
  - reflexivity.
  - rewrite split_join; [reflexivity|discriminate|].
    rewrite <- E. apply Forall_app in Hnl as [Hpre Hpost].
    apply Forall_app. split; [exact Hpre|]. inversion Hpost; assumption.
Qed.

Lemma parse_caption_file_drops_cue_id_lines_witness :
  parse_caption_file (join nl [py "Hello"; py " dead-beef "; py "world"]) =
  parse_caption_file (join nl [py "Hello"; py "world"]).
Proof.
  refine (proj2 (proj1 parse_caption_file_drops_cue_id_lines
                   (py " dead-beef ") [py "Hello"] [py "world"] _ _ _)).
  - vm_compute. discriminate.
  - vm_compute. reflexivity.
  - repeat constructor; vm_compute; intuition discriminate.
Defined.

(** ** Runs of newlines *)

Lemma match_blank_lines_go (s : list N) :
  forall lo pos,
    rep_greedy (N.eqb 10) lo None
      (fun pos' (_ : list N) (c' : caps) => Some (pos', c')) pos s [] =
    if Nat.leb lo (lead s) then Some ((pos + lead s)%nat, []) else None.
Proof.
  induction s as [|x t IH]; intros lo pos.
  - destruct lo; cbn; [rewrite Nat.add_0_r|]; reflexivity.
  - cbn [rep_greedy hi_zero hi_pred lead]. destruct (10 =? x).
    + rewrite IH. destruct lo as [|lo]; cbn [Nat.pred Nat.leb].
      * cbn [or_else]. do 2 f_equal. lia.
      * destruct (Nat.leb lo (lead t)); cbn [or_else stop_here];
          [do 2 f_equal; lia|reflexivity].
    + destruct lo; cbn; [rewrite Nat.add_0_r|]; reflexivity.
Qed.

Lemma match_blank_lines pos (s : list N) :
  match_at false re_blank_lines pos s =
  if Nat.leb 3 (lead s) then Some ((pos + lead s)%nat, []) else None.
Proof. unfold match_at, re_blank_lines. cbn [mt andb]. apply match_blank_lines_go. Qed.

Lemma sub_go_skip r repl (s : list N) :
  forall pos skip, (skip <= length s)%nat ->
  sub_go r repl pos skip s = sub_go r repl (pos + skip) O (drop skip s).
Proof.
  induction s as [|x t IH]; intros pos skip H.
  - simpl in H. replace skip with O by lia. rewrite Nat.add_0_r. reflexivity.
  - destruct skip as [|n].
    + rewrite Nat.add_0_r. reflexivity.
    + cbn [sub_go drop]. rewrite IH by (simpl in H; lia).
      replace (S pos + n)%nat with (pos + S n)%nat by lia. reflexivity.
Qed.

Lemma lead_le_length (s : list N) : (lead s <= length s)%nat.
Proof.
  induction s as [|x t IH]; cbn [lead length]; [lia|].
  destruct (10 =? x); lia.
Qed.

Lemma squeeze_2_drop (s : list N) : squeeze 2 s = squeeze 0 (drop (lead s) s).
Proof.
  induction s as [|x t IH]; [reflexivity|].
  cbn [squeeze lead]. destruct (10 =? x) eqn:E.
  - cbn [Nat.ltb Nat.leb drop]. exact IH.
  - cbn [drop squeeze]. rewrite E. reflexivity.
Qed.

Lemma squeeze_low (s : list N) :
  forall n, (n + lead s <= 2)%nat -> squeeze n s = squeeze 0 s.
Proof.
  induction s as [|x t IH]; intros n H; [reflexivity|].
  cbn [squeeze lead] in *. destruct (10 =? x) eqn:E; [|reflexivity].
  assert (Hn : Nat.ltb n 2 = true) by (apply Nat.ltb_lt; lia).
  rewrite Hn. cbn [Nat.ltb Nat.leb]. f_equal.
  rewrite (IH (S n)) by lia. rewrite (IH 1%nat) by lia. reflexivity.
Qed.

(** The last substitution of the converter caps the runs of newlines. *)
Lemma collapse_squeeze (n : nat) :
  forall (s : list N) pos, (length s <= n)%nat ->
  sub_go re_blank_lines (expand [TLit (nl ++ nl)]) pos O s = squeeze 0 s.
Proof.
  induction n as [|n IH]; intros s pos Hlen.
  - destruct s; [|simpl in Hlen; lia]. cbn [sub_go].
    rewrite match_blank_lines. reflexivity.
  - destruct s as [|x t]; [cbn [sub_go]; rewrite match_blank_lines; reflexivity|].
    simpl in Hlen. rewrite sub_go_cons, match_blank_lines.
    destruct (Nat.leb 3 (lead (x :: t))) eqn:E.
    + apply Nat.leb_le in E. cbn [lead] in E |- *.
      destruct (10 =? x) eqn:Ex; [|lia].
      replace (Nat.eqb (pos + S (lead t)) pos) with false
        by (symmetry; apply Nat.eqb_neq; lia).
      replace (pos + S (lead t) - pos - 1)%nat with (lead t) by lia.
      rewrite sub_go_skip by apply lead_le_length.
      rewrite IH by (rewrite length_drop; lia).
      destruct t as [|y t']; [simpl in E; lia|].
      cbn [lead] in E |- *. destruct (10 =? y) eqn:Ey; [|lia].
      cbn [squeeze expand flat_map nl app drop]. rewrite Ex, Ey.
      cbn [Nat.ltb Nat.leb]. rewrite squeeze_2_drop.
      apply N.eqb_eq in Ex, Ey. subst. reflexivity.
    + apply Nat.leb_gt in E. rewrite IH by lia.
      cbn [squeeze lead] in E |- *. destruct (10 =? x) eqn:Ex; [|reflexivity].
      cbn [Nat.ltb Nat.leb]. f_equal. symmetry. apply squeeze_low. lia.
Qed.

Lemma squeeze_runs_ok (s : list N) :
  forall n, (n <= 2)%nat ->
  (n + lead (squeeze n s) <= 2)%nat /\ runs_ok (squeeze n s).
Proof.
  induction s as [|x t IH]; intros n Hn; [simpl; split; [lia|exact I]|].
  cbn [squeeze]. destruct (10 =? x) eqn:E.
  - destruct (Nat.ltb n 2) eqn:En.
    + apply Nat.ltb_lt in En. destruct (IH (S n)) as [H1 H2]; [lia|].
      cbn [runs_ok lead]. rewrite E. repeat split; try lia. exact H2.
    + apply IH. exact Hn.
  - destruct (IH O) as [H1 H2]; [lia|].
    cbn [runs_ok lead]. rewrite E. repeat split; try lia. exact H2.
Qed.

Lemma runs_ok_no_match (s : list N) :
  runs_ok s -> forall pos,
  sub_go re_blank_lines (expand [TLit (nl ++ nl)]) pos O s = s.
Proof.
  induction s as [|x t IH]; intros H pos.
  - cbn [sub_go]. rewrite match_blank_lines. reflexivity.
  - destruct H as [H1 H2]. rewrite sub_go_cons, match_blank_lines.
    replace (Nat.leb 3 (lead (x :: t))) with false
      by (symmetry; apply Nat.leb_gt; exact H1).
    f_equal. apply IH. exact H2.
Qed.

Lemma runs_ok_dropwhile p (s : list N) : runs_ok s -> runs_ok (dropwhile p s).
Proof.
  induction s as [|x t IH]; intros H; [exact I|].
  simpl. destruct (p x); [apply IH, H|exact H].
Qed.

Lemma lead_app_le (a b : list N) : (lead a <= lead (a ++ b))%nat.
Proof.
  induction a as [|x a IH]; cbn [lead app]; [lia|]. destruct (10 =? x); lia.
Qed.

Lemma runs_ok_prefix (a b : list N) : runs_ok (a ++ b) -> runs_ok a.
Proof.
  induction a as [|x a IH]; intros H; [exact I|].
  destruct H as [H1 H2]. split; [|apply IH, H2].
  pose proof (lead_app_le (x :: a) b). simpl app in *. lia.
Qed.

Lemma runs_ok_strip_by p (s : list N) : runs_ok s -> runs_ok (strip_by p s).
Proof.
  intros H. unfold strip_by, lstrip_by.
  destruct (rstrip_by_prefix p (dropwhile p s)) as [d Hd].
  apply (runs_ok_prefix _ d). rewrite <- Hd. apply runs_ok_dropwhile, H.
Qed.

(** Stripping twice is stripping once. *)
Lemma dropwhile_fix p (s : list N) :
  (forall x t, s = x :: t -> p x = false) -> dropwhile p s = s.
Proof.
  destruct s as [|x t]; intros H; [reflexivity|].
  simpl. rewrite (H x t eq_refl). reflexivity.
Qed.

Lemma strip_by_idem p (s : list N) : strip_by p (strip_by p s) = strip_by p s.
Proof.
  set (u := strip_by p s).
  assert (Hh : dropwhile p u = u).
  { apply dropwhile_fix. intros x t E. exact (strip_by_head p s x t E). }
  unfold strip_by at 1, lstrip_by, rstrip_by. rewrite Hh.
  rewrite dropwhile_fix; [apply rev_involutive|].
  intros x t E. apply (strip_by_last p s (rev t) x).
  fold u. rewrite <- (rev_involutive u), E. reflexivity.
Qed.

(** ** What a pattern must read *)

Section Continuations.

Context {A : Type}.

Lemma dead_after_tail (k : cont A) x (s : list N) :
  dead_after k (x :: s) -> dead_after k s.
Proof.
  intros H pos' s' c' [l ->]. apply H. exists (x :: l). reflexivity.
Qed.

Lemma dead_after_here (k : cont A) (s : list N) pos c :
  dead_after k s -> k pos s c = None.
Proof. intros H. apply H. exists []. reflexivity. Qed.

Lemma stop_here_dead lo (k : cont A) (s : list N) pos c :
  dead_after k s -> stop_here lo k pos s c = None.
Proof. intros H. destruct lo; [apply dead_after_here, H|reflexivity]. Qed.

Lemma rep_greedy_dead p (k : cont A) (s : list N) :
  forall lo hi pos c, dead_after k s -> rep_greedy p lo hi k pos s c = None.
Proof.
  induction s as [|x s IH]; intros lo hi pos c H.
  - cbn [rep_greedy]. rewrite stop_here_dead by exact H.
    destruct (hi_zero hi); reflexivity.
  - cbn [rep_greedy]. rewrite stop_here_dead by exact H.
    rewrite IH by (eapply dead_after_tail, H).
    destruct (hi_zero hi), (p x); reflexivity.
Qed.

Lemma rep_lazy_dead p (k : cont A) (s : list N) :
  forall lo hi pos c, dead_after k s -> rep_lazy p lo hi k pos s c = None.
Proof.
  induction s as [|x s IH]; intros lo hi pos c H.
  - cbn [rep_lazy]. rewrite stop_here_dead by exact H.
    destruct (hi_zero hi); reflexivity.
  - cbn [rep_lazy]. rewrite stop_here_dead by exact H.
    rewrite IH by (eapply dead_after_tail, H).
    destruct (hi_zero hi), (p x); reflexivity.
Qed.

End Continuations.

(** A pattern fails when what follows it fails on every rest of the input. *)
Lemma mt_dead (r : regex) :
  forall A (k : cont A) pos (s : list N) c,
    dead_after k s -> mt r k pos s c = None.
Proof.
  induction r as [|p|r1 IH1 r2 IH2|r1 IH1 r2 IH2|g lo hi p|i r IH| |];
    intros A k pos s c H; cbn [mt].
  - apply dead_after_here, H.
  - destruct s as [|x s]; [reflexivity|]. destruct (p x); [|reflexivity].
    apply dead_after_here. eapply dead_after_tail, H.
  - apply IH1. intros pos' s' c' [l ->]. apply IH2.
    intros pos'' s'' c'' [l' ->]. apply H. exists (l ++ l').
    rewrite app_assoc. reflexivity.
  - rewrite IH1, IH2 by exact H. reflexivity.
  - destruct g; [apply rep_greedy_dead|apply rep_lazy_dead]; exact H.
  - apply IH. intros pos' s' c' Hs. apply H, Hs.
  - destruct (Nat.eqb pos 0); [apply dead_after_here, H|reflexivity].
  - destruct (at_eol s); [apply dead_after_here, H|reflexivity].
Qed.

Lemma mt_reads c (r : regex) :
  reads c r ->
  forall A (k : cont A) pos (s : list N) caps,
    ~ In c s -> mt r k pos s caps = None.
Proof.
  induction 1 as [|r1 r2 _ IH|r1 r2 _ IH|r1 r2 _ IH1 _ IH2|i r _ IH];
    intros A k pos s caps Hn; cbn [mt].
  - destruct s as [|x s]; [reflexivity|].
    destruct (N.eqb_spec c x) as [->|]; [|reflexivity].
    exfalso. apply Hn. left. reflexivity.
  - apply IH, Hn.
  - apply mt_dead. intros pos' s' c' [l ->]. apply IH.
    intros Hin. apply Hn, in_or_app. right. exact Hin.
  - rewrite IH1, IH2 by exact Hn. reflexivity.
  - apply IH, Hn.
Qed.

Lemma mt_starts c (r : regex) :
  starts c r ->
  forall A (k : cont A) pos (s : list N) caps,
    hd_error s <> Some c -> mt r k pos s caps = None.
Proof.
  induction 1 as [|r1 r2 _ IH|r1 r2 _ IH1 _ IH2|i r _ IH];
    intros A k pos s caps Hn; cbn [mt].
  - destruct s as [|x s]; [reflexivity|].
    destruct (N.eqb_spec c x) as [->|]; [|reflexivity].
    exfalso. apply Hn. reflexivity.
  - apply IH, Hn.
  - rewrite IH1, IH2 by exact Hn. reflexivity.
  - apply IH, Hn.
Qed.

Ltac find_read :=
  first [ apply reads_chr
        | apply reads_seq_l; find_read
        | apply reads_seq_r; find_read
        | apply reads_grp; find_read ].

Ltac find_start :=
  first [ apply starts_chr
        | apply starts_seq; find_start
        | apply starts_grp; find_start ].

(** The patterns of the converter match only where a tag starts. *)
Ltac tag_like_tac :=
  let k := fresh "k" in let pos := fresh "pos" in let s := fresh "s" in
  let c := fresh "c" in let H := fresh "H" in
  intros k pos s c H;
  assert (Hs : hd_error s = Some 60)
    by (destruct (hd_error s) as [x|] eqn:E;
        [destruct (N.eq_dec x 60) as [->|Hx]; [reflexivity|]|];
        exfalso; apply H; apply (mt_starts 60);
        [cbv; find_start|rewrite E; congruence
        |cbv; find_start|rewrite E; congruence]);
  destruct s as [|x t]; [discriminate|];
  injection Hs as ->;
  exists t; split; [reflexivity|]; split;
  [ intros Ht; destruct t as [|y t']; [discriminate|];
    injection Ht as ->; apply H; reflexivity
  | destruct (in_dec N.eq_dec 62 t) as [Hin|Hnin]; [exact Hin|];
    exfalso; apply H; apply (mt_reads 62);
    [ cbv; find_read
    | intros [E|E]; [discriminate|contradiction] ] ].

Lemma tag_like_element_h1 : tag_like (re_element "h1").
Proof. tag_like_tac. Qed.

Lemma tag_like_element_h2 : tag_like (re_element "h2").
Proof. tag_like_tac. Qed.
Lemma tag_like_element_h3 : tag_like (re_element "h3").
Proof. tag_like_tac. Qed.
Lemma tag_like_element_h4 : tag_like (re_element "h4").
Proof. tag_like_tac. Qed.
Lemma tag_like_element_strong : tag_like (re_element "strong").
Proof. tag_like_tac. Qed.
Lemma tag_like_element_b : tag_like (re_element "b").
Proof. tag_like_tac. Qed.
Lemma tag_like_element_em : tag_like (re_element "em").
Proof. tag_like_tac. Qed.
Lemma tag_like_element_i : tag_like (re_element "i").
Proof. tag_like_tac. Qed.
Lemma tag_like_element_li : tag_like (re_element "li").
Proof. tag_like_tac. Qed.
Lemma tag_like_element_p : tag_like (re_element "p").
Proof. tag_like_tac. Qed.
Lemma tag_like_link : tag_like re_link.
Proof. tag_like_tac. Qed.
Lemma tag_like_list_tag : tag_like re_list_tag.
Proof. tag_like_tac. Qed.
Lemma tag_like_br : tag_like re_br.
Proof. tag_like_tac. Qed.
Lemma tag_like_div : tag_like re_div.
Proof. tag_like_tac. Qed.
Lemma tag_like_tag : tag_like re_tag.
Proof. tag_like_tac. Qed.

Create HintDb taglike.
#[local] Hint Resolve tag_like_element_h1 tag_like_element_h2 tag_like_element_h3
  tag_like_element_h4 tag_like_element_strong tag_like_element_b
  tag_like_element_em tag_like_element_i tag_like_element_li
  tag_like_element_p tag_like_link tag_like_list_tag tag_like_br tag_like_div
  tag_like_tag : taglike.

Lemma no_tag_no_match r b pos (s : list N) :
  tag_like r -> no_tag s -> match_at b r pos s = None.
Proof.
  intros Hr Hs. destruct (match_at b r pos s) as [m|] eqn:E; [|reflexivity].
  exfalso. destruct (Hr _ pos s [] ltac:(unfold match_at in E; rewrite E; discriminate))
    as (t & -> & Hhd & Hin).
  destruct Hs as [Hs _]. destruct (Hs eq_refl) as [->|[H|H]].
  - destruct Hin.
  - contradiction.
  - contradiction.
Qed.

Lemma no_tag_tail x (s : list N) : no_tag (x :: s) -> no_tag s.
Proof. intros [_ H]. exact H. Qed.

Lemma sub_go_no_tag r repl (s : list N) :
  tag_like r -> no_tag s -> forall pos, sub_go r repl pos O s = s.
Proof.
  intros Hr. induction s as [|x t IH]; intros Hs pos.
  - cbn [sub_go]. rewrite (no_tag_no_match r false pos [] Hr Hs). reflexivity.
  - rewrite sub_go_cons, (no_tag_no_match r false pos _ Hr Hs).
    f_equal. apply IH. eapply no_tag_tail, Hs.
Qed.

Lemma re_sub_no_tag r t (s : list N) : tag_like r -> no_tag s -> re_sub r t s = s.
Proof. intros Hr Hs. apply sub_go_no_tag; assumption. Qed.

(** The first occurrence of a character. *)
Lemma in_split_first c (s : list N) :
  In c s -> exists a b, s = a ++ c :: b /\ ~ In c a.
Proof.
  induction s as [|x s IH]; intros H; [destruct H|].
  destruct (N.eq_dec x c) as [->|Hx].
  - exists [], s. split; [reflexivity|intros []].
  - destruct H as [H|H]; [contradiction|].
    destruct (IH H) as (a & b & -> & Ha). exists (x :: a), b.
    split; [reflexivity|]. intros [E|E]; [contradiction|exact (Ha E)].
Qed.

Lemma forallb_not_char c (a : list N) : ~ In c a -> forallb (not_char c) a = true.
Proof.
  induction a as [|x a IH]; intros H; [reflexivity|].
  simpl. rewrite IH by (intros E; apply H; right; exact E).
  unfold not_char. destruct (N.eqb_spec x c) as [->|]; [|reflexivity].
  exfalso. apply H. left. reflexivity.
Qed.

(** A less-than sign, one or more other characters and a greater-than sign
    make a tag. *)
Lemma re_tag_matches y (a b : list N) :
  ~ In 62 (y :: a) -> re_match re_tag (60 :: y :: a ++ 62 :: b) = true.
Proof.
  intros H. unfold re_match, match_at, re_tag.
  cbn [seqs mt lit1 plus]. rewrite N.eqb_refl.
  change (y :: a ++ 62 :: b) with ((y :: a) ++ 62 :: b).
  erewrite rep_greedy_upto; [reflexivity|apply forallb_not_char, H|reflexivity
                            |simpl; lia|reflexivity].
Qed.

Lemma tag_free_no_tag (x : list N) : tag_free x -> no_tag x.
Proof.
  induction x as [|c t IH]; intros H; [exact I|]. split.
  - intros ->. destruct t as [|y t']; [left; reflexivity|]. right.
    destruct (N.eq_dec y 62) as [->|Hy]; [left; reflexivity|]. right.
    intros Hin. destruct Hin as [E|Hin]; [congruence|].
    destruct (in_split_first 62 t' Hin) as (a & b & -> & Ha).
    specialize (H [] (60 :: y :: a ++ 62 :: b) eq_refl).
    rewrite re_tag_matches in H; [discriminate|].
    intros [E|E]; [congruence|exact (Ha E)].
  - apply IH. intros pre suf ->. apply (H (c :: pre) suf). reflexivity.
Qed.

Lemma tag_freeb_sound (x : list N) : tag_freeb x = true -> tag_free x.
Proof.
  intros H pre. revert x H. induction pre as [|c pre IH]; intros x H suf E.
  - simpl in E. subst suf. unfold tag_freeb in H.
    destruct x; cbn [tails forallb] in H; apply andb_true_iff in H as [H _];
      apply negb_true_iff in H; exact H.
  - subst x. apply (IH (pre ++ suf)); [|reflexivity].
    unfold tag_freeb in *. cbn [tails forallb app] in H.
    apply andb_true_iff in H as [_ H]. exact H.
Qed.

Lemma in_squeeze c (s : list N) : forall n, In c (squeeze n s) -> In c s.
Proof.
  induction s as [|x t IH]; intros n H; [exact H|].
  cbn [squeeze] in H. destruct (10 =? x).
  - destruct (Nat.ltb n 2).
    + destruct H as [H|H]; [left; exact H|right; eapply IH, H].
    + right. eapply IH, H.
  - destruct H as [H|H]; [left; exact H|right; eapply IH, H].
Qed.

Lemma no_tag_squeeze (s : list N) : forall n, no_tag s -> no_tag (squeeze n s).
Proof.
  induction s as [|x t IH]; intros n H; [exact I|].
  destruct H as [Hx Ht]. cbn [squeeze].
  destruct (N.eqb_spec 10 x) as [<-|Hne].
  - destruct (Nat.ltb n 2); [|apply IH, Ht].
    split; [discriminate|apply IH, Ht].
  - split; [|apply IH, Ht].
    intros E. destruct (Hx E) as [->|[H|H]].
    + left. reflexivity.
    + right. left. destruct t as [|y t']; [discriminate|].
      injection H as ->. reflexivity.
    + right. right. intros Hin. apply H. eapply in_squeeze, Hin.
Qed.

Lemma no_tag_dropwhile p (s : list N) : no_tag s -> no_tag (dropwhile p s).
Proof.
  induction s as [|x t IH]; intros H; [exact I|].
  simpl. destruct (p x); [apply IH; eapply no_tag_tail, H|exact H].
Qed.

Lemma no_tag_prefix (a b : list N) : no_tag (a ++ b) -> no_tag a.
Proof.
  induction a as [|x a IH]; intros H; [exact I|].
  destruct H as [Hx Ht]. split; [|apply IH, Ht].
  intros E. destruct (Hx E) as [H|[H|H]].
  - left. destruct a; [reflexivity|discriminate].
  - destruct a as [|y a']; [left; reflexivity|]. right. left. exact H.
  - right. right. intros Hin. apply H, in_or_app. left. exact Hin.
Qed.

Lemma no_tag_strip_by p (s : list N) : no_tag s -> no_tag (strip_by p s).
Proof.
  intros H. unfold strip_by, lstrip_by.
  destruct (rstrip_by_prefix p (dropwhile p s)) as [d Hd].
  apply (no_tag_prefix _ d). rewrite <- Hd. apply no_tag_dropwhile, H.
Qed.

Lemma mem_false c (s : list N) : ~ In c s -> mem c s = false.
Proof.
  intros H. unfold mem. apply not_true_is_false. intros E.
  apply existsb_exists in E as (y & Hy & Ey). apply N.eqb_eq in Ey. subst.
  exact (H Hy).
Qed.

Lemma in_strip_by c p (s : list N) : In c (strip_by p s) -> In c s.
Proof.
  assert (Hd : forall l : list N, In c (dropwhile p l) -> In c l).
  { induction l as [|y l IH]; simpl; [tauto|].
    destruct (p y); [intros H; right; exact (IH H)|tauto]. }
  unfold strip_by, rstrip_by, lstrip_by. intros H.
  apply Hd. apply List.in_rev. apply Hd. apply List.in_rev in H. exact H.
Qed.

(** ** HTML-to-markdown converter *)

Example html_ex1 :
  html_to_markdown Html.html5_basic
    (py "<h1 class=x>Title</h1><p>Some <b>bold</b> &amp; <a href=" ++ [34] ++ py "u" ++ [34] ++ py ">link</a></p><ul><li>one</li></ul>")
  = py "# Title" ++ [10] ++ py "Some **bold** & [link](u)" ++ [10;10] ++ py "- one".
Proof. vm_compute. reflexivity. Qed.

(** On text without tags and without ampersands the converter only caps the
    runs of newlines and strips the ends. *)
Lemma html_to_markdown_plain html5 (x : list N) :
  no_tag x -> ~ In 38 x ->
  html_to_markdown html5 x = if is_empty x then [] else strip (squeeze 0 x).
Proof.
  intros Ht Ha. unfold html_to_markdown.
  destruct (is_empty x); [reflexivity|]. cbv zeta.
  rewrite (re_sub_no_tag (re_element "h1")) by auto with taglike.
  rewrite (re_sub_no_tag (re_element "h2")) by auto with taglike.
  rewrite (re_sub_no_tag (re_element "h3")) by auto with taglike.
  rewrite (re_sub_no_tag (re_element "h4")) by auto with taglike.
  rewrite (re_sub_no_tag (re_element "strong")) by auto with taglike.
  rewrite (re_sub_no_tag (re_element "b")) by auto with taglike.
  rewrite (re_sub_no_tag (re_element "em")) by auto with taglike.
  rewrite (re_sub_no_tag (re_element "i")) by auto with taglike.
  rewrite (re_sub_no_tag re_link) by auto with taglike.
  rewrite (re_sub_no_tag (re_element "li")) by auto with taglike.
  rewrite (re_sub_no_tag re_list_tag) by auto with taglike.
  rewrite (re_sub_no_tag (re_element "p")) by auto with taglike.
  rewrite (re_sub_no_tag re_br) by auto with taglike.
  rewrite (re_sub_no_tag re_div) by auto with taglike.
  rewrite (re_sub_no_tag re_tag) by auto with taglike.
  unfold Html.unescape. rewrite (mem_false 38 x Ha).
  unfold re_sub. rewrite (collapse_squeeze (length x)) by lia. reflexivity.
Qed.

Lemma squeeze_fix (s : list N) : runs_ok s -> squeeze 0 s = s.
Proof.
  intros H. rewrite <- (collapse_squeeze (length s) s O) by lia.
  apply runs_ok_no_match, H.
Qed.

(** C8, as the code has it: the converter maps the empty string to the empty
    string, and it is idempotent on every text that holds no tag (no match
    of the tag pattern) and no ampersand. *)
Theorem html_to_markdown_idempotent_on_plain_text html5 :
  html_to_markdown html5 [] = [] /\
  forall x, tag_free x -> ~ In 38 x ->
    html_to_markdown html5 (html_to_markdown html5 x) = html_to_markdown html5 x.
Proof.
  split; [reflexivity|]. intros x Hfree Hamp.
  pose proof (tag_free_no_tag x Hfree) as Ht.
  rewrite (html_to_markdown_plain html5 x Ht Hamp).
  destruct (is_empty x); [reflexivity|].
  set (y := strip (squeeze 0 x)).
  assert (Hy1 : no_tag y) by (apply no_tag_strip_by, no_tag_squeeze, Ht).
  assert (Hy2 : ~ In 38 y).
  { intros H. apply Hamp. eapply in_squeeze, in_strip_by, H. }
  rewrite (html_to_markdown_plain html5 y Hy1 Hy2).
  destruct (is_empty y) eqn:E; [destruct y; [reflexivity|discriminate]|].
  assert (Hy3 : runs_ok y).
  { apply runs_ok_strip_by. apply (squeeze_runs_ok x O). lia. }
  rewrite (squeeze_fix y Hy3). apply strip_by_idem.
Qed.

Lemma html_to_markdown_idempotent_on_plain_text_witness :
  html_to_markdown Html.html5_basic
    (html_to_markdown Html.html5_basic (py "a < b" ++ [10;10;10;10] ++ py "c "))
  = html_to_markdown Html.html5_basic (py "a < b" ++ [10;10;10;10] ++ py "c ").
Proof.
  apply (proj2 (html_to_markdown_idempotent_on_plain_text Html.html5_basic)).
  - apply tag_freeb_sound. vm_compute. reflexivity.
  - vm_compute. intuition discriminate.
Defined.

(** Character references are decoded once more at each pass: the converter
    is not idempotent on tag-free text that holds them. *)
Lemma html_to_markdown_not_idempotent_on_references :
  tag_free (py "&amp;amp;") /\
  html_to_markdown Html.html5_basic (py "&amp;amp;") = py "&amp;" /\
  html_to_markdown Html.html5_basic
    (html_to_markdown Html.html5_basic (py "&amp;amp;")) = py "&" /\
  html_to_markdown Html.html5_basic
    (html_to_markdown Html.html5_basic (py "&amp;amp;"))
  <> html_to_markdown Html.html5_basic (py "&amp;amp;").
Proof.
  split; [|repeat split; try (vm_compute; reflexivity); vm_compute; discriminate].
  apply tag_freeb_sound. vm_compute. reflexivity.
Qed.

(** ** Submission state machine *)

Lemma eq_str_true (j : json) (s : list N) : eq_str j s = true <-> j = JStr s.
Proof.
  destruct j; simpl; try (split; [discriminate|intros [=]]).
  unfold str_eqb. rewrite bool_decide_eq_true. split; congruence.
Qed.

Lemma humanized_cache_name_final :
  humanized_cache_name (py "final_humanized.md") = py "ai_check_final_humanized.json".
Proof. vm_compute. reflexivity. Qed.

Section Scenarios.

Variable json_load : list N -> option json.

(** The status when [final.md] is there: read off the two scores. *)
Lemma status_with_final files :
  exists_in files (py "final.md") = true ->
  status_of (get_submission_status json_load (Dir files)) =
  match main_score json_load files with
  | None => Ok final_ready
  | Some a =>
      match humanized_score_of json_load (exists_in files (py "ai_check.json")) files
              [py "final_humanized.md"; py "draft_humanized.md"] with
      | Some h => by_score h
      | None => by_score a
      end
  end.
Proof.
  intros H. unfold get_submission_status, main_score. rewrite H. cbn [negb].
  destruct (files !! py "ai_check.json") as [e|]; [|reflexivity].
  destruct (read_score json_load e) as [a|]; [|reflexivity].
  destruct (humanized_score_of _ _ _ _) as [h|].
  - unfold status_of. destruct (by_score h); reflexivity.
  - unfold status_of. destruct (by_score a); reflexivity.
Qed.

End Scenarios.

(** ** The scores the state machine reads *)

Lemma is_none_true (j : json) : is_none j = true <-> j = JNull.
Proof. destruct j; cbn; split; congruence. Qed.

(** The loop over the services finds the first score that is not null. *)
Lemma first_score_spec (services : list (list N * json)) (score : json) :
  first_score services = Some score <->
  exists before name data after,
    services = before ++ (name, JDict data) :: after
    /\ Forall scoreless before
    /\ get (py "score") data = score
    /\ score <> JNull.
Proof.
  split.
  - induction services as [|[name d] rest IH]; [discriminate|].
    cbn [first_score]. destruct d as [| | | | |data]; try discriminate.
    destruct (is_none (get (py "score") data)) eqn:E.
    + intros H. destruct (IH H) as (before & n & dt & after & -> & Hb & Hs & Hn).
      exists ((name, JDict data) :: before), n, dt, after.
      split; [reflexivity|]. split; [|split; assumption].
      constructor; [|exact Hb]. exists data.
      split; [reflexivity|apply is_none_true, E].
    + intros [= <-]. exists [], name, data, rest.
      split; [reflexivity|]. split; [constructor|]. split; [reflexivity|].
      intros H. apply is_none_true in H. congruence.
  - intros (before & name & data & after & -> & Hb & Hs & Hn).
    induction Hb as [|[n d] before (dt & Hd & Hnull) Hb IH].
    + cbn [app first_score]. rewrite Hs.
      destruct (is_none score) eqn:E; [apply is_none_true in E; contradiction|].
      reflexivity.
    + cbn [snd] in Hd. subst d. cbn [app first_score].
      rewrite Hnull. cbn [is_none]. exact IH.
Qed.

Lemma cached_score_spec (doc score : json) :
  cached_score doc = Some score <-> first_service_score doc score.
Proof.
  unfold first_service_score. split.
  - unfold cached_score. destruct doc as [| | | | |kvs]; try discriminate.
    destruct (get_or (py "services") (JDict []) kvs) as [| | | | |services] eqn:E;
      try discriminate.
    intros H. apply first_score_spec in H.
    destruct H as (before & name & data & after & H).
    exists kvs, services, before, name, data, after.
    split; [reflexivity|]. split; [exact E|exact H].
  - intros (kvs & services & before & name & data & after & -> & E & H).
    unfold cached_score. rewrite E. apply first_score_spec.
    exists before, name, data, after. exact H.
Qed.

Lemma main_score_spec (json_load : list N -> option json)
    (files : gmap (list N) entry) (score : json) :
  main_score json_load files = Some score <-> main_score_is json_load files score.
Proof.
  unfold main_score, main_score_is, read_score, read_json. split.
  - destruct (files !! py "ai_check.json") as [[text|]|]; try discriminate.
    destruct (json_load text) as [doc|] eqn:E; [|discriminate].
    intros H. exists text, doc. split; [reflexivity|]. split; [exact E|].
    apply cached_score_spec, H.
  - intros (text & doc & -> & -> & H). apply cached_score_spec, H.
Qed.

Lemma humanized_score_spec (json_load : list N -> option json)
    (files : gmap (list N) entry) (score : json) :
  humanized_score_of json_load true files
    [py "final_humanized.md"; py "draft_humanized.md"] = Some score
  <-> humanized_score_is json_load files score.
Proof.
  unfold humanized_score_is. cbn [humanized_score_of].
  rewrite humanized_cache_name_final.
  change (humanized_cache_name (py "draft_humanized.md"))
    with (py "ai_check_draft_humanized.json").
  assert (Hread : forall name,
             match files !! name with
             | Some e => read_score json_load e
             | None => None
             end = Some score <->
             exists text doc,
               files !! name = Some (File text) /\ json_load text = Some doc
               /\ first_service_score doc score).
  { intros name. unfold read_score, read_json. split.
    - destruct (files !! name) as [[text|]|]; try discriminate.
      destruct (json_load text) as [doc|] eqn:E; [|discriminate].
      intros H. exists text, doc. split; [reflexivity|]. split; [exact E|].
      apply cached_score_spec, H.
    - intros (text & doc & -> & -> & H). apply cached_score_spec, H. }
  destruct (exists_in files (py "final_humanized.md")) eqn:E1.
  - rewrite Hread. split.
    + intros (text & doc & H). exists (py "ai_check_final_humanized.json"), text, doc.
      split; [left; split; reflexivity|exact H].
    + intros (n & text & doc & [[_ ->]|[H _]] & H'); [|discriminate].
      exists text, doc. exact H'.
  - destruct (exists_in files (py "draft_humanized.md")) eqn:E2.
    + rewrite Hread. split.
      * intros (text & doc & H). exists (py "ai_check_draft_humanized.json"), text, doc.
        split; [right; repeat split; reflexivity|exact H].
      * intros (n & text & doc & [[H _]|(_ & _ & ->)] & H'); [discriminate|].
        exists text, doc. exact H'.
    + split; [discriminate|].
      intros (n & text & doc & [[H _]|(_ & H & _)] & _); discriminate.
Qed.

Lemma main_score_is_cache (json_load : list N -> option json)
    (files : gmap (list N) entry) (score : json) :
  main_score_is json_load files score -> exists_in files (py "ai_check.json") = true.
Proof. intros (text & doc & H & _). unfold exists_in. rewrite H. reflexivity. Qed.

(** The state with [final.md] and a main score: by the humanized score when
    one is read, by the main score otherwise. *)
Lemma status_by_humanized (json_load : list N -> option json)
    (files : gmap (list N) entry) (score h : json) :
  exists_in files (py "final.md") = true ->
  main_score_is json_load files score ->
  humanized_score_is json_load files h ->
  get_submission_status json_load (Dir files) =
  do st <- by_score h;
  Ok (st, Some (listing files),
      Some {| ai_score := Some score; humanized_score := Some h |}).
Proof.
  intros Hf Hm Hh. unfold get_submission_status. rewrite Hf. cbn [negb].
  rewrite (main_score_is_cache _ _ _ Hm).
  apply main_score_spec in Hm. unfold main_score in Hm. rewrite Hm.
  apply humanized_score_spec in Hh. rewrite Hh. reflexivity.
Qed.

Lemma status_by_main (json_load : list N -> option json)
    (files : gmap (list N) entry) (score : json) :
  exists_in files (py "final.md") = true ->
  main_score_is json_load files score ->
  (forall h, ~ humanized_score_is json_load files h) ->
  get_submission_status json_load (Dir files) =
  do st <- by_score score;
  Ok (st, Some (listing files),
      Some {| ai_score := Some score; humanized_score := None |}).
Proof.
  intros Hf Hm Hh. unfold get_submission_status. rewrite Hf. cbn [negb].
  rewrite (main_score_is_cache _ _ _ Hm).
  apply main_score_spec in Hm. unfold main_score in Hm. rewrite Hm.
  destruct (humanized_score_of json_load true files _) as [h|] eqn:E; [|reflexivity].
  apply humanized_score_spec in E. destruct (Hh h E).
Qed.

Lemma number_lt_below (n : number) (bound : Z) :
  number_lt n bound = true <-> below n bound.
Proof.
  destruct n as [z|q| |negative]; cbn [number_lt below].
  - apply Z.ltb_lt.
  - rewrite negb_true_iff. split.
    + intros H. apply Qnot_le_lt. intros Hle.
      apply Qle_bool_iff in Hle. congruence.
    + intros H. destruct (Qle_bool (inject_Z bound) q) eqn:E; [|reflexivity].
      apply Qle_bool_iff in E. exfalso. exact (Qlt_not_le _ _ H E).
  - split; [discriminate|intros []].
  - tauto.
Qed.

(** The comparison with the threshold, for a score that is a number. *)
Lemma by_score_number (n : number) :
  (below n 30 -> by_score (JNum n) = Ok ready_to_submit)
  /\ (~ below n 30 -> by_score (JNum n) = Ok ai_high).
Proof.
  unfold by_score. cbn [lt_int bind].
  destruct (number_lt n 30) eqn:E.
  - apply number_lt_below in E. split; [reflexivity|contradiction].
  - split; [|reflexivity]. intros H. apply number_lt_below in H. congruence.
Qed.

Lemma status_of_bind {B C} (r : result status) (b : B) (c : C) :
  status_of (do st <- r; Ok (st, b, c)) = r.
Proof. destruct r; reflexivity. Qed.

Lemma by_score_45 score : int_or_float 45 score -> by_score score = Ok ai_high.
Proof. intros [->| ->]; reflexivity. Qed.

Lemma by_score_15 score : int_or_float 15 score -> by_score score = Ok ready_to_submit.
Proof. intros [->| ->]; reflexivity. Qed.

Lemma by_score_10 score : int_or_float 10 score -> by_score score = Ok ready_to_submit.
Proof. intros [->| ->]; reflexivity. Qed.

(** ** The example caches *)

Lemma detection_cache_score (hash : string) (score : json) :
  score <> JNull -> first_service_score (detection_cache hash score) score.
Proof.
  intros H. unfold first_service_score, detection_cache.
  eexists _, _, [], _, _, [].
  split; [reflexivity|]. split; [reflexivity|]. split; [reflexivity|].
  split; [constructor|]. split; [reflexivity|exact H].
Qed.

Lemma humanized_cache_score (score : json) :
  score <> JNull -> first_service_score (humanized_cache score) score.
Proof.
  intros H. unfold first_service_score, humanized_cache.
  eexists _, _, [], _, _, [].
  split; [reflexivity|]. split; [reflexivity|]. split; [reflexivity|].
  split; [constructor|]. split; [reflexivity|exact H].
Qed.

Lemma main_score_is_intro (json_load : list N -> option json)
    (files : gmap (list N) entry) (text : list N) (doc score : json) :
  files !! py "ai_check.json" = Some (File text) ->
  json_load text = Some doc ->
  first_service_score doc score ->
  main_score_is json_load files score.
Proof. intros H1 H2 H3. exists text, doc. auto. Qed.

Lemma humanized_final_score_intro (json_load : list N -> option json)
    (files : gmap (list N) entry) (text : list N) (doc score : json) :
  exists_in files (py "final_humanized.md") = true ->
  files !! py "ai_check_final_humanized.json" = Some (File text) ->
  json_load text = Some doc ->
  first_service_score doc score ->
  humanized_score_is json_load files score.
Proof.
  intros H0 H1 H2 H3. exists (py "ai_check_final_humanized.json"), text, doc.
  split; [left; split; [exact H0|reflexivity]|]. auto.
Qed.

(** Without a humanized file no humanized score is read. *)
Lemma no_humanized_files (json_load : list N -> option json)
    (files : gmap (list N) entry) :
  files !! py "final_humanized.md" = None ->
  files !! py "draft_humanized.md" = None ->
  forall h, ~ humanized_score_is json_load files h.
Proof.
  intros H1 H2 h (n & text & doc & [[H _]|(_ & H & _)] & _);
    unfold exists_in in H; [rewrite H1 in H|rewrite H2 in H]; discriminate H.
Qed.

(** The main score of the example directory [dir_scored]. *)
Lemma dir_scored_main (text : list N) (score : json) :
  cache_load (detection_text md5_final_text text)
  = Some (detection_cache md5_final_text score) ->
  score <> JNull ->
  main_score_is cache_load (dir_scored text) score.
Proof.
  intros Hl Hs.
  apply (main_score_is_intro _ _ (detection_text md5_final_text text)
           (detection_cache md5_final_text score)).
  - unfold dir_scored. rewrite lookup_insert_ne by (vm_compute; discriminate).
    apply lookup_singleton_eq.
  - exact Hl.
  - apply detection_cache_score, Hs.
Qed.

Lemma dir_scored_no_humanized (text : list N) :
  forall h, ~ humanized_score_is cache_load (dir_scored text) h.
Proof.
  apply no_humanized_files; unfold dir_scored;
    (rewrite lookup_insert_ne by (vm_compute; discriminate));
    apply lookup_singleton_ne; vm_compute; discriminate.
Qed.

Lemma dir_scored_final (text : list N) :
  exists_in (dir_scored text) (py "final.md") = true.
Proof.
  unfold exists_in, dir_scored. rewrite lookup_insert_eq. reflexivity.
Qed.

(** C1: the literal scenarios of the state machine.  An empty directory is
    not started; a directory with [draft.md] and no [final.md] is a draft in
    progress; [final.md] without a cache file is final and ready for the
    check; [final.md] with a cached score of 45 and no humanized score is
    high; the same with [final_humanized.md] whose own cache holds 15 is ready
    to submit; [final.md] with a cached score of 10 and no humanized score is
    ready to submit.  The cached score is the first score of the services of
    the cache document that is not null, whatever else the document holds;
    45, 15 and 10 may be written as integers or as floats. *)
Theorem get_submission_status_scenarios (json_load : list N -> option json) :
  get_submission_status json_load (Dir ∅) = Ok (not_started, None, None)
  /\ (forall text,
        get_submission_status json_load (Dir {[ py "draft.md" := File text ]})
        = Ok (draft_in_progress, Some [py "draft.md"], None))
  /\ (forall files,
        exists_in files (py "final.md") = true ->
        files !! py "ai_check.json" = None ->
        status_of (get_submission_status json_load (Dir files)) = Ok final_ready)
  /\ (forall files score,
        exists_in files (py "final.md") = true ->
        main_score_is json_load files score ->
        (forall h, ~ humanized_score_is json_load files h) ->
        (int_or_float 45 score ->
         status_of (get_submission_status json_load (Dir files)) = Ok ai_high) /\
        (int_or_float 10 score ->
         status_of (get_submission_status json_load (Dir files)) = Ok ready_to_submit))
  /\ (forall files score hscore,
        exists_in files (py "final.md") = true ->
        main_score_is json_load files score ->
        int_or_float 45 score ->
        exists_in files (py "final_humanized.md") = true ->
        humanized_score_is json_load files hscore ->
        int_or_float 15 hscore ->
        status_of (get_submission_status json_load (Dir files)) = Ok ready_to_submit).
Proof.
  split; [reflexivity|]. split.
  { intros text. unfold get_submission_status, exists_in, listing.
    rewrite lookup_singleton_ne by (vm_compute; discriminate).
    rewrite lookup_singleton_eq. rewrite map_to_list_singleton. reflexivity. }
  split.
  { intros files Hf Hc. rewrite status_with_final by exact Hf.
    unfold main_score. rewrite Hc. reflexivity. }
  split.
  { intros files score Hf Hm Hh.
    rewrite (status_by_main _ _ _ Hf Hm Hh), status_of_bind.
    split; intros Hs; [apply by_score_45|apply by_score_10]; exact Hs. }
  intros files score hscore Hf Hm Hs Hfh Hh Hhs.
  rewrite (status_by_humanized _ _ _ _ Hf Hm Hh), status_of_bind.
  apply by_score_15, Hhs.
Qed.

Lemma get_submission_status_scenarios_witness :
  status_of (get_submission_status cache_load
               (Dir {[ py "final.md" := File (py "final text") ]})) = Ok final_ready
  /\ status_of (get_submission_status cache_load (Dir (dir_scored (py "45.0"))))
     = Ok ai_high
  /\ status_of (get_submission_status cache_load (Dir (dir_scored (py "10.0"))))
     = Ok ready_to_submit
  /\ status_of (get_submission_status cache_load
                  (Dir (dir_scored_humanized (py "45.0") (py "15.0"))))
     = Ok ready_to_submit.
Proof.
  pose proof (get_submission_status_scenarios cache_load) as (_ & _ & H3 & H4 & H5).
  split; [apply H3; vm_compute; reflexivity|].
  split.
  { apply (H4 (dir_scored (py "45.0")) (float_of 45)).
    - apply dir_scored_final.
    - apply dir_scored_main; [vm_compute; reflexivity|discriminate].
    - apply dir_scored_no_humanized.
    - right. reflexivity. }
  split.
  { apply (H4 (dir_scored (py "10.0")) (float_of 10)).
    - apply dir_scored_final.
    - apply dir_scored_main; [vm_compute; reflexivity|discriminate].
    - apply dir_scored_no_humanized.
    - right. reflexivity. }
  apply (H5 (dir_scored_humanized (py "45.0") (py "15.0")) (float_of 45) (float_of 15)).
  - vm_compute. reflexivity.
  - apply (main_score_is_intro _ _ (detection_text md5_final_text (py "45.0"))
             (detection_cache md5_final_text (float_of 45)));
      [vm_compute; reflexivity..|apply detection_cache_score; discriminate].
  - right. reflexivity.
  - vm_compute. reflexivity.
  - apply (humanized_final_score_intro _ _ (humanized_text (py "15.0"))
             (humanized_cache (float_of 15)));
      [vm_compute; reflexivity..|apply humanized_cache_score; discriminate].
  - right. reflexivity.
Defined.

(** The status is [final_ready] only through the missing score. *)
Lemma by_score_not_final_ready score : by_score score <> Ok final_ready.
Proof.
  unfold by_score. destruct (lt_int score 30) as [[|]|]; simpl; discriminate.
Qed.

(** Writing [final.md] anew changes neither of the scores read. *)
Lemma main_score_insert_final (json_load : list N -> option json)
    (files : gmap (list N) entry) (e : entry) :
  main_score json_load (<[ py "final.md" := e ]> files) = main_score json_load files.
Proof.
  unfold main_score. rewrite lookup_insert_ne by (vm_compute; discriminate).
  reflexivity.
Qed.

Lemma exists_in_insert_ne (files : gmap (list N) entry) (k k' : list N) (e : entry) :
  k <> k' -> exists_in (<[ k := e ]> files) k' = exists_in files k'.
Proof. intros H. unfold exists_in. rewrite lookup_insert_ne by exact H. reflexivity. Qed.

Lemma humanized_score_insert_final (json_load : list N -> option json)
    (files : gmap (list N) entry) (e : entry) :
  humanized_score_of json_load
    (exists_in (<[ py "final.md" := e ]> files) (py "ai_check.json"))
    (<[ py "final.md" := e ]> files)
    [py "final_humanized.md"; py "draft_humanized.md"]
  = humanized_score_of json_load (exists_in files (py "ai_check.json")) files
      [py "final_humanized.md"; py "draft_humanized.md"].
Proof.
  cbn [humanized_score_of].
  rewrite humanized_cache_name_final.
  change (humanized_cache_name (py "draft_humanized.md"))
    with (py "ai_check_draft_humanized.json").
  repeat rewrite exists_in_insert_ne by (vm_compute; discriminate).
  repeat rewrite lookup_insert_ne by (vm_compute; discriminate).
  reflexivity.
Qed.

(** C4, as the code has it: with [final.md] in the directory the state machine
    reads the main score, which is the first score of the services of the
    document in [ai_check.json] that is not null.  The state is [final_ready]
    exactly when no such score can be read.  No hash is compared with
    [final.md]: the state is the same for every content of [final.md],
    readable or not.  With a main score that is a number and no humanized
    score the state is derived from the score: [ready_to_submit] below 30,
    [ai_high] otherwise. *)
Theorem final_ready_iff_no_cached_score (json_load : list N -> option json)
    (files : gmap (list N) entry) :
  exists_in files (py "final.md") = true ->
  (status_of (get_submission_status json_load (Dir files)) = Ok final_ready
   <-> ~ exists score, main_score_is json_load files score)
  /\ (forall e : entry,
        status_of (get_submission_status json_load
                     (Dir (<[ py "final.md" := e ]> files)))
        = status_of (get_submission_status json_load (Dir files)))
  /\ (forall n : number,
        main_score_is json_load files (JNum n) ->
        (forall h, ~ humanized_score_is json_load files h) ->
        (below n 30 ->
         status_of (get_submission_status json_load (Dir files))
         = Ok ready_to_submit)
        /\ (~ below n 30 ->
            status_of (get_submission_status json_load (Dir files)) = Ok ai_high)).
Proof.
  intros Hf. split; [|split].
  - rewrite status_with_final by exact Hf.
    destruct (main_score json_load files) as [a|] eqn:E.
    + split.
      * intros H. exfalso.
        destruct (humanized_score_of _ _ _ _) as [h|];
          eapply by_score_not_final_ready, H.
      * intros H. destruct H. exists a. apply main_score_spec, E.
    + split; [|reflexivity]. intros _ (score & H).
      apply main_score_spec in H. congruence.
  - intros e.
    rewrite (status_with_final json_load (<[ py "final.md" := e ]> files))
      by (unfold exists_in; rewrite lookup_insert_eq; reflexivity).
    rewrite status_with_final by exact Hf.
    rewrite main_score_insert_final, humanized_score_insert_final. reflexivity.
  - intros n Hm Hh.
    rewrite (status_by_main _ _ _ Hf Hm Hh), status_of_bind.
    apply by_score_number.
Qed.

Lemma dir_stale_main :
  main_score_is cache_load dir_stale (float_of 45).
Proof.
  apply (main_score_is_intro _ _ (detection_text md5_old_text (py "45.0"))
           (detection_cache md5_old_text (float_of 45)));
    [vm_compute; reflexivity..|apply detection_cache_score; discriminate].
Qed.

Lemma final_ready_iff_no_cached_score_witness :
  get_text_hash (py "new text") <> Ok (py md5_old_text)
  /\ status_of (get_submission_status cache_load (Dir dir_stale)) = Ok ai_high.
Proof.
  split; [vm_compute; discriminate|].
  assert (Hf : exists_in dir_stale (py "final.md") = true) by (vm_compute; reflexivity).
  refine (proj2 (proj2 (proj2 (final_ready_iff_no_cached_score cache_load dir_stale Hf))
                   (NFloat (inject_Z 45)) dir_stale_main _) _).
  - apply no_humanized_files; vm_compute; reflexivity.
  - unfold below, Qlt. cbn. lia.
Defined.

(** The cache of [dir_final_edited] records the hash of an older text of
    [final.md]; the state is still the one of the recorded score. *)
Lemma stale_cache_still_scored :
  file_changed sample_load dir_final_edited (py "final.md") /\
  needs_recheck sample_load dir_final_edited = Ok true /\
  status_of (get_submission_status sample_load dir_final_edited) = Ok ai_high /\
  status_of (get_submission_status sample_load dir_final_edited) <> Ok final_ready.
Proof.
  split; [|repeat split; try (vm_compute; reflexivity); vm_compute; discriminate].
  exists (py "new text"), (py "f39092e2b663fef60bc0097fe914066e"),
    (JStr (py md5_old_text)).
  repeat split; try (vm_compute; reflexivity). vm_compute. discriminate.
Qed.

(** ** Detection cache *)

Section Recheck.

Variable json_load : list N -> option json.

Lemma check_file_step cached d name rest :
  check_files cached d (name :: rest) =
  match lookup_path d name with
  | None => check_files cached d rest
  | Some Unreadable => Raise OSError
  | Some (File text) =>
      do current_hash <- get_text_hash text;
      do cached_hash <- stored_hash cached name;
      if negb (eq_str cached_hash current_hash) then Ok true
      else check_files cached d rest
  end.
Proof. reflexivity. Qed.

(** What the loop over the two files returns, when it returns. *)
Lemma check_files_spec d names b :
  check_files (load_cached_results json_load d) d names = Ok b ->
  (b = true <-> exists name, In name names /\ file_changed json_load d name).
Proof.
  induction names as [|name rest IH]; intros H.
  - injection H as <-. split; [discriminate|intros (? & [] & _)].
  - rewrite check_file_step in H.
    destruct (lookup_path d name) as [[text|]|] eqn:El; [| discriminate |].
    + destruct (get_text_hash text) as [h|] eqn:Eh; [|discriminate].
      cbn [bind] in H.
      destruct (stored_hash (load_cached_results json_load d) name)
        as [stored|] eqn:Es; [|discriminate].
      cbn [bind] in H. destruct (eq_str stored h) eqn:Ee; cbn [negb] in H.
      * apply eq_str_true in Ee. specialize (IH H). rewrite IH.
        split; intros (n & Hin & Hc).
        -- exists n. split; [right; exact Hin|exact Hc].
        -- destruct Hin as [<-|Hin]; [|exists n; split; assumption].
           exfalso. destruct Hc as (text' & h' & stored' & H1 & H2 & H3 & H4).
           rewrite El in H1. injection H1 as <-.
           rewrite Eh in H2. injection H2 as <-.
           rewrite Es in H3. injection H3 as <-. contradiction.
      * injection H as <-. split; [intros _|reflexivity].
        exists name. split; [left; reflexivity|].
        exists text, h, stored. repeat split; try assumption.
        intros ->. simpl in Ee. unfold str_eqb in Ee.
        rewrite bool_decide_eq_false in Ee. contradiction.
    + specialize (IH H). rewrite IH.
      split; intros (n & Hin & Hc).
      * exists n. split; [right; exact Hin|exact Hc].
      * destruct Hin as [<-|Hin]; [|exists n; split; assumption].
        destruct Hc as (text' & ? & ? & H1 & _). congruence.
Qed.

End Recheck.

(** X28.  What [needs_recheck] computes: true when no cache can be loaded (no file,
    a file that does not load, an empty document), and otherwise exactly when
    one of [draft.md] and [final.md] is there with a recorded hash that is
    not the hash of its text: each of the two files is compared, not only
    the one that is active.  It returns on every directory whose cache is a
    dict with a dict of hashes and whose two files are text. *)
Lemma needs_recheck_compares_both_files (json_load : list N -> option json)
    (d : dir_state) :
  (truthy (load_cached_results json_load d) = false ->
   needs_recheck json_load d = Ok true)
  /\ (forall b,
        truthy (load_cached_results json_load d) = true ->
        needs_recheck json_load d = Ok b ->
        (b = true <->
         file_changed json_load d (py "draft.md") \/
         file_changed json_load d (py "final.md")))
  /\ (forall kvs hashes,
        load_cached_results json_load d = JDict kvs ->
        get_or (py "file_hashes") (JDict []) kvs = JDict hashes ->
        lookup_path d (py "draft.md") <> Some Unreadable ->
        lookup_path d (py "final.md") <> Some Unreadable ->
        (forall name text, lookup_path d name = Some (File text) ->
                           encode text <> None) ->
        exists b, needs_recheck json_load d = Ok b).
Proof.
  split; [|split].
  - intros H. unfold needs_recheck. rewrite H. reflexivity.
  - intros b Ht H. unfold needs_recheck in H. rewrite Ht in H. cbn [negb] in H.
    rewrite (check_files_spec json_load d _ b H). split.
    + intros (n & [<-|[<-|[]]] & Hc); [left|right]; exact Hc.
    + intros [Hc|Hc]; [exists (py "draft.md")|exists (py "final.md")];
        (split; [|exact Hc]); [left|right; left]; reflexivity.
  - intros kvs hashes Hc Hh Hd Hf Henc. unfold needs_recheck.
    destruct (negb (truthy _)); [eexists; reflexivity|].
    assert (Hstep : forall name rest,
               lookup_path d name <> Some Unreadable ->
               (exists b, check_files (load_cached_results json_load d) d rest = Ok b) ->
               exists b, check_files (load_cached_results json_load d) d (name :: rest) = Ok b).
    { intros name rest Hn Hrest. rewrite check_file_step.
      destruct (lookup_path d name) as [[text|]|] eqn:El; [|congruence|exact Hrest].
      unfold get_text_hash. specialize (Henc name text El).
      destruct (encode text); [|congruence]. cbn [bind].
      assert (Es : stored_hash (load_cached_results json_load d) name
                   = Ok (get name hashes))
        by (unfold stored_hash; rewrite Hc, Hh; reflexivity).
      rewrite Es. cbn [bind].
      destruct (negb _); [eexists; reflexivity|exact Hrest]. }
    apply Hstep; [exact Hd|]. apply Hstep; [exact Hf|]. eexists. reflexivity.
Qed.

Lemma needs_recheck_fresh_example :
  needs_recheck sample_load (Dir (dir_checked "45")) = Ok false /\
  ~ (file_changed sample_load (Dir (dir_checked "45")) (py "draft.md") \/
     file_changed sample_load (Dir (dir_checked "45")) (py "final.md")).
Proof.
  assert (H : needs_recheck sample_load (Dir (dir_checked "45")) = Ok false)
    by (vm_compute; reflexivity).
  split; [exact H|].
  intros Hc.
  apply (proj1 (proj2 (needs_recheck_compares_both_files sample_load
                         (Dir (dir_checked "45"))))
           false ltac:(vm_compute; reflexivity) H) in Hc.
  discriminate.
Defined.

(** On [dir_draft_edited] the active source file [final.md] is unchanged and
    the cache file is there, so the rule stated on the active file alone says
    the cache is fresh; [needs_recheck] returns true, for [draft.md]. *)
Lemma needs_recheck_sees_draft_change :
  needs_recheck sample_load dir_draft_edited = Ok true /\
  active_source dir_draft_edited = py "final.md" /\
  ~ stale_by_active_file sample_load dir_draft_edited /\
  ~ (needs_recheck sample_load dir_draft_edited = Ok true <->
     stale_by_active_file sample_load dir_draft_edited).
Proof.
  assert (H1 : needs_recheck sample_load dir_draft_edited = Ok true)
    by (vm_compute; reflexivity).
  assert (H2 : ~ stale_by_active_file sample_load dir_draft_edited).
  { intros [H|(text & h & stored & Hl & Hh & Hs & Hne)].
    - vm_compute in H. discriminate.
    - change (active_source dir_draft_edited) with (py "final.md") in Hl, Hs.
      assert (El : lookup_path dir_draft_edited (py "final.md")
                   = Some (File (py "final text"))) by (vm_compute; reflexivity).
      rewrite El in Hl. injection Hl as <-.
      assert (Eh : get_text_hash (py "final text") = Ok (py md5_final_text))
        by (vm_compute; reflexivity).
      rewrite Eh in Hh. injection Hh as <-.
      assert (Es : stored_hash (load_cached_results sample_load dir_draft_edited)
                     (py "final.md") = Ok (JStr (py md5_final_text)))
        by (vm_compute; reflexivity).
      rewrite Es in Hs. injection Hs as <-. apply Hne. reflexivity. }
  repeat split; try assumption; try reflexivity.
  intros [Hi _]. exact (H2 (Hi H1)).
Qed.

(** C3 on a directory that holds both [draft.md] and [final.md]: the
    detection run records the hash of one file only, [final.md] before
    [draft.md], while [needs_recheck] looks up a hash for each of the two
    files.  With a cache as the run writes it, the lookup for [draft.md]
    finds nothing, and [needs_recheck] returns true although the cache file
    is there and the hash recorded for the active file [final.md] is the
    hash of its content. *)
Theorem needs_recheck_true_after_run (json_load : list N -> option json)
    (d : dir_state) (final draft : list N) (kvs hashes : list (list N * json)) :
  lookup_path d (py "final.md") = Some (File final) ->
  lookup_path d (py "draft.md") = Some (File draft) ->
  encode draft <> None ->
  load_cached_results json_load d = JDict kvs ->
  kvs <> [] ->
  run_file_hashes d = Ok hashes ->
  get_or (py "file_hashes") (JDict []) kvs = JDict hashes ->
  needs_recheck json_load d = Ok true /\
  ~ file_changed json_load d (py "final.md") /\
  active_source d = py "final.md" /\
  ~ stale_by_active_file json_load d.
Proof.
  intros Hf Hd Henc Hc Hne Hrun Hh.
  cut (needs_recheck json_load d = Ok true /\
       ~ file_changed json_load d (py "final.md") /\
       active_source d = py "final.md").
  { intros (H1 & H2 & H3). repeat split; try assumption.
    intros [Hno|Hch].
    - unfold load_cached_results in Hc. rewrite Hno in Hc. discriminate.
    - rewrite H3 in Hch. exact (H2 Hch). }
  unfold run_file_hashes in Hrun. cbn [recorded_hashes] in Hrun.
  rewrite Hf in Hrun.
  destruct (get_text_hash final) as [hf|] eqn:Ehf; [|discriminate].
  cbn [bind] in Hrun. injection Hrun as <-.
  assert (Es : forall name,
             stored_hash (load_cached_results json_load d) name
             = Ok (get name [(py "final.md", JStr hf)]))
    by (intros name; unfold stored_hash; rewrite Hc, Hh; reflexivity).
  split; [|split].
  - unfold needs_recheck. rewrite Hc.
    destruct kvs as [|kv kvs']; [congruence|]. cbn [truthy negb].
    rewrite check_file_step, Hd.
    unfold get_text_hash. destruct (encode draft); [|congruence]. cbn [bind].
    rewrite <- Hc, Es. reflexivity.
  - intros (text & h & stored & H1 & H2 & H3 & H4).
    rewrite Hf in H1. injection H1 as <-. rewrite Ehf in H2. injection H2 as <-.
    rewrite Es in H3. injection H3 as <-. apply H4.
    unfold get, get_or. cbn [dict_get]. unfold str_eqb.
    rewrite bool_decide_eq_true_2 by reflexivity. reflexivity.
  - unfold active_source. rewrite Hf. reflexivity.
Qed.

Lemma needs_recheck_true_after_run_witness :
  needs_recheck sample_load dir_both_files = Ok true /\
  ~ file_changed sample_load dir_both_files (py "final.md") /\
  active_source dir_both_files = py "final.md" /\
  ~ stale_by_active_file sample_load dir_both_files.
Proof.
  apply (needs_recheck_true_after_run sample_load dir_both_files
           (py "final text") (py "draft one")
           [ (py "checked_at", JStr (py "2025-01-01T00:00:00"));
             (py "file_hashes", JDict [(py "final.md", JStr (py md5_final_text))]);
             (py "services",
              JDict [(py "zerogpt", JDict [(py "score", JNum (NInt 45));
                                           (py "status", JStr (py "success"))])]) ]
           [(py "final.md", JStr (py md5_final_text))]);
    try (vm_compute; reflexivity); vm_compute; discriminate.
Defined.

(** ** Assignment metadata *)

(** C9: in every metadata record written on sync, [has_submitted] is true
    exactly when the workflow state is one of submitted, graded and
    pending_review, and [is_graded] exactly when it is graded.  A record is
    written for every assignment object with a text for a name and a
    submission that is an object, null or absent. *)
Theorem assignment_submission_flags (format_iso : list N -> option (list N))
    (now : list N) :
  (forall assignment course md,
      save_assignment_data format_iso now assignment course = Ok md ->
      (md_has_submitted md = true <->
       md_workflow_state md = JStr (py "submitted") \/
       md_workflow_state md = JStr (py "graded") \/
       md_workflow_state md = JStr (py "pending_review")) /\
      (md_is_graded md = true <-> md_workflow_state md = JStr (py "graded")))
  /\ (forall a name course,
        get_or (py "name") (JStr (py "unknown")) a = JStr name ->
        (truthy (get_or (py "submission") (JDict []) a) = false \/
         exists sub, get_or (py "submission") (JDict []) a = JDict sub) ->
        exists md, save_assignment_data format_iso now (JDict a) course = Ok md).
Proof.
  split.
  - intros assignment course md H. unfold save_assignment_data in H.
    destruct (as_dict assignment) as [a|]; [|discriminate]. cbn [bind] in H.
    destruct (get_or (py "name") (JStr (py "unknown")) a); try discriminate.
    cbn [bind] in H.
    destruct (as_dict _) as [sub|]; [|discriminate]. cbn [bind] in H.
    injection H as <-. cbn [md_has_submitted md_is_graded md_workflow_state].
    rewrite !orb_true_iff, !eq_str_true. tauto.
  - intros a name course Hn Hs. unfold save_assignment_data. cbn [as_dict bind].
    rewrite Hn. cbn [bind].
    destruct Hs as [Hs|[sub Hs]].
    + rewrite Hs. cbn [as_dict bind]. eexists. reflexivity.
    + rewrite Hs. destruct (truthy (JDict sub)); cbn [as_dict bind];
        eexists; reflexivity.
Qed.

Lemma assignment_submission_flags_witness :
  exists md,
    save_assignment_data (fun _ => None) (py "2025-01-01T00:00:00")
      (JDict [ (py "name", JStr (py "Essay 1"));
               (py "submission",
                JDict [(py "workflow_state", JStr (py "pending_review"))]) ])
      (py "History") = Ok md
    /\ md_has_submitted md = true /\ md_is_graded md = false.
Proof.
  set (a := JDict [ (py "name", JStr (py "Essay 1"));
                    (py "submission",
                     JDict [(py "workflow_state", JStr (py "pending_review"))]) ]).
  destruct (save_assignment_data (fun _ => None) (py "2025-01-01T00:00:00") a
              (py "History")) as [md|e] eqn:E; [|vm_compute in E; discriminate].
  exists md. split; [reflexivity|].
  destruct (proj1 (assignment_submission_flags (fun _ => None)
                     (py "2025-01-01T00:00:00")) a (py "History") md E)
    as [H1 H2].
  vm_compute in E. injection E as <-. split.
  - apply H1. right. right. reflexivity.
  - reflexivity.
Defined.

(** ** Content-type classifier *)

Lemma urlsplit_unbalanced (w : world) :
  Url.urlsplit w (py "http://[") = Raise ValueError.
Proof. reflexivity. Qed.

(** The classifier returns exactly when the URL parser does. *)
Lemma identify_content_type_returns_iff (w : world) (url : list N) :
  (exists t, identify_content_type w url = Ok t) <->
  (exists p, Url.urlparse w url = Ok p).
Proof.
  unfold identify_content_type. destruct (Url.urlparse w url) as [p|e]; cbn [bind].
  - split; [intros _; eexists; reflexivity|intros _].
    repeat match goal with
           | |- context [if ?b then _ else _] => destruct b
           end; eexists; reflexivity.
  - split; intros [? H]; discriminate.
Qed.

Lemma filter_all p (l : list N) :
  forallb (fun c => negb (p c)) l = true ->
  List.filter (fun c => negb (p c)) l = l.
Proof.
  induction l as [|c l IH]; intros H; [reflexivity|].
  cbn [forallb] in H. apply andb_true_iff in H as [Hc Hl].
  cbn [List.filter]. rewrite Hc, IH by exact Hl. reflexivity.
Qed.

Lemma break_none p (l : list N) :
  forallb (fun c => negb (p c)) l = true -> Url.break p l = (l, []).
Proof.
  induction l as [|c l IH]; intros H; [reflexivity|].
  cbn [forallb] in H. apply andb_true_iff in H as [Hc Hl].
  apply negb_true_iff in Hc. cbn [Url.break]. rewrite Hc, IH by exact Hl.
  reflexivity.
Qed.

(** Every network location with a bracket that has no partner makes the
    classifier raise. *)
Lemma identify_content_type_raises_unbalanced (w : world) (netloc : list N) :
  Url.unbalanced netloc = true ->
  forallb (fun c => negb (Url.is_unsafe c)) netloc = true ->
  forallb (fun c => negb (mem c (py "/?#"))) netloc = true ->
  identify_content_type w (py "http://" ++ netloc) = Raise ValueError.
Proof.
  intros Hu Hs Hd. unfold identify_content_type, Url.urlparse.
  assert (E : Url.urlsplit w (py "http://" ++ netloc) = Raise ValueError);
    [|rewrite E; reflexivity].
  unfold Url.urlsplit.
  change (py "http://" ++ netloc) with (104 :: 116 :: 116 :: 112 :: 58 :: 47 :: 47 :: netloc).
  cbn [dropwhile]. change (Url.is_c0_or_space 104) with false. cbv iota.
  cbn [List.filter]. change (Url.is_unsafe 104) with false.
  change (Url.is_unsafe 116) with false. change (Url.is_unsafe 112) with false.
  change (Url.is_unsafe 58) with false. change (Url.is_unsafe 47) with false.
  cbn [negb]. rewrite (filter_all _ _ Hs).
  change (Url.split_scheme (104 :: 116 :: 116 :: 112 :: 58 :: 47 :: 47 :: netloc))
    with (py "http", 47 :: 47 :: netloc).
  change (startswith (py "//") (47 :: 47 :: netloc)) with true. cbv iota.
  change (drop 2 (47 :: 47 :: netloc)) with netloc.
  rewrite (break_none _ _ Hd), Hu. reflexivity.
Qed.

(** C7 at URLs whose network location opens a bracket that is never closed:
    the classifier calls the URL parser before it looks at the text (and
    never uses what the parser returns), the parser raises, and the
    classifier raises with it instead of returning a tag; so for the link
    to a PDF on a host written with its bracket left open. *)
Theorem identify_content_type_raises_on_open_bracket (w : world) :
  identify_content_type w (py "http://[") = Raise ValueError
  /\ identify_content_type w (py "https://[2001:db8::1/files/syllabus.pdf")
     = Raise ValueError
  /\ Url.urlparse w (py "http://[") = Raise ValueError.
Proof. repeat split. Qed.

(** ** PDF text extractor *)

Lemma collect_pages_spec (pages : list page_outcome) :
  forall acc,
    collect_pages pages acc =
    match first_failure pages with
    | None => Done (acc ++ texts_skipping_failures pages)
    | Some msg => Failed OSError msg
    end.
Proof.
  induction pages as [|[text|msg] rest IH]; intros acc; cbn.
  - rewrite app_nil_r. reflexivity.
  - destruct (is_empty text); rewrite IH; destruct (first_failure rest);
      try reflexivity.
    rewrite <- app_assoc. reflexivity.
  - reflexivity.
Qed.

(** C6, as the code has it: on bytes that begin with the PDF signature the
    pages are read in order and the texts of the pages that give some text
    are joined with a blank line between them, a page without text being
    skipped; an exception raised while the text of a page is extracted is not
    caught for that page: it ends the extraction, and the result is the
    placeholder that carries its message. *)
Theorem extract_pdf_text_pages (w : world) (bytes : list N)
    (pages : list page_outcome) :
  startswith (py "%PDF") bytes = true ->
  pdf_reader w (PdfBytes bytes) = Pages pages ->
  extract_pdf_text w (PdfBytes bytes) =
  match first_failure pages with
  | None => join (nl ++ nl) (texts_skipping_failures pages)
  | Some msg => py "[Could not extract PDF text: " ++ msg ++ py "]"
  end.
Proof.
  intros Hsig Hread. unfold extract_pdf_text, read_pdf.
  rewrite Hsig, Hread. cbn [negb]. rewrite collect_pages_spec.
  destruct (first_failure pages); reflexivity.
Qed.

Lemma extract_pdf_text_pages_witness :
  extract_pdf_text blank_page_world (PdfBytes (py "%PDF-1.7")) =
  py "Page one" ++ nl ++ nl ++ py "Page three".
Proof.
  rewrite (extract_pdf_text_pages blank_page_world (py "%PDF-1.7")
             [Extracted (py "Page one"); Extracted []; Extracted (py "Page three")]);
    reflexivity.
Defined.

(** One page that cannot be read takes the text of the other pages with it. *)
Lemma extract_pdf_text_aborts_on_page_failure :
  startswith (py "%PDF") (py "%PDF-1.7") = true /\
  pdf_reader broken_page_world (PdfBytes (py "%PDF-1.7")) = Pages three_pages /\
  join (nl ++ nl) (texts_skipping_failures three_pages)
  = py "Page one" ++ nl ++ nl ++ py "Page three" /\
  extract_pdf_text broken_page_world (PdfBytes (py "%PDF-1.7"))
  = py "[Could not extract PDF text: boom]" /\
  extract_pdf_text broken_page_world (PdfBytes (py "%PDF-1.7"))
  <> join (nl ++ nl) (texts_skipping_failures three_pages).
Proof.
  repeat split; try (vm_compute; reflexivity). vm_compute. discriminate.
Qed.

(** ** Module-item normaliser *)

(** The flag set after a check of the prefix says whether the prefix is
    there. *)
Lemma set_checked_flag (c : content) (prefix : string) (value : list N) :
  c_content (set_checked c prefix value) = JStr value /\
  (c_extracted (set_checked c prefix value) = false <->
   startswith (py prefix) value = true).
Proof.
  split; [reflexivity|]. cbn. destruct (startswith (py prefix) value); cbn.
  - tauto.
  - split; discriminate.
Qed.

(** The placeholder for a video without captions begins with a capital V in
    Video, the prefix it is tested against with a small one. *)
Lemma captions_unavailable_prefix (w : world) (title : json) :
  startswith (py "[Panopto Video") (captions_unavailable w title) = true /\
  startswith (py "[Panopto video") (captions_unavailable w title) = false.
Proof. split; reflexivity. Qed.

(** C2 at a link to a hosted video without caption tracks: the normaliser
    stores the placeholder that says the captions are not available, and
    sets the flag to true, because the test of the prefix spells video with a
    small v and the placeholder with a capital one.  This holds of every
    record the test is applied to, whatever the title. *)
Theorem process_module_item_panopto_placeholder_extracted :
  (forall w c title,
      c_extracted (set_checked c "[Panopto video" (captions_unavailable w title))
      = true)
  /\ get_panopto_transcript panopto_world (py "abc123") (py "nu.hosted.panopto.com")
     = py "[Panopto Video: Lecture 3]" ++ nl
         ++ py "[Captions not available or require authentication]"
  /\ exists c,
       process_module_item panopto_world panopto_item NoPage None = Ok c
       /\ c_content c = JStr (py "[Panopto Video: Lecture 3]" ++ nl
                                ++ py "[Captions not available or require authentication]")
       /\ c_extracted c = true.
Proof.
  split; [reflexivity|]. split; [vm_compute; reflexivity|].
  eexists. split; [vm_compute; reflexivity|]. split; reflexivity.
Qed.

(** In the branch of a linked PDF the flag is set before the file is saved:
    when the text was extracted and saving fails, the content becomes the
    placeholder of the failed download and the flag stays true. *)
Lemma external_pdf_save_failure (w : world) (c : content) (title : json)
    (external_url dir msg : list N) (r : response) :
  requests_get w external_url [] = Done r ->
  ok r = true ->
  startswith (py "[Could not") (extract_pdf_text w (PdfBytes (body r))) = false ->
  make_dir w dir = None ->
  (forall path, write_bytes w path (body r) = Some msg) ->
  c_content (external_pdf w c title external_url (Some dir))
  = JStr (py "[Could not download PDF: " ++ msg ++ py "]") /\
  c_extracted (external_pdf w c title external_url (Some dir)) = true.
Proof.
  intros Hget Hok Htext Hdir Hwrite. unfold external_pdf.
  rewrite Hget, Hok. cbn [negb]. rewrite Hdir, Hwrite.
  split; [reflexivity|].
  change (c_extracted _) with
    (negb (startswith (py "[Could not") (extract_pdf_text w (PdfBytes (body r))))).
  rewrite Htext. reflexivity.
Qed.

(** The other tested branches agree with their test: on a page item the
    flag is the truth value of the body. *)
Lemma process_module_item_page (w : world) (it : list (list N * json)) page dir :
  str_lower w (py "Page") = py "page" ->
  get_or (py "type") (JStr []) it = JStr (py "Page") ->
  exists c,
    process_module_item w (JDict it) page dir = Ok c /\
    c_content c = get_or (py "body") (JStr (py "[Page content not loaded]")) it /\
    c_extracted c = truthy (get (py "body") it).
Proof.
  intros Hl Ht. unfold process_module_item. cbn [as_dict bind].
  rewrite Ht. cbn [as_str bind]. rewrite Hl.
  eexists. split; [reflexivity|]. split; reflexivity.
Qed.


(* ================================================================== *)
(** * Further properties of the code *)
(* ================================================================== *)

(** ** Runs of one class of characters *)

Section Runs.

Variable p : N -> bool.

Lemma rep_greedy_run (s : list N) :
  forall lo pos,
    rep_greedy p lo None
      (fun pos' (_ : list N) (c' : caps) => Some (pos', c')) pos s [] =
    if Nat.leb lo (run_len p s) then Some ((pos + run_len p s)%nat, []) else None.
Proof.
  induction s as [|x t IH]; intros lo pos.
  - destruct lo; cbn; [rewrite Nat.add_0_r|]; reflexivity.
  - cbn [rep_greedy hi_zero hi_pred run_len]. destruct (p x).
    + rewrite IH. destruct lo as [|lo]; cbn [Nat.pred Nat.leb].
      * cbn [or_else]. do 2 f_equal. lia.
      * destruct (Nat.leb lo (run_len p t)); cbn [or_else stop_here];
          [do 2 f_equal; lia|reflexivity].
    + destruct lo; cbn; [rewrite Nat.add_0_r|]; reflexivity.
Qed.

Lemma match_plus pos (s : list N) :
  match_at false (plus p) pos s =
  if Nat.leb 1 (run_len p s) then Some ((pos + run_len p s)%nat, []) else None.
Proof. unfold match_at, plus. cbn [mt andb]. apply rep_greedy_run. Qed.

Lemma run_len_le (s : list N) : (run_len p s <= length s)%nat.
Proof.
  induction s as [|x t IH]; cbn [run_len length]; [lia|].
  destruct (p x); lia.
Qed.

(** Replacing the runs of a class by text outside the class leaves no
    character of the class. *)
Lemma sub_plus_none (t : list N) (n : nat) :
  Forall (fun c => p c = false) t ->
  forall (s : list N) pos, (length s <= n)%nat ->
  Forall (fun c => p c = false) (sub_go (plus p) (expand [TLit t]) pos O s).
Proof.
  intros Ht. induction n as [|n IH]; intros s pos Hlen.
  - destruct s; [|simpl in Hlen; lia]. cbn [sub_go].
    rewrite match_plus. cbn. constructor.
  - destruct s as [|x u]; [cbn [sub_go]; rewrite match_plus; cbn; constructor|].
    simpl in Hlen. rewrite sub_go_cons, match_plus. cbn [run_len].
    destruct (p x) eqn:Ex.
    + cbn [Nat.leb].
      replace (Nat.eqb (pos + S (run_len p u)) pos) with false
        by (symmetry; apply Nat.eqb_neq; lia).
      apply Forall_app. split; [cbn; rewrite app_nil_r; exact Ht|].
      pose proof (run_len_le u) as Hle.
      rewrite sub_go_skip by lia. apply IH.
      rewrite length_drop. lia.
    + cbn [Nat.leb]. constructor; [exact Ex|]. apply IH. lia.
Qed.

(** Where no character of the class occurs, nothing is replaced. *)
Lemma sub_plus_id repl (s : list N) :
  Forall (fun c => p c = false) s ->
  forall pos, sub_go (plus p) repl pos O s = s.
Proof.
  induction 1 as [|x u Hx Hu IH]; intros pos.
  - cbn [sub_go]. rewrite match_plus. reflexivity.
  - rewrite sub_go_cons, match_plus. cbn [run_len]. rewrite Hx.
    cbn [Nat.leb]. f_equal. apply IH.
Qed.

End Runs.

Lemma filter_clean (s : list N) :
  clean s -> List.filter (fun c => negb (is_forbidden c)) s = s.
Proof.
  intros H. apply filter_all. apply forallb_forall. intros c Hc.
  unfold clean in H. rewrite List.Forall_forall in H.
  rewrite (H c Hc). reflexivity.
Qed.

Lemma underscore_no_space : Forall (fun c => is_space c = false) (py "_").
Proof. repeat constructor. Qed.

(** ** Filename sanitiser, continued *)

Lemma sanitize_filename_no_space (s : list N) : no_space (sanitize_filename s).
Proof.
  unfold sanitize_filename, no_space, strip_chars.
  apply Forall_take, Forall_strip_by. unfold re_sub.
  eapply sub_plus_none; [exact underscore_no_space|apply Nat.le_refl].
Qed.

(** X1.  The name [sanitize_filename] returns holds no whitespace, whatever
    the input: every run of whitespace has become one underscore, and none
    of the later steps adds any.  With the characters removed first it
    holds no slash and no backslash either. *)
Theorem sanitize_filename_no_whitespace (s : list N) :
  no_space (sanitize_filename s)
  /\ ~ In 47 (sanitize_filename s)
  /\ ~ In 92 (sanitize_filename s).
Proof.
  split.
  - apply sanitize_filename_no_space.
  - pose proof (sanitize_filename_clean s) as H. unfold clean in H.
    rewrite List.Forall_forall in H.
    split; intros Hin; apply H in Hin; vm_compute in Hin; discriminate.
Qed.

(** X2.  Where the sanitised name did not have to be cut to 100 characters,
    sanitising it again changes nothing. *)
Theorem sanitize_filename_idempotent_uncut (s : list N) :
  (length (sanitize_uncut s) <= 100)%nat ->
  sanitize_filename (sanitize_filename s) = sanitize_filename s.
Proof.
  intros Hlen.
  assert (Hc : clean (sanitize_filename s)) by apply sanitize_filename_clean.
  assert (Hs : no_space (sanitize_filename s))
    by apply sanitize_filename_no_space.
  assert (E : sanitize_filename s = sanitize_uncut s).
  { change (sanitize_filename s) with (take 100 (sanitize_uncut s)).
    apply take_ge, Hlen. }
  unfold sanitize_filename at 1. unfold re_sub.
  rewrite sub_go_class_delete, filter_clean by exact Hc.
  rewrite sub_plus_id by exact Hs.
  rewrite E. unfold sanitize_uncut at 1, strip_chars.
  rewrite strip_by_idem. apply take_ge. exact Hlen.
Qed.

Lemma sanitize_filename_idempotent_uncut_witness :
  (length (sanitize_uncut (py "  Essay 1: What/Why?  ")) <= 100)%nat
  /\ sanitize_filename (sanitize_filename (py "  Essay 1: What/Why?  "))
     = sanitize_filename (py "  Essay 1: What/Why?  ").
Proof.
  split; [vm_compute; lia|].
  apply (sanitize_filename_idempotent_uncut (py "  Essay 1: What/Why?  ")).
  vm_compute. lia.
Defined.

(** ** Module files *)

Lemma module_dir_name_safe (name : list N) :
  (length (module_dir_name name) <= 50)%nat
  /\ clean (module_dir_name name)
  /\ no_space (module_dir_name name).
Proof.
  unfold module_dir_name. cbv zeta. split; [rewrite length_take; lia|]. split.
  - apply Forall_take. unfold re_sub. apply Forall_sub_go.
    + intros c. simpl. repeat constructor.
    + rewrite sub_go_class_delete. apply List.Forall_forall. intros x Hx.
      apply List.filter_In in Hx. destruct Hx as [_ Hx].
      apply negb_true_iff in Hx. exact Hx.
  - apply Forall_take. unfold re_sub.
    eapply sub_plus_none; [exact underscore_no_space|apply Nat.le_refl].
Qed.

Lemma save_module_content_module_dir (w : world) (module_data : json)
    (course_dir : list N) (r : saved_module) :
  save_module_content w module_data course_dir = Ok r ->
  exists name,
    module_dir r =
    path_join (path_join course_dir (py "modules")) (module_dir_name name).
Proof.
  unfold save_module_content. intros H.
  destruct (as_dict module_data) as [m|e]; [|discriminate]. cbn [bind] in H.
  destruct (get_or (py "name") (JStr (py "Unknown")) m) as [| | |name| |];
    try discriminate.
  cbn [bind] in H.
  destruct (py_len _) as [n|e]; [|discriminate]. cbn [bind] in H.
  destruct (iterate _) as [items|e]; [|discriminate]. cbn [bind] in H.
  destruct (items_lines w items) as [lines|e]; [|discriminate]. cbn [bind] in H.
  injection H as <-. exists name. reflexivity.
Qed.

Lemma clean_no_slash (name : list N) : clean name -> ~ In 47 name /\ ~ In 92 name.
Proof.
  unfold clean. rewrite List.Forall_forall. intros H.
  split; intros Hin; apply H in Hin; vm_compute in Hin; discriminate.
Qed.

(** Joining a path with one segment, as [pathlib] does. *)
Lemma split_no_sep (name : list N) : ~ In 47 name -> split 47 name = [name].
Proof.
  intros H. unfold split.
  rewrite <- (app_nil_r name) at 1. rewrite split_on_app_nosep by exact H.
  cbn [split_on]. rewrite app_nil_r, rev_involutive. reflexivity.
Qed.

Lemma startswith_slash_no_sep (name : list N) :
  ~ In 47 name -> startswith (py "/") name = false.
Proof.
  intros H. destruct name as [|c t]; [reflexivity|].
  change (py "/") with [47]. cbn [startswith].
  destruct (N.eqb_spec 47 c) as [<-|]; [|reflexivity].
  exfalso. apply H. left. reflexivity.
Qed.

Lemma path_join_self (dir name : list N) :
  name = [] \/ name = py "." -> path_join dir name = dir.
Proof. intros [->| ->]; reflexivity. Qed.

Lemma path_join_child (dir name : list N) :
  ~ In 47 name -> name <> [] -> name <> py "." ->
  path_join dir name
  = (if str_eqb dir (py ".") then []
     else if endswith (py "/") dir then dir else dir ++ py "/") ++ name.
Proof.
  intros H1 H2 H3. unfold path_join, path_segments. cbv zeta.
  rewrite (startswith_slash_no_sep _ H1), (split_no_sep _ H1).
  cbn [List.filter].
  replace (is_empty name) with false by (destruct name; [congruence|reflexivity]).
  replace (str_eqb name (py ".")) with false
    by (symmetry; apply bool_decide_eq_false; exact H3).
  reflexivity.
Qed.

Lemma path_join_modules (course_dir : list N) :
  path_join course_dir (py "modules") = modules_path course_dir.
Proof.
  rewrite path_join_child.
  - unfold modules_path.
    destruct (str_eqb course_dir (py ".")); [reflexivity|].
    destruct (endswith (py "/") course_dir); [reflexivity|].
    rewrite <- app_assoc. reflexivity.
  - intros H. vm_compute in H.
    repeat (destruct H as [H|H]; [discriminate H|]). exact H.
  - discriminate.
  - vm_compute. discriminate.
Qed.

Lemma modules_path_shape (course_dir : list N) :
  exists pre, modules_path course_dir = pre ++ py "modules".
Proof.
  unfold modules_path.
  destruct (str_eqb course_dir (py ".")); [exists []; reflexivity|].
  destruct (endswith (py "/") course_dir); [exists course_dir; reflexivity|].
  exists (course_dir ++ py "/"). rewrite <- app_assoc. reflexivity.
Qed.

Lemma child_of_modules (course_dir name : list N) :
  ~ In 47 name -> name <> [] -> name <> py "." ->
  path_join (modules_path course_dir) name
  = modules_path course_dir ++ py "/" ++ name.
Proof.
  intros H1 H2 H3. rewrite path_join_child by assumption.
  destruct (modules_path_shape course_dir) as [pre ->].
  replace (str_eqb (pre ++ py "modules") (py ".")) with false.
  - replace (endswith (py "/") (pre ++ py "modules")) with false.
    + rewrite <- (app_assoc (pre ++ py "modules") (py "/") name). reflexivity.
    + unfold endswith. rewrite rev_app_distr. reflexivity.
  - symmetry. apply bool_decide_eq_false. intros H.
    apply (f_equal (@length N)) in H. rewrite length_app in H.
    simpl in H. lia.
Qed.



(** A module whose name is made of removed characters is written into
    [modules] itself; a module named by a double dot gets the path of the
    course directory. *)
Example save_module_content_no_directory_of_its_own :
  (exists r,
     save_module_content plain_world (JDict [(py "name", JStr (py "???"))])
       (py "courses/101") = Ok r
     /\ module_dir r = py "courses/101/modules")
  /\ (exists r,
        save_module_content plain_world (JDict [(py "name", JStr (py ".."))])
          (py "courses/101") = Ok r
        /\ module_dir r = py "courses/101/modules/..").
Proof.
  split; eexists; (split; [vm_compute; reflexivity|]); vm_compute; reflexivity.
Qed.


(** ** The converter, for every input *)

Lemma runs_ok_contains (s : list N) :
  runs_ok s -> contains (nl ++ nl ++ nl) s = false.
Proof.
  induction s as [|a t IH]; intros H; [reflexivity|].
  destruct H as [Hl Ht]. cbn [contains]. rewrite (IH Ht), orb_false_r.
  change (nl ++ nl ++ nl) with [10; 10; 10].
  destruct t as [|b [|c u]]; cbn [startswith lead] in *;
    try (rewrite ?andb_false_r; reflexivity).
  destruct (10 =? a); [|reflexivity].
  destruct (10 =? b); [|reflexivity].
  destruct (10 =? c); [lia|reflexivity].
Qed.

(** X4.  Whatever the input, the text [html_to_markdown] returns has no
    three line feeds in a row and no whitespace at either end: stripping it
    again changes nothing. *)
Theorem html_to_markdown_normal_form html5 (x : list N) :
  contains (nl ++ nl ++ nl) (html_to_markdown html5 x) = false
  /\ strip (html_to_markdown html5 x) = html_to_markdown html5 x
  /\ (forall c t, html_to_markdown html5 x = c :: t -> is_space c = false)
  /\ (forall t c, html_to_markdown html5 x = t ++ [c] -> is_space c = false).
Proof.
  unfold html_to_markdown. destruct (is_empty x).
  - repeat split; try reflexivity; intros c t E; [discriminate E|].
    destruct c; discriminate E.
  - cbv zeta. set (u := Html.unescape html5 _).
    unfold re_sub at 1. rewrite (collapse_squeeze (length u)) by apply Nat.le_refl.
    split; [|split; [|split]].
    + apply runs_ok_contains. unfold strip. apply runs_ok_strip_by.
      apply (squeeze_runs_ok u O). lia.
    + unfold strip. apply strip_by_idem.
    + intros c t E. exact (strip_by_head _ _ _ _ E).
    + intros t c E. exact (strip_by_last _ _ _ _ E).
Qed.

(** ** Removing the tags *)

Lemma match_tag_some pos y (a b : list N) :
  ~ In 62 (y :: a) ->
  match_at false re_tag pos (60 :: y :: a ++ 62 :: b) =
  Some ((pos + 3 + length a)%nat, []).
Proof.
  intros H. unfold match_at, re_tag.
  cbn [seqs mt lit1 plus]. rewrite N.eqb_refl.
  change (y :: a ++ 62 :: b) with ((y :: a) ++ 62 :: b).
  erewrite rep_greedy_upto;
    [reflexivity|apply forallb_not_char, H|reflexivity|simpl; lia|].
  cbn [mt andb]. rewrite N.eqb_refl. cbn [length]. do 2 f_equal. lia.
Qed.

Lemma match_tag_other b pos x (s : list N) :
  x <> 60 -> match_at b re_tag pos (x :: s) = None.
Proof.
  intros H. unfold match_at, re_tag. cbn [seqs mt lit1].
  destruct (N.eqb_spec 60 x) as [E|E]; [congruence|reflexivity].
Qed.

Lemma match_tag_nil b pos : match_at b re_tag pos [] = None.
Proof. reflexivity. Qed.

(** What is left after the tags are removed has no tag. *)
Lemma sub_tag_no_tag (n : nat) :
  forall (s : list N) pos, (length s <= n)%nat ->
  no_tag (sub_go re_tag (expand []) pos O s).
Proof.
  induction n as [|n IH]; intros s pos Hlen.
  - destruct s; [|simpl in Hlen; lia]. cbn [sub_go].
    rewrite match_tag_nil. exact I.
  - destruct s as [|x t]; [cbn [sub_go]; rewrite match_tag_nil; exact I|].
    simpl in Hlen. rewrite sub_go_cons.
    destruct (match_at false re_tag pos (x :: t)) as [[e c]|] eqn:E.
    + destruct (tag_like_tag _ pos (x :: t) []
                  ltac:(unfold match_at in E; rewrite E; discriminate))
        as (t' & Et & Hhd & Hin).
      injection Et as -> <-.
      destruct (in_split_first 62 t Hin) as (a' & b & -> & Ha).
      destruct a' as [|y a]; [exfalso; apply Hhd; reflexivity|].
      cbn [app] in E. rewrite (match_tag_some pos y a b Ha) in E.
      injection E as <- <-.
      replace (Nat.eqb (pos + 3 + length a) pos) with false
        by (symmetry; apply Nat.eqb_neq; lia).
      cbn [expand flat_map app].
      rewrite sub_go_skip
        by (cbn [app length]; rewrite length_app; cbn [length]; lia).
      assert (Ed : drop (pos + 3 + length a - pos - 1) ((y :: a) ++ 62 :: b) = b).
      { replace (pos + 3 + length a - pos - 1)%nat with (length ((y :: a) ++ [62]))
          by (rewrite length_app; cbn [length]; lia).
        replace ((y :: a) ++ 62 :: b) with (((y :: a) ++ [62]) ++ b)
          by (rewrite <- app_assoc; reflexivity).
        apply drop_app_length. }
      cbn [app] in Ed. rewrite Ed. apply IH.
      rewrite !length_app in Hlen. cbn [length] in Hlen. lia.
    + split; [|apply IH; lia]. intros ->.
      destruct t as [|y t']; [left; cbn [sub_go]; rewrite match_tag_nil; reflexivity|].
      right. destruct (N.eq_dec y 62) as [->|Hy].
      * left. rewrite sub_go_cons, match_tag_other by discriminate. reflexivity.
      * right. assert (Hn : ~ In 62 (y :: t')).
        { intros [Hh|Hin]; [congruence|].
          destruct (in_split_first 62 t' Hin) as (a & b & -> & Ha).
          rewrite (match_tag_some pos y a b) in E; [discriminate|].
          intros [Hh|Hh]; [congruence|exact (Ha Hh)]. }
        assert (F : Forall (fun c => c <> 62)
                      (sub_go re_tag (expand []) (S pos) O (y :: t'))).
        { apply Forall_sub_go; [intros c; constructor|].
          apply List.Forall_forall. intros c Hc ->. exact (Hn Hc). }
        rewrite List.Forall_forall in F. intros Hin. exact (F _ Hin eq_refl).
Qed.

Lemma no_tag_suffix (pre suf : list N) : no_tag (pre ++ suf) -> no_tag suf.
Proof.
  induction pre as [|x pre IH]; intros H; [exact H|].
  apply IH. exact (no_tag_tail _ _ H).
Qed.

Lemma no_tag_tag_free (x : list N) : no_tag x -> tag_free x.
Proof.
  intros H pre suf ->. unfold re_match.
  rewrite (no_tag_no_match re_tag false O suf tag_like_tag (no_tag_suffix _ _ H)).
  reflexivity.
Qed.

(** X5.  Removing the tags leaves none: the tag pattern matches at no place
    of [re.sub(r'<[^>]+>', '', s)], for every [s].  So every line the
    caption parser keeps is a non-empty line without a tag. *)
Theorem caption_line_kept_is_tag_free :
  (forall s, tag_free (re_sub re_tag [] s))
  /\ (forall line l, caption_line line = Some l -> l <> [] /\ tag_free l).
Proof.
  assert (H : forall s, tag_free (re_sub re_tag [] s)).
  { intros s. apply no_tag_tag_free. unfold re_sub.
    apply (sub_tag_no_tag (length s)). apply Nat.le_refl. }
  split; [exact H|].
  intros line l. unfold caption_line.
  destruct (startswith _ _ || startswith _ _); [discriminate|].
  destruct (contains _ _); [discriminate|].
  destruct (re_match _ _ || re_match _ _); [discriminate|].
  destruct (is_empty (strip line)); [discriminate|].
  destruct (re_sub re_tag [] (strip line)) as [|c u] eqn:E; [discriminate|].
  intros [= <-]. split; [discriminate|]. rewrite <- E. apply H.
Qed.

Lemma caption_line_kept_is_tag_free_witness :
  caption_line (py "  <v Speaker>Hello there</v>") = Some (py "Hello there")
  /\ py "Hello there" <> [] /\ tag_free (py "Hello there").
Proof.
  split; [vm_compute; reflexivity|].
  apply (proj2 caption_line_kept_is_tag_free (py "  <v Speaker>Hello there</v>")
           (py "Hello there")).
  vm_compute. reflexivity.
Defined.

(** ** No line feed in the transcript *)

Lemma split_on_no_sep sep (s : list N) :
  forall cur, ~ In sep cur -> Forall (fun l => ~ In sep l) (split_on sep cur s).
Proof.
  induction s as [|c s IH]; intros cur Hc; cbn [split_on].
  - constructor; [|constructor]. rewrite <- in_rev. exact Hc.
  - destruct (N.eqb_spec c sep) as [->|Hn].
    + constructor; [rewrite <- in_rev; exact Hc|]. apply IH. intros [].
    + apply IH. intros [E|E]; [congruence|exact (Hc E)].
Qed.

Lemma caption_line_no_sep sep (line l : list N) :
  ~ In sep line -> caption_line line = Some l -> ~ In sep l.
Proof.
  intros Hn. unfold caption_line.
  destruct (startswith _ _ || startswith _ _); [discriminate|].
  destruct (contains _ _); [discriminate|].
  destruct (re_match _ _ || re_match _ _); [discriminate|].
  destruct (is_empty (strip line)); [discriminate|].
  destruct (is_empty (re_sub re_tag [] (strip line))); [discriminate|].
  intros [= <-] Hin.
  assert (F : Forall (fun c => c <> sep) (re_sub re_tag [] (strip line))).
  { unfold re_sub. apply Forall_sub_go; [intros c; constructor|].
    unfold strip. apply Forall_strip_by.
    apply List.Forall_forall. intros c Hc ->. exact (Hn Hc). }
  rewrite List.Forall_forall in F. exact (F _ Hin eq_refl).
Qed.

Lemma fold_caption_step_no_sep sep (lines : list (list N)) :
  Forall (fun l => ~ In sep l) lines ->
  forall acc, Forall (fun l => ~ In sep l) acc ->
  Forall (fun l => ~ In sep l) (fold_left caption_step lines acc).
Proof.
  induction 1 as [|line lines Hl Hls IH]; intros acc Ha; [exact Ha|].
  cbn [fold_left]. apply IH. unfold caption_step.
  destruct (caption_line line) as [l|] eqn:E; [|exact Ha].
  apply Forall_app. split; [exact Ha|].
  constructor; [|constructor]. exact (caption_line_no_sep sep line l Hl E).
Qed.

Lemma join_no_char c (sep : list N) (parts : list (list N)) :
  ~ In c sep -> Forall (fun l => ~ In c l) parts -> ~ In c (join sep parts).
Proof.
  intros Hs. induction 1 as [|p rest Hp Hr IH]; [intros []|].
  destruct rest as [|q rest]; [exact Hp|].
  change (join sep (p :: q :: rest)) with (p ++ sep ++ join sep (q :: rest)).
  rewrite !in_app_iff. intros [H|[H|H]]; [exact (Hp H)|exact (Hs H)|exact (IH H)].
Qed.

(** X6.  The transcript [parse_caption_file] returns holds no line feed,
    whatever the caption file holds: the lines of the file are joined with
    single spaces. *)
Theorem parse_caption_file_no_line_feed (content : list N) :
  ~ In 10 (parse_caption_file content).
Proof.
  unfold parse_caption_file. cbv zeta. apply join_no_char.
  - vm_compute. intros [E|[]]. discriminate.
  - apply fold_caption_step_no_sep; [|constructor].
    apply split_on_no_sep. intros [].
Qed.


(** ** Submission state machine, continued *)

Lemma by_score_ready_iff (n : number) :
  by_score (JNum n) = Ok ready_to_submit <-> number_lt n 30 = true.
Proof.
  unfold by_score. cbn [lt_int bind].
  destruct (number_lt n 30); split; congruence.
Qed.

Lemma by_score_high_iff (n : number) :
  by_score (JNum n) = Ok ai_high <-> number_lt n 30 = false.
Proof.
  unfold by_score. cbn [lt_int bind].
  destruct (number_lt n 30); split; congruence.
Qed.

(** X7.  The threshold of the state machine is strict, for every number a
    cache can hold: with [final.md], a main score that is a number and no
    humanized score, the state is [ready_to_submit] exactly when the number is
    below 30 and [ai_high] exactly when it is 30 or more, for an integer as
    for a float (the API result is a float); a NaN is [ai_high]. *)
Theorem get_submission_status_threshold (json_load : list N -> option json)
    (files : gmap (list N) entry) (n : number) :
  exists_in files (py "final.md") = true ->
  main_score_is json_load files (JNum n) ->
  (forall h, ~ humanized_score_is json_load files h) ->
  (forall z : Z, n = NInt z ->
     (status_of (get_submission_status json_load (Dir files)) = Ok ready_to_submit
      <-> (z < 30)%Z)
     /\ (status_of (get_submission_status json_load (Dir files)) = Ok ai_high
         <-> (30 <= z)%Z))
  /\ (forall q : Q, n = NFloat q ->
        (status_of (get_submission_status json_load (Dir files)) = Ok ready_to_submit
         <-> (q < inject_Z 30)%Q)
        /\ (status_of (get_submission_status json_load (Dir files)) = Ok ai_high
            <-> (inject_Z 30 <= q)%Q))
  /\ (n = NNaN ->
      status_of (get_submission_status json_load (Dir files)) = Ok ai_high).
Proof.
  intros Hf Hm Hh.
  rewrite (status_by_main _ _ _ Hf Hm Hh), status_of_bind.
  split; [|split].
  - intros z ->. rewrite by_score_ready_iff, by_score_high_iff.
    cbn [number_lt]. split; [apply Z.ltb_lt|apply Z.ltb_ge].
  - intros q ->. rewrite by_score_ready_iff, by_score_high_iff.
    split; [apply (number_lt_below (NFloat q) 30)|].
    cbn [number_lt]. rewrite negb_false_iff. apply Qle_bool_iff.
  - intros ->. reflexivity.
Qed.

Lemma get_submission_status_threshold_witness :
  status_of (get_submission_status cache_load (Dir (dir_scored (py "30.0"))))
  = Ok ai_high.
Proof.
  assert (Hm : main_score_is cache_load (dir_scored (py "30.0")) (JNum (NFloat (inject_Z 30))))
    by (apply dir_scored_main; [vm_compute; reflexivity|discriminate]).
  apply (proj2 (proj1 (proj2 (get_submission_status_threshold cache_load
                                (dir_scored (py "30.0")) (NFloat (inject_Z 30))
                                (dir_scored_final _) Hm (dir_scored_no_humanized _)))
                  (inject_Z 30) eq_refl)).
  apply Qle_refl.
Defined.

(** X8.  Once the main cache holds a score, the score of the humanized
    variant alone decides the state: the variant is [final_humanized.md] if
    it is there and [draft_humanized.md] otherwise, and with a score that is
    a number the state is [ready_to_submit] below 30 and [ai_high] otherwise,
    whatever the main score is (a low main score does not help, and a main
    score that cannot be compared does no harm).  Both scores are
    returned. *)
Theorem humanized_score_decides (json_load : list N -> option json)
    (files : gmap (list N) entry) (score : json) (hn : number) :
  exists_in files (py "final.md") = true ->
  main_score_is json_load files score ->
  humanized_score_is json_load files (JNum hn) ->
  exists st,
    get_submission_status json_load (Dir files)
    = Ok (st, Some (listing files),
          Some {| ai_score := Some score; humanized_score := Some (JNum hn) |})
    /\ (below hn 30 -> st = ready_to_submit)
    /\ (~ below hn 30 -> st = ai_high).
Proof.
  intros Hf Hm Hh. rewrite (status_by_humanized _ _ _ _ Hf Hm Hh).
  destruct (by_score_number hn) as [H1 H2].
  destruct (number_lt hn 30) eqn:E.
  - apply number_lt_below in E. exists ready_to_submit.
    rewrite (H1 E). split; [reflexivity|]. split; [reflexivity|contradiction].
  - assert (Hn : ~ below hn 30)
      by (intros H; apply number_lt_below in H; congruence).
    exists ai_high. rewrite (H2 Hn).
    split; [reflexivity|]. split; [contradiction|reflexivity].
Qed.

Lemma humanized_score_decides_witness :
  exists st,
    get_submission_status cache_load
      (Dir (dir_scored_humanized (py "10.0") (py "45.0")))
    = Ok (st, Some (listing (dir_scored_humanized (py "10.0") (py "45.0"))),
          Some {| ai_score := Some (float_of 10);
                  humanized_score := Some (float_of 45) |})
    /\ (below (NFloat (inject_Z 45)) 30 -> st = ready_to_submit)
    /\ (~ below (NFloat (inject_Z 45)) 30 -> st = ai_high).
Proof.
  apply (humanized_score_decides cache_load
           (dir_scored_humanized (py "10.0") (py "45.0"))
           (float_of 10) (NFloat (inject_Z 45))).
  - vm_compute. reflexivity.
  - apply (main_score_is_intro _ _ (detection_text md5_final_text (py "10.0"))
             (detection_cache md5_final_text (float_of 10)));
      [vm_compute; reflexivity..|apply detection_cache_score; discriminate].
  - apply (humanized_final_score_intro _ _ (humanized_text (py "45.0"))
             (humanized_cache (float_of 45)));
      [vm_compute; reflexivity..|apply humanized_cache_score; discriminate].
Defined.

(** X9.  The loop over the humanized variants stops at the first one that is
    in the directory: when [final_humanized.md] is there and has no cache of
    its own, the cache of [draft_humanized.md] is never read; no humanized
    score is returned, and the state is the one of the main score. *)
Theorem final_humanized_shadows_draft (json_load : list N -> option json)
    (files : gmap (list N) entry) (n : number) :
  exists_in files (py "final.md") = true ->
  main_score_is json_load files (JNum n) ->
  exists_in files (py "final_humanized.md") = true ->
  files !! py "ai_check_final_humanized.json" = None ->
  exists st,
    get_submission_status json_load (Dir files)
    = Ok (st, Some (listing files),
          Some {| ai_score := Some (JNum n); humanized_score := None |})
    /\ (below n 30 -> st = ready_to_submit)
    /\ (~ below n 30 -> st = ai_high).
Proof.
  intros Hf Hm Hh Hhc.
  assert (Hno : forall h, ~ humanized_score_is json_load files h).
  { intros h (name & text & doc & [[_ ->]|[H _]] & H' & _); congruence. }
  rewrite (status_by_main _ _ _ Hf Hm Hno).
  destruct (by_score_number n) as [H1 H2].
  destruct (number_lt n 30) eqn:E.
  - apply number_lt_below in E. exists ready_to_submit.
    rewrite (H1 E). split; [reflexivity|]. split; [reflexivity|contradiction].
  - assert (Hn : ~ below n 30)
      by (intros H; apply number_lt_below in H; congruence).
    exists ai_high. rewrite (H2 Hn).
    split; [reflexivity|]. split; [contradiction|reflexivity].
Qed.

Lemma final_humanized_shadows_draft_witness :
  dir_shadowed !! py "ai_check_draft_humanized.json"
  = Some (File (humanized_text (py "15.0")))
  /\ cache_load (humanized_text (py "15.0")) = Some (humanized_cache (float_of 15))
  /\ exists st,
       get_submission_status cache_load (Dir dir_shadowed)
       = Ok (st, Some (listing dir_shadowed),
             Some {| ai_score := Some (float_of 45); humanized_score := None |})
       /\ (below (NFloat (inject_Z 45)) 30 -> st = ready_to_submit)
       /\ (~ below (NFloat (inject_Z 45)) 30 -> st = ai_high).
Proof.
  split; [vm_compute; reflexivity|]. split; [vm_compute; reflexivity|].
  apply (final_humanized_shadows_draft cache_load dir_shadowed (NFloat (inject_Z 45))).
  - vm_compute. reflexivity.
  - apply (main_score_is_intro _ _ (detection_text md5_final_text (py "45.0"))
             (detection_cache md5_final_text (float_of 45)));
      [vm_compute; reflexivity..|apply detection_cache_score; discriminate].
  - vm_compute. reflexivity.
  - vm_compute. reflexivity.
Defined.

(** X10.  The score that decides the state (the humanized score when one is
    read, the main score otherwise) is compared with 30 without a test of its
    type, outside the handler that guards the reading of the caches: when it
    is stored as text, [get_submission_status] raises [TypeError].  A main
    score stored as text does no harm when a humanized score that is a number
    is read. *)
Theorem get_submission_status_text_score (json_load : list N -> option json)
    (files : gmap (list N) entry) (s : list N) :
  exists_in files (py "final.md") = true ->
  (main_score_is json_load files (JStr s) ->
   (forall h, ~ humanized_score_is json_load files h) ->
   get_submission_status json_load (Dir files) = Raise TypeError)
  /\ (forall score,
        main_score_is json_load files score ->
        humanized_score_is json_load files (JStr s) ->
        get_submission_status json_load (Dir files) = Raise TypeError)
  /\ (forall hn,
        main_score_is json_load files (JStr s) ->
        humanized_score_is json_load files (JNum hn) ->
        exists st,
          status_of (get_submission_status json_load (Dir files)) = Ok st).
Proof.
  intros Hf. split; [|split].
  - intros Hm Hh. rewrite (status_by_main _ _ _ Hf Hm Hh). reflexivity.
  - intros score Hm Hh. rewrite (status_by_humanized _ _ _ _ Hf Hm Hh). reflexivity.
  - intros hn Hm Hh. rewrite (status_by_humanized _ _ _ _ Hf Hm Hh), status_of_bind.
    unfold by_score. cbn [lt_int bind]. eexists. reflexivity.
Qed.

Lemma get_submission_status_text_score_witness :
  get_submission_status cache_load (Dir (dir_scored (quoted "45"))) = Raise TypeError.
Proof.
  apply (proj1 (get_submission_status_text_score cache_load
                  (dir_scored (quoted "45")) (py "45") (dir_scored_final _))).
  - apply dir_scored_main; [vm_compute; reflexivity|discriminate].
  - apply dir_scored_no_humanized.
Defined.


(** ** Detection run and its cache *)



Section DetectionFacts.

Variable json_load : list N -> option json.
Variable json_dump : json -> list N.
Variable run_ai_detection : list N -> result (list (list N * json)).








End DetectionFacts.




(** ** Module-item normaliser, continued *)

Ltac unfold_setters :=
  unfold content_ok, saved_ok, set_checked, set_extracted, set_content, set_url,
    set_video_id, set_local_path, set_extracted_to in *;
  cbn [c_title c_type c_url c_content c_extracted c_video_id c_local_path
       c_extracted_to] in *.

Ltac content_tac Hc :=
  unfold_setters; first [exact Hc | intros _; discriminate].

Ltac saved_tac Hc :=
  unfold_setters;
  first [ exact Hc
        | let p := fresh "p" in let E := fresh "E" in
          intros p E; injection E as <-; eexists; eassumption ].

Lemma truthy_get_or k d (it : list (list N * json)) :
  truthy (get k it) = true -> get_or k d it <> JNull.
Proof.
  unfold get, get_or. destruct (dict_get k it) as [v|]; [|discriminate].
  intros H ->. discriminate.
Qed.

Section ItemFacts.

Variable w : world.

Lemma external_pdf_content_ok c title url dir :
  content_ok c -> content_ok (external_pdf w c title url dir).
Proof.
  intros Hc. unfold external_pdf. cbv zeta.
  destruct (requests_get w url []) as [r|e msg]; [|content_tac Hc].
  destruct (negb (ok r)); [content_tac Hc|].
  destruct dir as [dir|]; [|content_tac Hc].
  destruct (make_dir w dir) as [[e m]|]; [content_tac Hc|].
  destruct (write_bytes w _ _); content_tac Hc.
Qed.

Lemma external_pdf_saved_ok c title url dir :
  saved_ok w c -> saved_ok w (external_pdf w c title url dir).
Proof.
  intros Hc. unfold external_pdf. cbv zeta.
  destruct (requests_get w url []) as [r|e msg]; [|saved_tac Hc].
  destruct (negb (ok r)); [saved_tac Hc|].
  destruct dir as [dir|]; [|saved_tac Hc].
  destruct (make_dir w dir) as [[e m]|]; [saved_tac Hc|].
  destruct (write_bytes w _ _) eqn:Ew; saved_tac Hc.
Qed.

Lemma external_url_item_content_ok c title url page dir c' :
  content_ok c -> external_url_item w c title url page dir = Ok c' -> content_ok c'.
Proof.
  intros Hc. unfold external_url_item. cbv zeta.
  destruct (identify_content_type w url) as [ct|e]; [|discriminate].
  cbn [bind]. destruct ct; try (intros [= <-]; content_tac Hc).
  - destruct (extract_youtube_id w url) as [[v|]|e]; [| |discriminate];
      cbn [bind]; [destruct (is_empty v)|]; intros [= <-]; content_tac Hc.
  - destruct (extract_panopto_id w url) as [[[v h]|]|e]; [| |discriminate];
      cbn [bind]; [destruct (is_empty h)|]; intros [= <-]; content_tac Hc.
  - intros [= <-]. apply external_pdf_content_ok. content_tac Hc.
Qed.

Lemma external_url_item_saved_ok c title url page dir c' :
  saved_ok w c -> external_url_item w c title url page dir = Ok c' -> saved_ok w c'.
Proof.
  intros Hc. unfold external_url_item. cbv zeta.
  destruct (identify_content_type w url) as [ct|e]; [|discriminate].
  cbn [bind]. destruct ct; try (intros [= <-]; saved_tac Hc).
  - destruct (extract_youtube_id w url) as [[v|]|e]; [| |discriminate];
      cbn [bind]; [destruct (is_empty v)|]; intros [= <-]; saved_tac Hc.
  - destruct (extract_panopto_id w url) as [[[v h]|]|e]; [| |discriminate];
      cbn [bind]; [destruct (is_empty h)|]; intros [= <-]; saved_tac Hc.
  - intros [= <-]. apply external_pdf_saved_ok. saved_tac Hc.
Qed.


Lemma file_item_try_content_ok c page dir file_url filename download_url c' :
  content_ok c ->
  file_item_try w c page dir file_url filename download_url = Done c' ->
  content_ok c'.
Proof.
  intros Hc. unfold file_item_try, and_then.
  destruct (resolve_download w page file_url filename download_url)
    as [[du fn]|e m]; [|discriminate].
  destruct (truthy du); [|intros [= <-]; content_tac Hc].
  destruct (download w page (fmt w du)) as [file_bytes|e m]; [|discriminate].
  destruct fn as [| | |name| |]; try (unfold py_fail; discriminate).
  destruct (write_bytes w _ _) eqn:Ew; [discriminate|]. cbv zeta.
  destruct (endswith (py ".pdf") _); [intros [= <-]; content_tac Hc|].
  destruct (endswith (py ".zip") _); intros [= <-]; content_tac Hc.
Qed.

Lemma file_item_try_saved c page dir file_url filename download_url c' :
  file_item_try w c page dir file_url filename download_url = Done c' ->
  (c_extracted c = false -> c_extracted c' = true ->
   exists path, c_local_path c' = Some path)
  /\ (saved_ok w c -> saved_ok w c').
Proof.
  unfold file_item_try, and_then.
  destruct (resolve_download w page file_url filename download_url)
    as [[du fn]|e m]; [|discriminate].
  destruct (truthy du).
  - destruct (download w page (fmt w du)) as [file_bytes|e m]; [|discriminate].
    destruct fn as [| | |name| |]; try (unfold py_fail; discriminate).
    destruct (write_bytes w _ _) eqn:Ew; [discriminate|]. cbv zeta.
    destruct (endswith (py ".pdf") _);
      [|destruct (endswith (py ".zip") _)]; intros [= <-];
      (split; [intros _ _; eexists; reflexivity|intros Hc; saved_tac Hc]).
  - intros [= <-]. split; [|intros Hc; saved_tac Hc].
    unfold_setters. intros H1 H2. congruence.
Qed.

Lemma file_item_content_ok c page dir file_url filename download_url c' :
  content_ok c ->
  file_item w c page dir file_url filename download_url = Ok c' ->
  content_ok c'.
Proof.
  intros Hc. unfold file_item.
  destruct dir as [dir|]; [|intros [= <-]; content_tac Hc].
  destruct (make_dir w dir) as [[e0 m0]|]; [discriminate|].
  destruct (file_item_try w c page dir file_url filename download_url)
    as [c1|e m] eqn:E; intros [= <-]; [|content_tac Hc].
  exact (file_item_try_content_ok _ _ _ _ _ _ _ Hc E).
Qed.

Lemma file_item_saved c page dir file_url filename download_url c' :
  file_item w c page dir file_url filename download_url = Ok c' ->
  (c_extracted c = false -> c_extracted c' = true ->
   exists path, c_local_path c' = Some path)
  /\ (saved_ok w c -> saved_ok w c').
Proof.
  unfold file_item. destruct dir as [dir|].
  - destruct (make_dir w dir) as [[e0 m0]|]; [discriminate|].
    destruct (file_item_try w c page dir file_url filename download_url)
      as [c1|e m] eqn:E; intros [= <-].
    + exact (file_item_try_saved _ _ _ _ _ _ _ E).
    + split; [|intros Hc; saved_tac Hc]. unfold_setters. intros H1 H2. congruence.
  - intros [= <-]. split; [|intros Hc; saved_tac Hc].
    unfold_setters. intros H1 H2. congruence.
Qed.

Lemma external_tool_item_content_ok c title url c' :
  content_ok c -> external_tool_item w c title url = Ok c' -> content_ok c'.
Proof.
  intros Hc. unfold external_tool_item. cbv zeta.
  destruct (contains (py "panopto") _).
  - destruct (extract_panopto_id w url) as [[[v h]|]|e]; [| |discriminate];
      cbn [bind]; [destruct (is_empty h)|]; intros [= <-]; content_tac Hc.
  - destruct (contains (py "kaltura") _); [intros [= <-]; content_tac Hc|].
    destruct (is_empty url); intros [= <-]; content_tac Hc.
Qed.

Lemma external_tool_item_saved_ok c title url c' :
  saved_ok w c -> external_tool_item w c title url = Ok c' -> saved_ok w c'.
Proof.
  intros Hc. unfold external_tool_item. cbv zeta.
  destruct (contains (py "panopto") _).
  - destruct (extract_panopto_id w url) as [[[v h]|]|e]; [| |discriminate];
      cbn [bind]; [destruct (is_empty h)|]; intros [= <-]; saved_tac Hc.
  - destruct (contains (py "kaltura") _); [intros [= <-]; saved_tac Hc|].
    destruct (is_empty url); intros [= <-]; saved_tac Hc.
Qed.

(** X13.  A record [process_module_item] returns is marked as extracted
    only when it carries some content: [extracted] is never true with
    [content] left at [None], for every item, page capability and download
    directory. *)
Theorem process_module_item_extracted_has_content (item : json) (page : page_cap)
    (download_dir : option (list N)) (c : content) :
  process_module_item w item page download_dir = Ok c ->
  c_extracted c = true -> c_content c <> JNull.
Proof.
  unfold process_module_item.
  destruct (as_dict item) as [it|e]; [|discriminate]. cbn [bind].
  destruct (as_str _) as [type_name|e]; [|discriminate]. cbn [bind]. cbv zeta.
  set (c0 := {| c_title := _ |}).
  assert (H0 : content_ok c0) by (unfold content_ok; cbn; discriminate).
  destruct (str_eqb _ (py "page")).
  { intros [= <-]. unfold_setters. apply truthy_get_or. }
  destruct (str_eqb _ (py "externalurl")).
  { destruct (as_str _) as [external_url|e]; [|discriminate]. cbn [bind].
    intros H. exact (external_url_item_content_ok _ _ _ _ _ _ H0 H). }
  destruct (str_eqb _ (py "file")).
  { intros H. exact (file_item_content_ok _ _ _ _ _ _ _ H0 H). }
  destruct (str_eqb _ (py "externaltool")).
  { destruct (as_str _) as [tool_url|e]; [|discriminate]. cbn [bind].
    intros H. exact (external_tool_item_content_ok _ _ _ _ H0 H). }
  intros [= <-]. exact H0.
Qed.

Ltac type_tac := unfold_setters; reflexivity.

Lemma external_url_item_type c title url page dir c' :
  external_url_item w c title url page dir = Ok c' -> c_type c' = c_type c.
Proof.
  unfold external_url_item. cbv zeta.
  destruct (identify_content_type w url) as [ct|e]; [|discriminate].
  cbn [bind]. destruct ct; try (intros [= <-]; type_tac).
  - destruct (extract_youtube_id w url) as [[v|]|e]; [| |discriminate];
      cbn [bind]; [destruct (is_empty v)|]; intros [= <-]; type_tac.
  - destruct (extract_panopto_id w url) as [[[v h]|]|e]; [| |discriminate];
      cbn [bind]; [destruct (is_empty h)|]; intros [= <-]; type_tac.
  - intros [= <-]. unfold external_pdf. cbv zeta.
    destruct (requests_get w url []) as [r|e msg]; [|type_tac].
    destruct (negb (ok r)); [type_tac|].
    destruct dir as [dir|]; [|type_tac].
    destruct (make_dir w dir) as [[e0 m]|]; [type_tac|].
    destruct (write_bytes w _ _); type_tac.
Qed.

Lemma external_tool_item_type c title url c' :
  external_tool_item w c title url = Ok c' -> c_type c' = c_type c.
Proof.
  unfold external_tool_item. cbv zeta.
  destruct (contains (py "panopto") _).
  - destruct (extract_panopto_id w url) as [[[v h]|]|e]; [| |discriminate];
      cbn [bind]; [destruct (is_empty h)|]; intros [= <-]; type_tac.
  - destruct (contains (py "kaltura") _); [intros [= <-]; type_tac|].
    destruct (is_empty url); intros [= <-]; type_tac.
Qed.

Lemma file_item_type c page dir file_url filename download_url c' :
  file_item w c page dir file_url filename download_url = Ok c' ->
  c_type c' = c_type c.
Proof.
  unfold file_item. destruct dir as [dir|]; [|intros [= <-]; type_tac].
  destruct (make_dir w dir) as [[e0 m0]|]; [discriminate|].
  destruct (file_item_try w c page dir file_url filename download_url)
    as [c1|e m] eqn:E; intros [= <-]; [|type_tac].
  revert E. unfold file_item_try, and_then.
  destruct (resolve_download w page file_url filename download_url)
    as [[du fn]|e m]; [|discriminate].
  destruct (truthy du); [|intros [= <-]; type_tac].
  destruct (download w page (fmt w du)) as [file_bytes|e m]; [|discriminate].
  destruct fn as [| | |name| |]; try (unfold py_fail; discriminate).
  destruct (write_bytes w _ _) eqn:Ew; [discriminate|]. cbv zeta.
  destruct (endswith (py ".pdf") _); [intros [= <-]; type_tac|].
  destruct (endswith (py ".zip") _); intros [= <-]; type_tac.
Qed.

(** X14.  A record names a local file only where the file was written: the
    path under [local_path] is one that [write_bytes] has written without
    an exception.  For an item of type file, moreover, the record is marked
    as extracted only when the file was saved. *)
Theorem process_module_item_local_path_written (item : json) (page : page_cap)
    (download_dir : option (list N)) (c : content) :
  process_module_item w item page download_dir = Ok c ->
  (forall path, c_local_path c = Some path ->
   exists bytes, write_bytes w path bytes = None)
  /\ (c_type c = py "file" -> c_extracted c = true ->
      exists path bytes,
        c_local_path c = Some path /\ write_bytes w path bytes = None).
Proof.
  intros H.
  cut (saved_ok w c /\
       (c_type c = py "file" -> c_extracted c = true ->
        exists path, c_local_path c = Some path)).
  { intros [H1 H2]. split; [exact H1|]. intros Ht He.
    destruct (H2 Ht He) as [path Hp]. destruct (H1 path Hp) as [bytes Hb].
    exists path, bytes. split; assumption. }
  revert H. unfold process_module_item.
  destruct (as_dict item) as [it|e]; [|discriminate]. cbn [bind].
  destruct (as_str _) as [type_name|e]; [|discriminate]. cbn [bind]. cbv zeta.
  set (c0 := {| c_title := _ |}).
  assert (H0 : saved_ok w c0) by (unfold saved_ok; cbn; discriminate).
  assert (Ht0 : c_type c0 = str_lower w type_name) by reflexivity.
  assert (Hne : forall other, other <> py "file" ->
            str_eqb (str_lower w type_name) other = true ->
            str_lower w type_name <> py "file").
  { intros other Ho E. unfold str_eqb in E. apply bool_decide_eq_true in E.
    congruence. }
  destruct (str_eqb (str_lower w type_name) (py "page")) eqn:E1.
  { intros [= <-]. split; [saved_tac H0|]. unfold_setters. intros Ht.
    exfalso. apply (Hne (py "page")); [vm_compute; discriminate|exact E1|].
    rewrite <- Ht0. exact Ht. }
  destruct (str_eqb (str_lower w type_name) (py "externalurl")) eqn:E2.
  { destruct (as_str _) as [external_url|e]; [|discriminate]. cbn [bind].
    intros H. split; [exact (external_url_item_saved_ok _ _ _ _ _ _ H0 H)|].
    intros Ht. exfalso.
    apply (Hne (py "externalurl")); [vm_compute; discriminate|exact E2|].
    rewrite <- Ht0, <- Ht. symmetry. exact (external_url_item_type _ _ _ _ _ _ H). }
  destruct (str_eqb (str_lower w type_name) (py "file")) eqn:E3.
  { intros H. destruct (file_item_saved _ _ _ _ _ _ _ H) as [H1 H2].
    split; [exact (H2 H0)|]. intros _. apply H1. reflexivity. }
  assert (Hnf : str_lower w type_name <> py "file").
  { unfold str_eqb in E3. apply bool_decide_eq_false in E3. exact E3. }
  destruct (str_eqb (str_lower w type_name) (py "externaltool")) eqn:E4.
  { destruct (as_str _) as [tool_url|e]; [|discriminate]. cbn [bind].
    intros H. split; [exact (external_tool_item_saved_ok _ _ _ _ H0 H)|].
    intros Ht. exfalso. apply Hnf.
    rewrite <- Ht0, <- Ht. symmetry. exact (external_tool_item_type _ _ _ _ H). }
  intros [= <-]. split; [exact H0|]. intros Ht. exfalso. apply Hnf.
  rewrite <- Ht0. exact Ht.
Qed.

End ItemFacts.

Lemma process_module_item_extracted_has_content_witness :
  exists c,
    process_module_item notes_world notes_item NoPage (Some (py "files")) = Ok c
    /\ c_extracted c = true
    /\ c_content c <> JNull.
Proof.
  eexists. split; [vm_compute; reflexivity|]. split; [reflexivity|].
  apply (process_module_item_extracted_has_content notes_world notes_item NoPage
           (Some (py "files"))); [vm_compute; reflexivity|reflexivity].
Defined.

Lemma process_module_item_local_path_written_witness :
  exists c,
    process_module_item notes_world notes_item NoPage (Some (py "files")) = Ok c
    /\ c_local_path c = Some (py "files/notes.txt")
    /\ (forall path, c_local_path c = Some path ->
        exists bytes, write_bytes notes_world path bytes = None)
    /\ (c_type c = py "file" -> c_extracted c = true ->
        exists path bytes,
          c_local_path c = Some path /\ write_bytes notes_world path bytes = None).
Proof.
  eexists. split; [vm_compute; reflexivity|]. split; [reflexivity|].
  apply (process_module_item_local_path_written notes_world notes_item NoPage
           (Some (py "files"))). vm_compute. reflexivity.
Defined.


(** ** Failure placeholders of the extractors *)

(** X15.  The callers of [extract_zip_contents] take a text that begins with
    [[Could not] for a failure.  For the archive extractor the test is
    exact: the text does not begin with it exactly when the bytes carry the
    archive signature and the archive was unpacked; every failure (no
    signature, an invalid archive, any other exception) gives a text that
    begins with it. *)
Theorem extract_zip_contents_failure_prefix (w : world) (zip_bytes extract_dir : list N) :
  startswith (py "[Could not") (extract_zip_contents w zip_bytes extract_dir) = false
  <-> (startswith (py "PK") zip_bytes = true /\
       exists files_list extracted_content,
         unzip w zip_bytes extract_dir = Unpacked files_list extracted_content).
Proof.
  unfold extract_zip_contents.
  destruct (startswith (py "PK") zip_bytes); cbn [negb].
  - destruct (unzip w zip_bytes extract_dir) as [| msg | fl ec]; split.
    + intros H. vm_compute in H. discriminate.
    + intros [_ (fl & ec & H)]. discriminate.
    + intros H. cbv in H. discriminate.
    + intros [_ (fl & ec & H)]. discriminate.
    + intros _. split; [reflexivity|]. exists fl, ec. reflexivity.
    + intros _. reflexivity.
  - split; [|intros [H _]; discriminate].
    destruct (looks_like_html zip_bytes); intros H; vm_compute in H; discriminate.
Qed.

(** X16.  Every failure of [extract_pdf_text] is reported as a text that
    begins with [[Could not], the prefix its callers test: bytes without
    the PDF signature (which are never handed to the PDF library), a
    document the library cannot open, and a page whose text cannot be
    extracted. *)
Theorem extract_pdf_text_failure_prefix (w : world) (src : pdf_source) :
  (exists bytes, src = PdfBytes bytes /\ startswith (py "%PDF") bytes = false)
  \/ (exists msg, pdf_reader w src = ReaderFails msg)
  \/ (exists pages msg,
        pdf_reader w src = Pages pages /\ first_failure pages = Some msg) ->
  startswith (py "[Could not") (extract_pdf_text w src) = true.
Proof.
  assert (Hread : (exists msg, pdf_reader w src = ReaderFails msg)
                  \/ (exists pages msg,
                        pdf_reader w src = Pages pages /\
                        first_failure pages = Some msg) ->
                  startswith (py "[Could not") (read_pdf w src) = true).
  { unfold read_pdf. intros [[msg H]|(pages & msg & H1 & H2)].
    - rewrite H. reflexivity.
    - rewrite H1, collect_pages_spec, H2. reflexivity. }
  intros [(bytes & -> & Hsig)|H].
  - unfold extract_pdf_text. rewrite Hsig. cbn [negb].
    destruct (looks_like_html bytes); reflexivity.
  - unfold extract_pdf_text. destruct src as [bytes|path]; [|exact (Hread H)].
    destruct (negb (startswith (py "%PDF") bytes)); [|exact (Hread H)].
    destruct (looks_like_html bytes); reflexivity.
Qed.

Lemma extract_pdf_text_failure_prefix_witness :
  startswith (py "[Could not")
    (extract_pdf_text broken_page_world (PdfBytes (py "%PDF-1.7"))) = true.
Proof.
  apply (extract_pdf_text_failure_prefix broken_page_world (PdfBytes (py "%PDF-1.7"))).
  right. right. exists three_pages, (py "boom"). split; reflexivity.
Defined.


(** ** Workflow display *)

(** X17.  The progress bar is a prefix of done stages followed by the
    current one: whenever [get_workflow_display] returns, its line shows the
    first [k] stages done, the next one current and the others pending.
    All five are done, with no next action, exactly when the assignment was
    submitted to Canvas; otherwise [k] is 0, 1, 3 or 4 and there is a next
    action. *)
Theorem get_workflow_display_progress (float_format : number -> option (list N))
    (sub_status : list N) (sc : option scores) (submitted_to_canvas : bool)
    (line : list N) (action : option (list N)) :
  get_workflow_display float_format sub_status sc submitted_to_canvas
  = inr (line, action) ->
  exists k,
    line = progress_line k /\
    if submitted_to_canvas then k = 5%nat /\ action = None
    else (k = 0 \/ k = 1 \/ k = 3 \/ k = 4)%nat /\ action <> None.
Proof.
  unfold get_workflow_display. cbv zeta.
  destruct submitted_to_canvas.
  { intros [= <- <-]. exists 5%nat. split; [vm_compute; reflexivity|]. tauto. }
  destruct (str_eqb sub_status (py "not_started")).
  { intros [= <- <-]. exists 0%nat. split; [vm_compute; reflexivity|].
    split; [tauto|discriminate]. }
  destruct (in_list sub_status _).
  { intros [= <- <-]. exists 1%nat. split; [vm_compute; reflexivity|].
    split; [tauto|discriminate]. }
  destruct (str_eqb sub_status (py "final_ready")).
  { intros [= <- <-]. exists 3%nat. split; [vm_compute; reflexivity|].
    split; [tauto|discriminate]. }
  destruct (str_eqb sub_status (py "ai_high")).
  { destruct (format_0f float_format (shown_score sc)) as [e|shown]; [discriminate|].
    intros [= <- <-]. exists 3%nat. split; [vm_compute; reflexivity|].
    split; [tauto|discriminate]. }
  destruct (str_eqb sub_status (py "ready_to_submit")).
  { intros [= <- <-]. exists 4%nat. split; [vm_compute; reflexivity|].
    split; [tauto|discriminate]. }
  intros [= <- <-]. exists 0%nat. split; [vm_compute; reflexivity|].
  split; [tauto|discriminate].
Qed.

Lemma get_workflow_display_progress_witness :
  exists k,
    progress_line 4 = progress_line k /\
    ((k = 0 \/ k = 1 \/ k = 3 \/ k = 4)%nat /\
     Some (py "Ready! Submit to Canvas") <> None).
Proof.
  apply (get_workflow_display_progress small_format (py "ready_to_submit") None
           false (progress_line 4) (Some (py "Ready! Submit to Canvas"))).
  vm_compute. reflexivity.
Defined.









(** ** Modules of a course *)

Section ModuleFacts.

Variable w : world.

Lemma process_items_length files_dir (items : list json) :
  forall cs, process_items w files_dir items = Ok cs -> length cs = length items.
Proof.
  induction items as [|item rest IH]; intros cs; cbn [process_items].
  - intros [= <-]. reflexivity.
  - destruct (as_dict item) as [it|e]; [|discriminate]. cbn [bind].
    destruct (process_module_item w _ _ _) as [c|e]; [|discriminate]. cbn [bind].
    destruct (process_items w files_dir rest) as [others|e]; [|discriminate].
    cbn [bind]. intros [= <-]. cbn [length]. f_equal. apply IH. reflexivity.
Qed.

Lemma filter_length_le {A} (f : A -> bool) (l : list A) :
  (length (List.filter f l) <= length l)%nat.
Proof.
  induction l as [|x l IH]; cbn [List.filter length]; [lia|].
  destruct (f x); cbn [length]; lia.
Qed.

Lemma process_module_summary course_dir module s :
  process_module w course_dir module = Ok s -> summary_of course_dir module s.
Proof.
  unfold process_module. cbv zeta.
  destruct (as_dict module) as [m|e] eqn:Em; [|discriminate]. cbn [bind].
  destruct (py_len _) as [n|e]; [|discriminate]. cbn [bind].
  destruct (iterate _) as [items|e] eqn:Ei; [|discriminate]. cbn [bind].
  destruct (process_items w _ items) as [cs|e] eqn:Ep; [|discriminate]. cbn [bind].
  destruct (save_module_content w _ course_dir) as [saved|e] eqn:Es; [|discriminate].
  cbn [bind]. intros [= <-].
  destruct (save_module_content_module_dir _ _ _ _ Es) as (name0 & H1).
  rewrite path_join_modules in H1.
  destruct (module_dir_name_safe name0) as (H2 & H3 & H4).
  destruct (clean_no_slash _ H3) as [H5 H6].
  exists m, items, (module_dir_name name0).
  cbn [sum_name sum_path sum_items_count sum_extracted_count].
  refine (conj Em (conj Ei (conj eq_refl (conj _ (conj _
            (conj H2 (conj H4 (conj H5 (conj H6 (conj _ _)))))))))).
  - exact (process_items_length _ _ _ Ep).
  - apply filter_length_le.
  - intros Hn Hdot. rewrite H1. apply child_of_modules; assumption.
  - intros Hc. rewrite H1. apply path_join_self, Hc.
Qed.

Lemma process_modules_summaries course_dir (modules : list json) :
  forall summaries,
    process_modules w course_dir modules = Ok summaries ->
    Forall2 (summary_of course_dir) modules summaries.
Proof.
  induction modules as [|module rest IH]; intros summaries; cbn [process_modules].
  - intros [= <-]. constructor.
  - destruct (process_module w course_dir module) as [s|e] eqn:E; [|discriminate].
    cbn [bind].
    destruct (process_modules w course_dir rest) as [others|e]; [|discriminate].
    cbn [bind]. intros [= <-]. constructor.
    + exact (process_module_summary _ _ _ E).
    + apply IH. reflexivity.
Qed.

Lemma process_items_raises files_dir (items : list json) item it e :
  In item items ->
  as_dict item = Ok it ->
  process_module_item w (JDict (fetch_page_body w it)) Playwright (Some files_dir)
  = Raise e ->
  exists e', process_items w files_dir items = Raise e'.
Proof.
  intros Hin Hit He. induction items as [|x rest IH]; [destruct Hin|].
  cbn [process_items]. destruct Hin as [->|Hin].
  - rewrite Hit. cbn [bind]. rewrite He. eexists. reflexivity.
  - destruct (as_dict x) as [xt|e1]; [|eexists; reflexivity]. cbn [bind].
    destruct (process_module_item w (JDict (fetch_page_body w xt)) _ _)
      as [c|e1]; [|eexists; reflexivity].
    cbn [bind]. destruct (IH Hin) as [e' ->]. eexists. reflexivity.
Qed.

Lemma process_modules_raises course_dir (modules : list json) module m items item it e :
  In module modules ->
  as_dict module = Ok m ->
  iterate (get_or (py "items") (JList []) m) = Ok items ->
  In item items ->
  as_dict item = Ok it ->
  process_module_item w (JDict (fetch_page_body w it)) Playwright
    (Some (path_join course_dir (py "files"))) = Raise e ->
  exists e', process_modules w course_dir modules = Raise e'.
Proof.
  intros Hin Hm Hi Hitem Hit He.
  induction modules as [|x rest IH]; [destruct Hin|].
  cbn [process_modules]. destruct Hin as [->|Hin].
  - unfold process_module. cbv zeta. rewrite Hm. cbn [bind].
    destruct (py_len _) as [n|e1]; [|eexists; reflexivity]. cbn [bind].
    rewrite Hi. cbn [bind].
    destruct (process_items_raises _ _ _ _ _ Hitem Hit He) as [e' ->].
    eexists. reflexivity.
  - destruct (process_module w course_dir x) as [s|e1]; [|eexists; reflexivity].
    cbn [bind]. destruct (IH Hin) as [e' ->]. eexists. reflexivity.
Qed.

(** X20.  Whenever [fetch_and_process_modules] returns after a successful
    request, it returns one summary per module of the answer, in order: the
    summary carries the name of the module and counts every item of it, the
    count of extracted items is at most the count of items, and the path is
    made of [<course_dir>/modules] and a name of at most 50 characters
    without whitespace, slash or backslash: [<course_dir>/modules/<name>],
    or [<course_dir>/modules] itself when the name is empty or a single
    dot.  [course_dir] is the text of a path. *)
Theorem fetch_and_process_modules_summaries (course_id : json)
    (course_dir : list N) (summaries : list module_summary)
    (response : response) (answer : json) (modules : list json) :
  page_get w (modules_url w course_id) = Done response ->
  ok response = true ->
  json_body response = Some answer ->
  iterate answer = Ok modules ->
  fetch_and_process_modules w course_id course_dir = Ok summaries ->
  Forall2
    (fun module s =>
       exists m items name,
         as_dict module = Ok m
         /\ iterate (get_or (py "items") (JList []) m) = Ok items
         /\ sum_name s = get_or (py "name") (JStr (py "Unknown Module")) m
         /\ sum_items_count s = length items
         /\ (sum_extracted_count s <= sum_items_count s)%nat
         /\ (length name <= 50)%nat
         /\ no_space name /\ ~ In 47 name /\ ~ In 92 name
         /\ (name <> [] -> name <> py "." ->
             sum_path s = modules_path course_dir ++ py "/" ++ name)
         /\ (name = [] \/ name = py "." -> sum_path s = modules_path course_dir))
    modules summaries.
Proof.
  intros Hget Hok Hjson Hiter. unfold fetch_and_process_modules.
  rewrite Hget, Hok, Hjson, Hiter. cbn [negb bind].
  apply process_modules_summaries.
Qed.

(** X21.  No item is processed on its own: [process_module_item] is called
    outside any handler, so an exception it raises for one item of one
    module ends the whole run, and [fetch_and_process_modules] raises
    instead of returning the summaries of the other modules. *)
Theorem fetch_and_process_modules_item_failure (course_id : json)
    (course_dir : list N) (response : response) (answer : json)
    (modules : list json) (module : json) (m : list (list N * json))
    (items : list json) (item : json) (it : list (list N * json)) (e : exn) :
  page_get w (modules_url w course_id) = Done response ->
  ok response = true ->
  json_body response = Some answer ->
  iterate answer = Ok modules ->
  In module modules ->
  as_dict module = Ok m ->
  iterate (get_or (py "items") (JList []) m) = Ok items ->
  In item items ->
  as_dict item = Ok it ->
  process_module_item w (JDict (fetch_page_body w it)) Playwright
    (Some (path_join course_dir (py "files"))) = Raise e ->
  exists e', fetch_and_process_modules w course_id course_dir = Raise e'.
Proof.
  intros Hget Hok Hjson Hiter Hin Hm Hi Hitem Hit He.
  unfold fetch_and_process_modules.
  rewrite Hget, Hok, Hjson, Hiter. cbn [negb bind].
  exact (process_modules_raises _ _ _ _ _ _ _ _ Hin Hm Hi Hitem Hit He).
Qed.

End ModuleFacts.

Lemma fetch_and_process_modules_summaries_witness :
  exists summaries,
    fetch_and_process_modules (course_world (JList [week_one [page_item]]))
      (JNum (NInt 101)) (py "courses/101") = Ok summaries
    /\ Forall2
         (fun module s =>
            exists m items name,
              as_dict module = Ok m
              /\ iterate (get_or (py "items") (JList []) m) = Ok items
              /\ sum_name s = get_or (py "name") (JStr (py "Unknown Module")) m
              /\ sum_items_count s = length items
              /\ (sum_extracted_count s <= sum_items_count s)%nat
              /\ (length name <= 50)%nat
              /\ no_space name /\ ~ In 47 name /\ ~ In 92 name
              /\ (name <> [] -> name <> py "." ->
                  sum_path s = modules_path (py "courses/101") ++ py "/" ++ name)
              /\ (name = [] \/ name = py "." ->
                  sum_path s = modules_path (py "courses/101")))
         [week_one [page_item]] summaries.
Proof.
  eexists. split; [vm_compute; reflexivity|].
  eapply (fetch_and_process_modules_summaries
            (course_world (JList [week_one [page_item]]))
            (JNum (NInt 101)) (py "courses/101") _
            (ok_response (Some (JList [week_one [page_item]])) [])
            (JList [week_one [page_item]]) [week_one [page_item]]);
    vm_compute; reflexivity.
Defined.

Lemma fetch_and_process_modules_item_failure_witness :
  exists e',
    fetch_and_process_modules
      (course_world (JList [week_one [page_item; bracket_item]]))
      (JNum (NInt 101)) (py "courses/101") = Raise e'.
Proof.
  eapply (fetch_and_process_modules_item_failure
            (course_world (JList [week_one [page_item; bracket_item]]))
            (JNum (NInt 101)) (py "courses/101")
            (ok_response (Some (JList [week_one [page_item; bracket_item]])) [])
            (JList [week_one [page_item; bracket_item]])
            [week_one [page_item; bracket_item]]
            (week_one [page_item; bracket_item]) _
            [page_item; bracket_item] bracket_item _ ValueError);
    try (vm_compute; reflexivity).
  - left. reflexivity.
  - right. left. reflexivity.
Defined.


(** ** External links *)

(** X22.  The headless client has no [request] attribute, so with it as
    [page] no web page is ever read: for an external link that is classified
    as a web page (or as Vimeo, Word or PowerPoint, which take the same
    branch) the record carries the placeholder of the attribute error and is
    not marked as extracted, whatever the network would answer. *)
Theorem process_module_item_headless_webpage (w : world)
    (it : list (list N * json)) (type_name url : list N) (ct : content_type)
    (download_dir : option (list N)) :
  get_or (py "type") (JStr []) it = JStr type_name ->
  str_lower w type_name = py "externalurl" ->
  get_or (py "external_url") (JStr []) it = JStr url ->
  identify_content_type w url = Ok ct ->
  ct = webpage \/ ct = vimeo \/ ct = word \/ ct = powerpoint ->
  exists c,
    process_module_item w (JDict it) Headless download_dir = Ok c
    /\ c_content c =
       JStr (py "[Could not extract webpage content: "
               ++ exn_text w AttributeError ++ py "]")
    /\ c_extracted c = false.
Proof.
  intros Ht Hl Hu Hc Hct. unfold process_module_item. cbn [as_dict bind].
  rewrite Ht. cbn [as_str bind]. rewrite Hl, Hu.
  change (str_eqb (py "externalurl") (py "page")) with false.
  change (str_eqb (py "externalurl") (py "externalurl")) with true.
  cbv iota. cbn [as_str bind]. unfold external_url_item. rewrite Hc. cbn [bind].
  destruct Hct as [-> |[-> |[-> | ->]]];
    (eexists; split; [reflexivity|]; split; reflexivity).
Qed.

Lemma process_module_item_headless_webpage_witness :
  exists c,
    process_module_item notes_world article_item Headless None = Ok c
    /\ c_content c =
       JStr (py "[Could not extract webpage content: "
               ++ exn_text notes_world AttributeError ++ py "]")
    /\ c_extracted c = false.
Proof.
  apply (process_module_item_headless_webpage notes_world
           [ (py "type", JStr (py "ExternalUrl"));
             (py "title", JStr (py "Background reading"));
             (py "external_url", JStr (py "https://example.edu/articles/intro")) ]
           (py "ExternalUrl") (py "https://example.edu/articles/intro") webpage None);
    try (vm_compute; reflexivity).
  left. reflexivity.
Defined.

(** X23.  The classifier looks for the name of a video host anywhere in the
    link, before it looks at the extension: an external link with [panopto]
    in its text but not in its network location (a PDF in a folder of that
    name, say) is taken for a video of that host, is never downloaded, and
    its record carries the placeholder [[Panopto video: <link>]] and is not
    marked as extracted. *)
Theorem process_module_item_panopto_in_path (w : world)
    (it : list (list N * json)) (type_name url : list N) (p : Url.parsed)
    (page : page_cap) (download_dir : option (list N)) :
  get_or (py "type") (JStr []) it = JStr type_name ->
  str_lower w type_name = py "externalurl" ->
  get_or (py "external_url") (JStr []) it = JStr url ->
  Url.urlparse w url = Ok p ->
  contains (py "youtube.com") (str_lower w url) = false ->
  contains (py "youtu.be") (str_lower w url) = false ->
  contains (py "vimeo.com") (str_lower w url) = false ->
  contains (py "panopto") (str_lower w url) = true ->
  contains (py "panopto") (str_lower w (Url.netloc p)) = false ->
  exists c,
    process_module_item w (JDict it) page download_dir = Ok c
    /\ c_content c = JStr (py "[Panopto video: " ++ url ++ py "]")
    /\ c_extracted c = false
    /\ c_local_path c = None.
Proof.
  intros Ht Hl Hu Hp H1 H2 H3 H4 H5. unfold process_module_item.
  cbn [as_dict bind]. rewrite Ht. cbn [as_str bind]. rewrite Hl, Hu.
  change (str_eqb (py "externalurl") (py "page")) with false.
  change (str_eqb (py "externalurl") (py "externalurl")) with true.
  cbv iota. cbn [as_str bind]. unfold external_url_item.
  unfold identify_content_type. rewrite Hp. cbn [bind].
  rewrite H1, H2, H3, H4. cbn [orb bind].
  unfold extract_panopto_id. rewrite Hp. cbn [bind]. rewrite H5. cbn [bind].
  eexists. split; [reflexivity|]. repeat split.
Qed.

Lemma process_module_item_panopto_in_path_witness :
  endswith (py ".pdf") guide_url = true
  /\ exists c,
       process_module_item notes_world guide_item NoPage (Some (py "files")) = Ok c
       /\ c_content c = JStr (py "[Panopto video: " ++ guide_url ++ py "]")
       /\ c_extracted c = false
       /\ c_local_path c = None.
Proof.
  split; [vm_compute; reflexivity|].
  destruct (Url.urlparse notes_world guide_url) as [p|e] eqn:E;
    [|vm_compute in E; discriminate].
  apply (process_module_item_panopto_in_path notes_world
           [ (py "type", JStr (py "ExternalUrl"));
             (py "title", JStr (py "Recording guide"));
             (py "external_url", JStr guide_url) ]
           (py "ExternalUrl") guide_url p NoPage (Some (py "files")));
    try (vm_compute; reflexivity); try exact E.
  vm_compute in E. injection E as <-. vm_compute. reflexivity.
Defined.


(** ** Text of a web page *)

Lemma match_spaces pos (s : list N) :
  match_at false re_spaces pos s =
  if Nat.leb 2 (run_len (N.eqb 32) s)
  then Some ((pos + run_len (N.eqb 32) s)%nat, []) else None.
Proof. unfold match_at, re_spaces. cbn [mt andb]. apply rep_greedy_run. Qed.

Lemma single_spaces_after_run (s : list N) :
  single_spaces true s = single_spaces false (drop (run_len (N.eqb 32) s) s).
Proof.
  induction s as [|x t IH]; [reflexivity|].
  cbn [single_spaces run_len]. destruct (32 =? x) eqn:E.
  - cbn [drop]. exact IH.
  - cbn [drop single_spaces]. rewrite E. reflexivity.
Qed.

Lemma collapse_spaces (n : nat) :
  forall (s : list N) pos, (length s <= n)%nat ->
  sub_go re_spaces (expand [TLit (py " ")]) pos O s = single_spaces false s.
Proof.
  induction n as [|n IH]; intros s pos Hlen.
  - destruct s; [|simpl in Hlen; lia]. cbn [sub_go].
    rewrite match_spaces. reflexivity.
  - destruct s as [|x t]; [cbn [sub_go]; rewrite match_spaces; reflexivity|].
    simpl in Hlen. rewrite sub_go_cons, match_spaces.
    cbn [run_len single_spaces]. destruct (32 =? x) eqn:Ex.
    + pose proof (run_len_le (N.eqb 32) t) as Hle.
      destruct (run_len (N.eqb 32) t) as [|k] eqn:Er.
      * cbn [Nat.leb]. f_equal. rewrite IH by lia.
        rewrite single_spaces_after_run, Er. reflexivity.
      * cbn [Nat.leb].
        replace (Nat.eqb (pos + S (S k)) pos) with false
          by (symmetry; apply Nat.eqb_neq; lia).
        change (expand [TLit (py " ")] []) with [32].
        apply N.eqb_eq in Ex. subst x. cbn [app]. f_equal.
        rewrite sub_go_skip by lia. rewrite IH by (rewrite length_drop; lia).
        rewrite single_spaces_after_run, Er. f_equal. f_equal. lia.
    + cbn [Nat.leb]. f_equal. apply IH. lia.
Qed.

Lemma single_spaces_head (s : list N) : hd_error (single_spaces true s) <> Some 32.
Proof.
  induction s as [|x t IH]; [discriminate|].
  cbn [single_spaces]. destruct (32 =? x) eqn:E; [exact IH|].
  cbn [hd_error]. intros [= ->]. discriminate.
Qed.

Lemma single_spaces_no_double (s : list N) :
  forall b, contains (py "  ") (single_spaces b s) = false.
Proof.
  induction s as [|x t IH]; intros b; [reflexivity|].
  cbn [single_spaces]. destruct (32 =? x) eqn:E.
  - destruct b; [apply IH|].
    cbn [contains]. rewrite IH, orb_false_r.
    pose proof (single_spaces_head t) as Hh.
    change (py "  ") with [32; 32].
    destruct (single_spaces true t) as [|y u]; cbn [startswith];
      [apply andb_false_r|].
    destruct (N.eqb_spec 32 y) as [<-|]; [exfalso; apply Hh; reflexivity|].
    rewrite andb_false_r. reflexivity.
  - cbn [contains]. rewrite IH, orb_false_r.
    change (py "  ") with [32; 32]. cbn [startswith]. rewrite E. reflexivity.
Qed.

Lemma single_spaces_lead (s : list N) : (lead (single_spaces false s) <= lead s)%nat.
Proof.
  induction s as [|x t IH]; [reflexivity|].
  cbn [single_spaces]. destruct (32 =? x) eqn:E.
  - cbn [lead]. rewrite N.eqb_sym in E.
    apply N.eqb_eq in E. subst x. cbn. lia.
  - cbn [lead]. destruct (10 =? x); lia.
Qed.

Lemma single_spaces_runs_ok (s : list N) :
  runs_ok s -> forall b, runs_ok (single_spaces b s).
Proof.
  induction s as [|x t IH]; intros H b; [exact I|].
  destruct H as [Hl Ht]. cbn [single_spaces].
  assert (Hkeep : (32 =? x) = false -> runs_ok (x :: single_spaces false t)).
  { intros E. split; [|apply IH, Ht].
    cbn [lead] in Hl |- *. pose proof (single_spaces_lead t).
    destruct (10 =? x); lia. }
  destruct (32 =? x) eqn:E; [|apply Hkeep; reflexivity].
  destruct b; [apply IH, Ht|].
  split; [|apply IH, Ht].
  apply N.eqb_eq in E. subst x. cbn. lia.
Qed.

Lemma startswith_app (p a b : list N) :
  startswith p a = true -> startswith p (a ++ b) = true.
Proof.
  revert a. induction p as [|c p IH]; intros a H; [reflexivity|].
  destruct a as [|x a]; [discriminate|].
  cbn [startswith app] in *. apply andb_true_iff in H as [H1 H2].
  rewrite H1, (IH _ H2). reflexivity.
Qed.

Lemma contains_app_false (needle a b : list N) :
  contains needle (a ++ b) = false ->
  contains needle a = false /\ contains needle b = false.
Proof.
  induction a as [|x a IH]; intros H.
  - split; [|exact H]. destruct needle as [|c needle]; [|reflexivity].
    destruct b; discriminate H.
  - cbn [app contains] in H. apply orb_false_iff in H as [H1 H2].
    destruct (IH H2) as [Ha Hb]. split; [|exact Hb].
    cbn [contains]. rewrite Ha, orb_false_r.
    destruct (startswith needle (x :: a)) eqn:E; [|reflexivity].
    pose proof (startswith_app _ (x :: a) b E) as H3. cbn [app] in H3.
    rewrite H3 in H1. discriminate H1.
Qed.

Lemma dropwhile_suffix p (s : list N) : exists d, s = d ++ dropwhile p s.
Proof.
  induction s as [|x t IH]; [exists []; reflexivity|].
  cbn [dropwhile]. destruct (p x); [|exists []; reflexivity].
  destruct IH as [d Hd]. exists (x :: d). cbn [app]. f_equal. exact Hd.
Qed.

Lemma contains_strip_by needle p (s : list N) :
  contains needle s = false -> contains needle (strip_by p s) = false.
Proof.
  intros H. unfold strip_by, lstrip_by.
  destruct (dropwhile_suffix p s) as [d Hd].
  rewrite Hd in H. apply contains_app_false in H as [_ H].
  destruct (rstrip_by_prefix p (dropwhile p s)) as [d' Hd'].
  rewrite Hd' in H. apply contains_app_false in H as [H _]. exact H.
Qed.

Lemma html_to_text_normal_form (w : world) (html : list N) :
  contains (nl ++ nl ++ nl) (html_to_text w html) = false
  /\ contains (py "  ") (html_to_text w html) = false
  /\ strip (html_to_text w html) = html_to_text w html.
Proof.
  unfold html_to_text. cbv zeta. set (u := Html.unescape (html5 w) _).
  assert (E : re_sub re_spaces [TLit (py " ")]
                (re_sub re_blank_lines [TLit (nl ++ nl)] u)
              = single_spaces false (squeeze 0 u)).
  { unfold re_sub.
    rewrite (collapse_squeeze (length u)) by apply Nat.le_refl.
    apply (collapse_spaces (length (squeeze 0 u))). apply Nat.le_refl. }
  rewrite E. split; [|split].
  - apply runs_ok_contains. unfold strip. apply runs_ok_strip_by.
    apply single_spaces_runs_ok. apply (squeeze_runs_ok u O). lia.
  - unfold strip. apply contains_strip_by, single_spaces_no_double.
  - unfold strip. apply strip_by_idem.
Qed.

(** X24.  Whenever the page is fetched ([page.request.get] or
    [requests.get] answers and the answer is ok), the text
    [extract_webpage_content] returns is in normal form: no three line
    feeds in a row, no two spaces in a row, and no whitespace at either
    end. *)
Theorem extract_webpage_content_normal_form (w : world) (url : list N)
    (page : page_cap) (r : response) :
  (page = Playwright /\ page_get w url = Done r) \/
  (page = NoPage /\ requests_get w url [] = Done r) ->
  ok r = true ->
  contains (nl ++ nl ++ nl) (extract_webpage_content w url page) = false
  /\ contains (py "  ") (extract_webpage_content w url page) = false
  /\ strip (extract_webpage_content w url page) = extract_webpage_content w url page.
Proof.
  intros [[-> H]|[-> H]] Hok; unfold extract_webpage_content; cbv zeta;
    rewrite H, Hok; apply html_to_text_normal_form.
Qed.


Lemma extract_webpage_content_normal_form_witness :
  extract_webpage_content article_world (py "https://example.edu/a") NoPage
  = py "## Intro" ++ nl ++ nl ++ py "Hello world" ++ nl ++ nl ++ py " Bye"
  /\ contains (nl ++ nl ++ nl)
       (extract_webpage_content article_world (py "https://example.edu/a") NoPage)
     = false
  /\ contains (py "  ")
       (extract_webpage_content article_world (py "https://example.edu/a") NoPage)
     = false
  /\ strip (extract_webpage_content article_world (py "https://example.edu/a") NoPage)
     = extract_webpage_content article_world (py "https://example.edu/a") NoPage.
Proof.
  split; [vm_compute; reflexivity|].
  apply (extract_webpage_content_normal_form article_world
           (py "https://example.edu/a") NoPage article_response);
    [right; split; reflexivity|reflexivity].
Defined.

(** ** Where a match ends *)

Section MatchEnds.

Context {A : Type}.








End MatchEnds.

(** ** Display name of a course *)



(** The pattern begins with four digits: a name that begins otherwise is
    returned as it is. *)
Lemma parse_course_display_name_other (x : N) (t : list N) :
  is_decimal x = false -> parse_course_display_name (x :: t) = x :: t.
Proof.
  intros H. unfold parse_course_display_name, match_at, re_course_name.
  cbn [seqs mt Nat.eqb rep_greedy hi_zero]. rewrite H. reflexivity.
Qed.

Example parse_course_display_name_ex :
  parse_course_display_name (py "2026WI_MSDS_462-DL_SEC55 Computer Vision")
  = py "Computer Vision".
Proof. vm_compute. reflexivity. Qed.


(** ** Video identifiers *)

Lemma break_at p (a : list N) x (b : list N) :
  forallb (fun c => negb (p c)) a = true -> p x = true ->
  Url.break p (a ++ x :: b) = (a, x :: b).
Proof.
  intros Ha Hx. induction a as [|c a IH]; cbn [app Url.break].
  - rewrite Hx. reflexivity.
  - cbn [forallb] in Ha. apply andb_true_iff in Ha as [Hc Ha].
    apply negb_true_iff in Hc. rewrite Hc, (IH Ha). reflexivity.
Qed.

Lemma mem_forallb_false (p : N -> bool) c (l : list N) :
  forallb p l = true -> p c = false -> mem c l = false.
Proof.
  intros Hl Hc. unfold mem. induction l as [|x l IH]; [reflexivity|].
  cbn [forallb existsb] in *. apply andb_true_iff in Hl as [Hx Hl].
  rewrite (IH Hl), orb_false_r. apply N.eqb_neq. intros <-. congruence.
Qed.

Lemma path_chars_safe (rest : list N) :
  forallb is_path_char rest = true ->
  forallb (fun c => negb (Url.is_unsafe c)) rest = true
  /\ mem 35 rest = false /\ mem 63 rest = false /\ mem 59 rest = false.
Proof.
  intros H. split; [|repeat split].
  - apply forallb_forall. intros c Hc. rewrite forallb_forall in H.
    apply H in Hc. unfold is_path_char in Hc. apply andb_true_iff in Hc. tauto.
  - apply (mem_forallb_false _ _ _ H). reflexivity.
  - apply (mem_forallb_false _ _ _ H). reflexivity.
  - apply (mem_forallb_false _ _ _ H). reflexivity.
Qed.

(** The parse of [https://<host>/<rest>], for a host and a rest without
    the characters that end them. *)
Lemma urlparse_https (w : world) (host rest : list N) :
  forallb (fun c => negb (Url.is_unsafe c)) host = true ->
  forallb (fun c => negb (mem c (py "/?#"))) host = true ->
  Url.unbalanced host = false ->
  netloc_ok w host = true ->
  forallb is_path_char rest = true ->
  Url.urlparse w (py "https://" ++ host ++ py "/" ++ rest) =
  Ok {| Url.scheme := py "https"; Url.netloc := host; Url.path := py "/" ++ rest;
        Url.params := []; Url.query := []; Url.fragment := [] |}.
Proof.
  intros Hs Hd Hu Hn Hr. destruct (path_chars_safe rest Hr) as (Hrs & H35 & H63 & H59).
  unfold Url.urlparse.
  assert (E : Url.urlsplit w (py "https://" ++ host ++ py "/" ++ rest) =
              Ok {| Url.scheme := py "https"; Url.netloc := host;
                    Url.path := py "/" ++ rest;
                    Url.params := []; Url.query := []; Url.fragment := [] |}).
  { unfold Url.urlsplit.
    change (py "https://" ++ host ++ py "/" ++ rest)
      with (104 :: 116 :: 116 :: 112 :: 115 :: 58 :: 47 :: 47 :: host ++ 47 :: rest).
    cbn [dropwhile]. change (Url.is_c0_or_space 104) with false. cbv iota.
    cbn [List.filter]. change (Url.is_unsafe 104) with false.
    change (Url.is_unsafe 116) with false. change (Url.is_unsafe 112) with false.
    change (Url.is_unsafe 115) with false.
    change (Url.is_unsafe 58) with false. change (Url.is_unsafe 47) with false.
    cbn [negb]. rewrite List.filter_app. cbn [List.filter].
    change (Url.is_unsafe 47) with false. cbn [negb].
    rewrite (filter_all _ _ Hs), (filter_all _ _ Hrs).
    change (Url.split_scheme
              (104 :: 116 :: 116 :: 112 :: 115 :: 58 :: 47 :: 47 :: host ++ 47 :: rest))
      with (py "https", 47 :: 47 :: host ++ 47 :: rest).
    change (startswith (py "//") (47 :: 47 :: host ++ 47 :: rest)) with true.
    cbv iota. change (drop 2 (47 :: 47 :: host ++ 47 :: rest)) with (host ++ 47 :: rest).
    rewrite (break_at _ host 47 rest Hd eq_refl), Hu.
    change (startswith (py "//") (47 :: 47 :: host ++ 47 :: rest)) with true.
    cbn [bind]. cbv beta iota zeta.
    change (mem 35 (47 :: rest)) with (mem 35 rest). rewrite H35.
    cbv beta iota zeta.
    change (mem 63 (47 :: rest)) with (mem 63 rest). rewrite H63.
    cbv beta iota zeta. rewrite Hn. reflexivity. }
  rewrite E. cbn [bind Url.scheme Url.path].
  change (mem 59 (py "/" ++ rest)) with (mem 59 rest). rewrite H59, andb_false_r.
  reflexivity.
Qed.

(** X26.  The identifier is recovered from the two link forms that carry it
    in the path: [extract_youtube_id] returns [<id>] for
    [https://youtu.be/<id>], and for [https://www.youtube.com/embed/<id>]
    when the identifier has no slash; the identifier may hold any character
    the URL parser keeps inside a path. *)
Theorem extract_youtube_id_from_path (w : world) (id : list N) :
  netloc_ok w (py "youtu.be") = true ->
  netloc_ok w (py "www.youtube.com") = true ->
  forallb is_path_char id = true ->
  extract_youtube_id w (py "https://youtu.be/" ++ id) = Ok (Some id)
  /\ (~ In 47 id ->
      extract_youtube_id w (py "https://www.youtube.com/embed/" ++ id) = Ok (Some id)).
Proof.
  intros H1 H2 Hid. split.
  - unfold extract_youtube_id.
    change (py "https://youtu.be/" ++ id)
      with (py "https://" ++ py "youtu.be" ++ py "/" ++ id).
    rewrite (urlparse_https w (py "youtu.be") id) by (try assumption; reflexivity).
    reflexivity.
  - intros Hn. unfold extract_youtube_id.
    change (py "https://www.youtube.com/embed/" ++ id)
      with (py "https://" ++ py "www.youtube.com" ++ py "/" ++ (py "embed/" ++ id)).
    rewrite (urlparse_https w (py "www.youtube.com") (py "embed/" ++ id));
      try assumption; try reflexivity.
    cbn [bind Url.netloc Url.path].
      change (contains (py "youtube.com") (py "www.youtube.com")) with true.
      cbv iota.
      replace (str_eqb (py "/" ++ py "embed/" ++ id) (py "/watch")) with false.
      * change (startswith (py "/embed/") (py "/" ++ py "embed/" ++ id)) with true.
        cbv iota. unfold split.
        change (py "/" ++ py "embed/" ++ id) with (py "/embed/" ++ id).
        change (split_on 47 [] (py "/embed/" ++ id))
          with ([] :: py "embed" :: split_on 47 [] id).
        rewrite <- (app_nil_r id) at 1.
        rewrite (split_on_app_nosep 47 id Hn [] []). cbn [split_on nth_error].
        rewrite app_nil_r, rev_involutive. reflexivity.
      * symmetry. unfold str_eqb. apply bool_decide_eq_false. discriminate.
Qed.

Lemma extract_youtube_id_from_path_witness :
  extract_youtube_id notes_world (py "https://youtu.be/" ++ py "dQw4w9WgXcQ")
  = Ok (Some (py "dQw4w9WgXcQ"))
  /\ (~ In 47 (py "dQw4w9WgXcQ") ->
      extract_youtube_id notes_world
        (py "https://www.youtube.com/embed/" ++ py "dQw4w9WgXcQ")
      = Ok (Some (py "dQw4w9WgXcQ"))).
Proof.
  apply (extract_youtube_id_from_path notes_world (py "dQw4w9WgXcQ"));
    vm_compute; reflexivity.
Defined.


(** ** Colours of the detection line and states of the state machine *)

Lemma below_mono (n : number) (a b : Z) : (a <= b)%Z -> below n a -> below n b.
Proof.
  intros Hab. destruct n as [z|q| |negative]; cbn [below]; try tauto.
  - lia.
  - intros H. eapply Qlt_le_trans; [exact H|]. rewrite <- Zle_Qle. exact Hab.
Qed.

(** The services without a score are shown dimmed. *)
Lemma service_parts_scoreless (float_format : number -> option (list N))
    (before services : list (list N * json)) (parts : list (list N)) :
  Forall scoreless before ->
  service_parts float_format services = inr parts ->
  service_parts float_format (before ++ services)
  = inr (map (fun s => py "[dim]" ++ fst s ++ py " --[/dim]") before ++ parts).
Proof.
  intros Hb Hs. induction Hb as [|[name d] before (data & Hd & Hnull) Hb IH].
  - exact Hs.
  - cbn [snd] in Hd. subst d. cbn [app service_parts service_part map fst].
    rewrite Hnull. cbn [is_none negb]. rewrite IH. reflexivity.
Qed.

(** The part of a service whose score is a number. *)
Lemma service_part_number (float_format : number -> option (list N))
    (service : list N) (data : list (list N * json)) (n : number) (shown : list N) :
  get (py "score") data = JNum n ->
  float_format n = Some shown ->
  service_part float_format service (JDict data)
  = inr (colored (if number_lt n 20 then py "green"
                  else if number_lt n 50 then py "yellow" else py "red")
           service shown).
Proof.
  intros Hs Hf. unfold service_part. rewrite Hs.
  cbn [is_none negb lt_int format_0f]. rewrite Hf.
  destruct (number_lt n 20); [reflexivity|].
  destruct (number_lt n 50); reflexivity.
Qed.

(** X27.  The detection line and the state machine read the same score of
    [ai_check.json] with different thresholds.  For a cache document without
    an error whose first service with a score has a score that is a number,
    and no humanized score: the part of that service in the line is green
    below 20, yellow from 20 to below 50 and red from 50 on (the services in
    front are shown dimmed), while the state is [ready_to_submit] below 30
    and [ai_high] from 30 on.  So green goes with [ready_to_submit] and red
    with [ai_high], but a score from 20 to below 30 is shown in yellow for a
    submission that is ready to submit. *)
Theorem detection_colour_and_state (json_load : list N -> option json)
    (float_format : number -> option (list N)) (time_ago_of : list N -> list N)
    (files : gmap (list N) entry) (text : list N)
    (kvs before after : list (list N * json)) (service : list N)
    (data : list (list N * json)) (n : number) (shown : list N)
    (rest : list (list N)) :
  exists_in files (py "final.md") = true ->
  files !! py "ai_check.json" = Some (File text) ->
  json_load text = Some (JDict kvs) ->
  truthy (get (py "error") kvs) = false ->
  get_or (py "services") (JDict []) kvs
  = JDict (before ++ (service, JDict data) :: after) ->
  Forall scoreless before ->
  get (py "score") data = JNum n ->
  (forall h, ~ humanized_score_is json_load files h) ->
  float_format n = Some shown ->
  service_parts float_format after = inr rest ->
  exists colour age st,
    format_detection_results float_format time_ago_of
      (load_cached_results json_load (Dir files))
    = inr (Some (join (py " | ")
                   (map (fun s => py "[dim]" ++ fst s ++ py " --[/dim]") before
                    ++ colored colour service shown :: rest)), age)
    /\ status_of (get_submission_status json_load (Dir files)) = Ok st
    /\ (colour = py "green" <-> below n 20)
    /\ (colour = py "yellow" <-> ~ below n 20 /\ below n 50)
    /\ (colour = py "red" <-> ~ below n 50)
    /\ (st = ready_to_submit <-> below n 30)
    /\ (st = ai_high <-> ~ below n 30).
Proof.
  intros Hf Hc Hl Herr Hsv Hb Hs Hh Hfmt Hrest.
  exists (if number_lt n 20 then py "green"
          else if number_lt n 50 then py "yellow" else py "red").
  eexists. exists (if number_lt n 30 then ready_to_submit else ai_high).
  split.
  { unfold load_cached_results, lookup_path. rewrite Hc. unfold read_json.
    rewrite Hl. unfold format_detection_results.
    assert (Hk : truthy (JDict kvs) = true).
    { destruct kvs; [|reflexivity]. destruct before; discriminate Hsv. }
    rewrite Hk, Herr, Hsv. cbn [negb orb].
    replace (truthy (JDict (before ++ (service, JDict data) :: after))) with true
      by (destruct before; reflexivity).
    cbn [negb].
    rewrite (service_parts_scoreless float_format before _
               (colored (if number_lt n 20 then py "green"
                         else if number_lt n 50 then py "yellow" else py "red")
                  service shown :: rest) Hb).
    - reflexivity.
    - cbn [service_parts]. rewrite (service_part_number _ _ _ _ _ Hs Hfmt), Hrest.
      reflexivity. }
  split.
  { assert (Hm : main_score_is json_load files (JNum n)).
    { exists text, (JDict kvs). split; [exact Hc|]. split; [exact Hl|].
      exists kvs, (before ++ (service, JDict data) :: after), before, service, data, after.
      repeat split; try assumption; try reflexivity. discriminate. }
    rewrite (status_by_main _ _ _ Hf Hm Hh), status_of_bind. reflexivity. }
  assert (B : forall k, if number_lt n k then below n k else ~ below n k).
  { intros k. destruct (number_lt n k) eqn:E; [apply number_lt_below, E|].
    intros H. apply number_lt_below in H. congruence. }
  pose proof (B 20%Z) as B20. pose proof (B 30%Z) as B30. pose proof (B 50%Z) as B50.
  pose proof (below_mono n 20 30 ltac:(lia)) as M1.
  pose proof (below_mono n 30 50 ltac:(lia)) as M2.
  clear B.
  destruct (number_lt n 20); destruct (number_lt n 30); destruct (number_lt n 50);
    try (exfalso; tauto);
    repeat split; intros;
    try reflexivity; try tauto; try congruence;
    try (exfalso;
         match goal with
         | H : @eq (list N) _ _ |- _ => vm_compute in H; discriminate H
         end).
Qed.

Lemma detection_colour_and_state_witness :
  exists colour age st,
    format_detection_results whole_format (fun _ => py "just now")
      (load_cached_results cache_load (Dir (dir_scored (py "25.0"))))
    = inr (Some (join (py " | ")
                   (map (fun s : list N * json => py "[dim]" ++ fst s ++ py " --[/dim]") []
                    ++ colored colour (py "zerogpt") (py "25") :: [])), age)
    /\ status_of (get_submission_status cache_load (Dir (dir_scored (py "25.0"))))
       = Ok st
    /\ (colour = py "green" <-> below (NFloat (inject_Z 25)) 20)
    /\ (colour = py "yellow" <->
        ~ below (NFloat (inject_Z 25)) 20 /\ below (NFloat (inject_Z 25)) 50)
    /\ (colour = py "red" <-> ~ below (NFloat (inject_Z 25)) 50)
    /\ (st = ready_to_submit <-> below (NFloat (inject_Z 25)) 30)
    /\ (st = ai_high <-> ~ below (NFloat (inject_Z 25)) 30).
Proof.
  apply (detection_colour_and_state cache_load whole_format
           (fun _ => py "just now") (dir_scored (py "25.0"))
           (detection_text md5_final_text (py "25.0"))
           (detection_fields md5_final_text (float_of 25)) [] []
           (py "zerogpt") (service_fields (float_of 25) 0 "Most of Your Text is AI/GPT Generated")
           (NFloat (inject_Z 25)) (py "25") []);
    try (vm_compute; reflexivity).
  - constructor.
  - apply dir_scored_no_humanized.
Defined.
